(** * plpydbapi: a DB-API 2.0 layer on top of PL/Python

    A shallow embedding of [plpydbapi.py] (the [Connection] and [Cursor]
    classes, the parameter typing, the module-level [byte_types] table and
    [get_type_obj]) together with the properties of the cursor and
    connection life cycle that its specification states.

    Conventions.
    - Python integers are [Z]; list positions ([rownumber]) are [Z] as well,
      because the code lets them leave the range of the buffer.
    - A method is a function from the state it can touch to an [outcome]
      and the new state: a Python exception does not undo the assignments
      made before it was raised.
    - The host engine ([plpy]) is an interface: a type class whose
      operations answer from the history of the calls made so far. *)

From Stdlib Require Import ZArith String Ascii DecimalString.
From Stdlib.Strings Require Import Byte.
From stdpp Require Import base option list gmap strings.

Set Warnings "-register-all".
Local Open Scope Z_scope.

(** ** Python values *)

(** The runtime classes that [py_param_to_pg_type] can tell apart, and a
    class [Tobject] for every other one (named, deriving from [object]). *)
Inductive PyType :=
| Tbool | Tint | Tlong | Tfloat | TDecimal
| Tstr | Tunicode | Tbytes | Tmemoryview | Tbuffer | Tbytearray
| Tlist | Ttuple | TNoneType
| Tobject (name : string).

Global Instance PyType_eq_dec : EqDecision PyType.
Proof. solve_decision. Defined.

Inductive PyVal :=
| PyNone
| PyBool (b : bool)
| PyInt (n : Z)
| PyLong (n : Z)                      (* Python 2 [long] *)
| PyFloat (bits : Z)                  (* binary64, by its bit pattern *)
| PyDecimal (digits : string)         (* [decimal.Decimal], by its literal *)
| PyStr (s : string)
| PyUnicode (s : string)              (* Python 2 [unicode] *)
| PyBytes (b : list byte)             (* Python 3 [bytes] *)
| PyMemoryview (b : list byte)
| PyBuffer (b : list byte)            (* Python 2 [buffer] *)
| PyBytearray (b : list byte)
| PyList (items : list PyVal)
| PyTuple (items : list PyVal)
| PyObject (cls : string).

Definition type_of (v : PyVal) : PyType :=
  match v with
  | PyNone => TNoneType
  | PyBool _ => Tbool
  | PyInt _ => Tint
  | PyLong _ => Tlong
  | PyFloat _ => Tfloat
  | PyDecimal _ => TDecimal
  | PyStr _ => Tstr
  | PyUnicode _ => Tunicode
  | PyBytes _ => Tbytes
  | PyMemoryview _ => Tmemoryview
  | PyBuffer _ => Tbuffer
  | PyBytearray _ => Tbytearray
  | PyList _ => Tlist
  | PyTuple _ => Ttuple
  | PyObject cls => Tobject cls
  end.

(** [bool] is a subclass of [int]; the other classes above are unrelated. *)
Definition issubclass (a b : PyType) : bool :=
  bool_decide (a = b) ||
  match a, b with
  | Tbool, Tint => true
  | _, _ => false
  end.

Definition isinstance (v : PyVal) (t : PyType) : bool :=
  issubclass (type_of v) t.

(** [isinstance(v, (t1, ..., tn))] *)
Definition isinstance_any (v : PyVal) (ts : list PyType) : bool :=
  existsb (isinstance v) ts.

(** [param is None] *)
Definition is_None (v : PyVal) : bool :=
  match v with PyNone => true | _ => false end.

(** ** The interpreter and the module-level names *)

(** [sys.version[0] == '3'] *)
Class Interpreter := { python3 : bool }.

Section ModuleInterface.
Context `{Interpreter}.

(** The builtins the module looks up; [None] is a [NameError].
    In Python 2 [bytes] is an alias of [str] and [buffer] exists; in
    Python 3 [bytes] is a class of its own and [buffer] is gone. *)
Definition builtin_str : option PyType := Some Tstr.
Definition builtin_bytes : option PyType :=
  Some (if python3 then Tbytes else Tstr).
Definition builtin_memoryview : option PyType := Some Tmemoryview.
Definition builtin_buffer : option PyType :=
  if python3 then None else Some Tbuffer.
Definition builtin_bytearray : option PyType := Some Tbytearray.

(** [if sys.version[0] == '3': long = int] *)
Definition long : PyType := if python3 then Tint else Tlong.

(** [byte_types.append(t)] inside [try: ... except NameError: pass] *)
Definition append_if_defined (acc : list PyType) (name : option PyType)
  : list PyType :=
  match name with
  | Some t => acc ++ [t]
  | None => acc
  end.

(** Lines 31-50. *)
Definition byte_types : list PyType :=
  let byte_types := [] in
  let byte_types :=
    match builtin_bytes, builtin_str with
    | Some b, Some s =>
        if bool_decide (b ≠ s) then byte_types ++ [b] else byte_types
    | _, _ => byte_types
    end in
  let byte_types := append_if_defined byte_types builtin_memoryview in
  let byte_types := append_if_defined byte_types builtin_buffer in
  let byte_types := append_if_defined byte_types builtin_bytearray in
  byte_types.

(** [Cursor.py_param_to_pg_type], lines 245-265. *)
Definition py_param_to_pg_type (param : PyVal) : string :=
  if isinstance param Tbool then "bool"
  else if isinstance param TDecimal then "numeric"
  else if isinstance param Tfloat then "float8"
  else if isinstance param long then "int"
  else if isinstance param Tint then "int"
  else if isinstance_any param byte_types then "bytea"
  else if isinstance param Tlist then "text[]"
  else "text".

(** [hasattr(param, 'tobytes')]: among the classes above only
    [memoryview] has the method. *)
Definition has_tobytes (param : PyVal) : bool :=
  match param with PyMemoryview _ => true | _ => false end.

(** [param.tobytes()]: a [bytes] object, which in Python 2 is a [str]. *)
Definition tobytes (param : PyVal) : PyVal :=
  match param with
  | PyMemoryview b =>
      if python3 then PyBytes b else PyStr (string_of_list_byte b)
  | _ => param
  end.

(** The ordered table of checks the specification gives for the typing of
    a parameter, and the rule it is read with: the first check that holds
    decides. *)
Definition type_checks : list ((PyVal → bool) * string) :=
  [ (λ v, isinstance v Tbool, "bool");
    (λ v, isinstance v TDecimal, "numeric");
    (λ v, isinstance v Tfloat, "float8");
    (λ v, isinstance v long || isinstance v Tint, "int");
    (λ v, isinstance_any v byte_types, "bytea");
    (λ v, isinstance v Tlist, "text[]") ].

Definition first_match (checks : list ((PyVal → bool) * string))
    (fallback : string) (v : PyVal) : string :=
  match find (λ c, c.1 v) checks with
  | Some c => c.2
  | None => fallback
  end.

End ModuleInterface.

(** ** Exceptions, outcomes and the method monad *)

(** A [plpy.SPIError], by its message. *)
Inductive SPIError := spi_error (message : string).

Inductive exn :=
| Error (spierror : option SPIError)   (* [plpydbapi.Error(spierror)] *)
| HostError (e : SPIError)             (* [plpy.SPIError], host-native *)
| TypeError
| ValueError
| IndexError
| KeyError
| AttributeError
| StopIteration.

(** What a call does: it returns, it raises, or it leaves the fragment of
    Python that this development models ([Unmodelled]: a conversion of the
    [%] operator other than [%s] and [%%], [int()] of a value that is not
    an integer). *)
Inductive outcome (A : Type) :=
| Ret (a : A)
| Raise (e : exn)
| Unmodelled.
Arguments Ret {A} a.
Arguments Raise {A} e.
Arguments Unmodelled {A}.

(** A method over the state [S]: the state it leaves is returned with the
    outcome, also when it raises. *)
Definition M (S A : Type) : Type := S → outcome A * S.

Definition ret {S A} (a : A) : M S A := λ s, (Ret a, s).
Definition raise {S A} (e : exn) : M S A := λ s, (Raise e, s).
Definition unmodelled {S A} : M S A := λ s, (Unmodelled, s).
Definition bind {S A B} (m : M S A) (k : A → M S B) : M S B :=
  λ s, match m s with
       | (Ret a, s') => k a s'
       | (Raise e, s') => (Raise e, s')
       | (Unmodelled, s') => (Unmodelled, s')
       end.
Definition get {S} : M S S := λ s, (Ret s, s).
Definition modify {S} (f : S → S) : M S unit := λ s, (Ret tt, f s).

Notation "'let*' x ':=' m 'in' k" := (bind m (λ x, k))
  (at level 10, x pattern, m at level 100, k at level 200).
Notation "m ';;' k" := (bind m (λ _, k))
  (at level 100, k at level 200, right associativity).

(** [for x in xs: body x] *)
Fixpoint for_each {S A} (xs : list A) (body : A → M S unit) : M S unit :=
  match xs with
  | [] => ret tt
  | x :: xs' => body x ;; for_each xs' body
  end.

(** [[f x for x in xs]] *)
Fixpoint comprehension {S A B} (xs : list A) (f : A → M S B)
  : M S (list B) :=
  match xs with
  | [] => ret []
  | x :: xs' =>
      let* y := f x in
      let* ys := comprehension xs' f in
      ret (y :: ys)
  end.

(** Runs a method over a component of the state. *)
Definition zoom {S T A} (proj : S → T) (inj : T → S → S) (m : M T A)
  : M S A :=
  λ s, let '(o, t) := m (proj s) in (o, inj t s).

(** The exceptions that come from the host engine, not from the shim. *)
Definition host_native (e : exn) : bool :=
  match e with HostError _ => true | _ => false end.

(** ** Python sequences *)

Definition len {A} (l : list A) : Z := Z.of_nat (length l).

(** [l[i]]: a negative index counts from the end. *)
Definition py_index {S A} (l : list A) (i : Z) : M S A :=
  let i := if i <? 0 then i + len l else i in
  if (i <? 0) || (len l <=? i) then raise IndexError
  else match l !! Z.to_nat i with
       | Some x => ret x
       | None => raise IndexError
       end.

(** How a slice bound is clipped: [PySlice_AdjustIndices] with step 1. *)
Definition clip_bound {A} (l : list A) (i : Z) : Z :=
  let i := if i <? 0 then i + len l else i in
  if i <? 0 then 0 else if len l <? i then len l else i.

(** [l[a:b]] *)
Definition py_slice {A} (l : list A) (a b : Z) : list A :=
  let a := clip_bound l a in
  let b := clip_bound l b in
  take (Z.to_nat (b - a)) (drop (Z.to_nat a) l).

(** [l[a:]] *)
Definition py_slice_from {A} (l : list A) (a : Z) : list A :=
  drop (Z.to_nat (clip_bound l a)) l.

(** A dictionary in the order of its keys (a PL/Python result row). *)
Definition Row : Type := list (string * PyVal).

(** [row[col]] *)
Fixpoint py_getitem {S} (row : Row) (col : string) : M S PyVal :=
  match row with
  | [] => raise KeyError
  | (k, v) :: row' => if String.eqb k col then ret v else py_getitem row' col
  end.

(** [row.keys()], and the keys that [for col in row] runs through *)
Definition keys (row : Row) : list string := map fst row.

(** [int(v)] for the integer classes. *)
Definition py_int {S} (v : PyVal) : M S Z :=
  match v with
  | PyInt n | PyLong n => ret n
  | PyBool b => ret (if b then 1 else 0)
  | _ => unmodelled
  end.

(** ** The [%] operator *)

(** ["$%d" % i] *)
Definition dollar (i : Z) : string :=
  "$" +:+ (if i <? 0 then "-" else "") +:+
  NilEmpty.string_of_uint (N.to_uint (Z.abs_N i)).

(** [operation % tuple(args)] for arguments that are strings: [%s] takes
    the next argument, [%%] is a percent sign; a [%] at the end is a
    [ValueError], a missing argument and an argument left over are
    [TypeError]s. Every other conversion is outside the model. *)
Fixpoint py_format (operation : string) (args : list string)
  : outcome string :=
  match operation with
  | EmptyString =>
      match args with
      | [] => Ret EmptyString
      | _ :: _ => Raise TypeError
      end
  | String "%" EmptyString => Raise ValueError
  | String "%" (String "%" rest) =>
      match py_format rest args with
      | Ret s => Ret (String "%" s)
      | o => o
      end
  | String "%" (String "s" rest) =>
      match args with
      | [] => Raise TypeError
      | a :: args' =>
          match py_format rest args' with
          | Ret s => Ret (a +:+ s)
          | o => o
          end
      end
  | String "%" (String _ _) => Unmodelled
  | String c rest =>
      match py_format rest args with
      | Ret s => Ret (String c s)
      | o => o
      end
  end.

(** ** The host engine *)

(** What [plpy.prepare] returns. *)
Record Plan := { plan_query : string; plan_argtypes : list string }.

(** What [plpy.execute] returns: [status()], [nrows()], whether the class
    of the result has the [colnames] method (PostgreSQL 9.2 and later),
    [colnames()], [coltypes()] and the rows. *)
Record SPIResult := {
  status : Z;
  nrows : Z;
  has_colnames : bool;
  colnames : list string;
  coltypes : list Z;
  rows : list Row }.

(** The calls made to the host so far, oldest first. A subtransaction
    object is named by the length of the history at its creation. *)
Inductive HostEvent :=
| EvEnter (subxact : nat)
    (* [subxact.enter()] *)
| EvExit (subxact : nat) (exc_type : option string)
    (* [subxact.exit(exc_type, None, None)] *)
| EvPrepare (query : string) (argtypes : list string)
| EvExecute (plan : Plan) (values : list PyVal).

(** The [plpy] module. Each call answers from the history: the host is
    deterministic, nothing else is assumed of it. *)
Class Plpy := {
  spi_prepare :
    list HostEvent → string → list string → SPIError + Plan;
  spi_execute :
    list HostEvent → Plan → list PyVal → SPIError + SPIResult }.

(** ** Objects *)

(** The type objects of the module. *)
Inductive TypeObj := STRING | BINARY | NUMBER | DATETIME | ROWID.

(** A [Connection] object. The class attributes [closed = False] and
    [_subxact = None] are what an object reads before it assigns them. *)
Record Connection := {
  conn_closed : bool;            (* [closed] *)
  _subxact : option nat }.

Definition Connection_class : Connection :=
  {| conn_closed := false; _subxact := None |}.

(** An entry of [description]: [(name, type_code, None, None, None, None,
    None)], without its five last components. *)
Definition DescItem : Type := option string * option TypeObj.

(** A [Cursor] object; [connection] is a reference into the heap of
    connections, because the cursors of a connection share it. *)
Record Cursor := {
  description : option (list DescItem);
  rowcount : Z;
  arraysize : Z;
  rownumber : option Z;
  closed : bool;
  connection : option nat;
  _execute_result : option (list (list PyVal)) }.

Definition Cursor_class : Cursor :=
  {| description := None; rowcount := -1; arraysize := 1; rownumber := None;
     closed := false; connection := None; _execute_result := None |}.

(** The process: the connections that exist, the history of the host and
    the module-level dictionary [_typoid_typeobjs]. *)
Record World := {
  connections : gmap nat Connection;
  allocated : nat;
  history : list HostEvent;
  _typoid_typeobjs : gmap Z TypeObj }.

Definition initial_world : World :=
  {| connections := ∅; allocated := 0%nat; history := [];
     _typoid_typeobjs := ∅ |}.

Definition the_connection (w : World) (self : nat) : Connection :=
  default Connection_class (connections w !! self).

Definition set_connection (self : nat) (c : Connection) : M World unit :=
  modify (λ w, {| connections := <[self := c]> (connections w);
                  allocated := allocated w; history := history w;
                  _typoid_typeobjs := _typoid_typeobjs w |}).

Definition log_event (ev : HostEvent) (w : World) : World :=
  {| connections := connections w; allocated := allocated w;
     history := history w ++ [ev];
     _typoid_typeobjs := _typoid_typeobjs w |}.

Definition record_event (ev : HostEvent) : M World unit :=
  modify (log_event ev).

Definition set_typoid_typeobj (oid : Z) (t : TypeObj) : M World unit :=
  modify (λ w, {| connections := connections w; allocated := allocated w;
                  history := history w;
                  _typoid_typeobjs := <[oid := t]> (_typoid_typeobjs w) |}).

(** [connect()]: a new [Connection] object. *)
Definition connect : M World nat :=
  λ w, (Ret (allocated w),
        {| connections := <[allocated w := Connection_class]> (connections w);
           allocated := S (allocated w); history := history w;
           _typoid_typeobjs := _typoid_typeobjs w |}).

Module plpy.
Section Host.
Context `{Plpy}.

(** [plpy.prepare(query, types)] *)
Definition prepare (query : string) (types : list string) : M World Plan :=
  let* w := get in
  record_event (EvPrepare query types) ;;
  match spi_prepare (history w) query types with
  | inl e => raise (HostError e)
  | inr plan => ret plan
  end.

(** [plpy.execute(plan, values)] *)
Definition execute (plan : Plan) (values : list PyVal) : M World SPIResult :=
  let* w := get in
  record_event (EvExecute plan values) ;;
  match spi_execute (history w) plan values with
  | inl e => raise (HostError e)
  | inr res => ret res
  end.
End Host.
End plpy.

(** [try: m except plpy.SPIError as e: handler e] *)
Definition except_SPIError {S A} (m : M S A) (handler : SPIError → M S A)
  : M S A :=
  λ s, match m s with
       | (Raise (HostError e), s') => handler e s'
       | r => r
       end.

(** ** Connection objects (lines 101-154) *)

Module Connection.

Definition set_closed (self : nat) (b : bool) : M World unit :=
  let* w := get in
  set_connection self
    {| conn_closed := b; _subxact := _subxact (the_connection w self) |}.

Definition set_subxact (self : nat) (x : option nat) : M World unit :=
  let* w := get in
  set_connection self
    {| conn_closed := conn_closed (the_connection w self); _subxact := x |}.

Definition rollback (self : nat) : M World unit :=
  let* w := get in
  if conn_closed (the_connection w self) then raise (Error None)
  else
    match _subxact (the_connection w self) with
    | Some x => record_event (EvExit x (Some "fake exception"))
    | None => ret tt
    end ;;
    set_subxact self None.

Definition commit (self : nat) : M World unit :=
  let* w := get in
  if conn_closed (the_connection w self) then raise (Error None)
  else
    match _subxact (the_connection w self) with
    | Some x => record_event (EvExit x None)
    | None => ret tt
    end ;;
    set_subxact self None.

Definition close (self : nat) : M World unit :=
  let* w := get in
  if conn_closed (the_connection w self) then raise (Error None)
  else
    rollback self ;;
    set_closed self true.

Definition _ensure_transaction (self : nat) : M World unit :=
  let* w := get in
  match _subxact (the_connection w self) with
  | None =>
      let x := length (history w) in
      set_subxact self (Some x) ;;
      record_event (EvEnter x)
  | Some _ => ret tt
  end.

(** [cursor()]: a new [Cursor] whose [connection] is this object. *)
Definition cursor (self : nat) : Cursor :=
  {| description := description Cursor_class;
     rowcount := rowcount Cursor_class;
     arraysize := arraysize Cursor_class;
     rownumber := rownumber Cursor_class;
     closed := closed Cursor_class;
     connection := Some self;
     _execute_result := _execute_result Cursor_class |}.

Definition __exit__ (self : nat) : M World unit := close self.

End Connection.

(** ** Type objects (lines 389-415) *)

Definition _typname_typeobjs : gmap string TypeObj :=
  {[ "bytea" := BINARY ]}.

Definition _typcategory_typeobjs : gmap string TypeObj :=
  {[ "D" := DATETIME; "N" := NUMBER; "S" := STRING; "T" := DATETIME ]}.

(** [d[key]] behind a test [key in d], for a dictionary whose keys are
    strings: a text is looked up by its characters, a list or a byte array
    cannot be hashed, a number or [None] is not a key; the hash of a view,
    of a tuple and of an object of another class is outside the model. *)
Definition dict_get {S} (d : gmap string TypeObj) (key : PyVal)
  : M S (option TypeObj) :=
  match key with
  | PyStr s | PyUnicode s => ret (d !! s)
  | PyList _ | PyBytearray _ => raise TypeError
  | PyMemoryview _ | PyBuffer _ | PyTuple _ | PyObject _ => unmodelled
  | _ => ret None
  end.

Section TypeObjects.
Context `{Plpy}.

(** The body of the loop of [get_type_obj]. *)
Definition register_type (row : Row) : M World unit :=
  let* typcategory := py_getitem row "typcategory" in
  let* by_category := dict_get _typcategory_typeobjs typcategory in
  match by_category with
  | Some t =>
      let* oid := py_getitem row "oid" in
      let* oid := py_int oid in
      set_typoid_typeobj oid t
  | None =>
      let* typname := py_getitem row "typname" in
      let* by_name := dict_get _typname_typeobjs typname in
      match by_name with
      | Some t =>
          let* oid := py_getitem row "oid" in
          let* oid := py_int oid in
          set_typoid_typeobj oid t
      | None => ret tt
      end
  end.

Definition get_type_obj (typeoid : Z) : M World (option TypeObj) :=
  let* w := get in
  (if bool_decide (_typoid_typeobjs w = ∅) then
     let* plan :=
       plpy.prepare "SELECT oid, typname, typcategory FROM pg_type" [] in
     let* res := plpy.execute plan [] in
     for_each (rows res) register_type
   else ret tt) ;;
  let* w := get in
  ret (_typoid_typeobjs w !! typeoid).
End TypeObjects.

(** ** Cursor objects (lines 160-332) *)

Module Cursor.

Definition _SPI_OK_UTILITY : Z := 4.
Definition _SPI_OK_SELECT : Z := 5.
Definition _SPI_OK_INSERT_RETURNING : Z := 11.
Definition _SPI_OK_DELETE_RETURNING : Z := 12.
Definition _SPI_OK_UPDATE_RETURNING : Z := 13.

(** A cursor method works on the world and on [self]. *)
Definition method (A : Type) : Type := M (World * Cursor) A.

Definition self : method Cursor := λ s, (Ret s.2, s).
Definition world : method World := λ s, (Ret s.1, s).
Definition in_world {A} (m : M World A) : method A :=
  zoom fst (λ w s, (w, s.2)) m.
Definition assign (f : Cursor → Cursor) : method unit :=
  modify (λ s, (s.1, f s.2)).

Definition set_description (v : option (list DescItem)) (c : Cursor) :=
  {| description := v; rowcount := rowcount c; arraysize := arraysize c;
     rownumber := rownumber c; closed := closed c;
     connection := connection c; _execute_result := _execute_result c |}.
Definition set_rowcount (v : Z) (c : Cursor) :=
  {| description := description c; rowcount := v; arraysize := arraysize c;
     rownumber := rownumber c; closed := closed c;
     connection := connection c; _execute_result := _execute_result c |}.
Definition set_rownumber (v : option Z) (c : Cursor) :=
  {| description := description c; rowcount := rowcount c;
     arraysize := arraysize c; rownumber := v; closed := closed c;
     connection := connection c; _execute_result := _execute_result c |}.
Definition set_closed (v : bool) (c : Cursor) :=
  {| description := description c; rowcount := rowcount c;
     arraysize := arraysize c; rownumber := rownumber c; closed := v;
     connection := connection c; _execute_result := _execute_result c |}.
Definition set_execute_result (v : option (list (list PyVal))) (c : Cursor) :=
  {| description := description c; rowcount := rowcount c;
     arraysize := arraysize c; rownumber := rownumber c; closed := closed c;
     connection := connection c; _execute_result := v |}.

Definition close : method unit := assign (set_closed true).

(** [self.closed or self.connection.closed]; a cursor that was not made
    by [Connection.cursor] has [connection = None]. *)
Definition _is_closed : method bool :=
  let* c := self in
  if closed c then ret true
  else match connection c with
       | None => raise AttributeError
       | Some conn =>
           let* w := world in
           ret (conn_closed (the_connection w conn))
       end.

(** The local variables of the loop of [execute] (lines 193-196). *)
Record Binding := {
  placeholders : list string;
  types : list string;
  values : list PyVal;
  i : Z }.

Section Execute.
Context `{Interpreter} `{Plpy}.

(** The body of [for param in parameters] (lines 198-209). *)
Definition bind_param (b : Binding) (param : PyVal) : Binding :=
  if is_None param then
    {| placeholders := placeholders b ++ ["NULL"]; types := types b;
       values := values b; i := i b |}
  else
    let i := i b + 1 in
    let placeholders := placeholders b ++ [dollar i] in
    let types := types b ++ [py_param_to_pg_type param] in
    let values :=
      if bool_decide (last types = Some "bytea") && has_tobytes param
      then values b ++ [tobytes param]
      else values b ++ [param] in
    {| placeholders := placeholders; types := types; values := values;
       i := i |}.

(** Lines 193-209. *)
Definition bind_parameters (parameters : list PyVal) : Binding :=
  fold_left bind_param parameters
    {| placeholders := []; types := []; values := []; i := 0 |}.

(** Lines 226 and 228: the rows of the result as tuples. *)
Definition materialize (res : SPIResult) : method (list (list PyVal)) :=
  if has_colnames res then
    comprehension (rows res) (λ row,
      comprehension (colnames res) (λ col, py_getitem row col))
  else
    comprehension (rows res) (λ row,
      comprehension (keys row) (λ col, py_getitem row col)).

(** Lines 230-238. *)
Definition describe (res : SPIResult) : method (list DescItem) :=
  if has_colnames res then
    comprehension (zip (colnames res) (coltypes res)) (λ '(name, typeoid),
      let* t := in_world (get_type_obj typeoid) in
      ret (Some name, t))
  else if 0 <? len (rows res) then
    let* row := py_index (rows res) 0 in
    comprehension (keys row) (λ name, ret (Some name, None))
  else
    ret [(None, None)].

(** Lines 217-243: what [execute] does with the result of the host. *)
Definition store_result (res : SPIResult) : method unit :=
  assign (set_execute_result None) ;;
  assign (set_rownumber None) ;;
  assign (set_description None) ;;
  assign (set_rowcount (-1)) ;;
  (if bool_decide (status res ∈ [_SPI_OK_SELECT; _SPI_OK_INSERT_RETURNING;
                                 _SPI_OK_DELETE_RETURNING;
                                 _SPI_OK_UPDATE_RETURNING]) then
     let* tuples := materialize res in
     assign (set_execute_result (Some tuples)) ;;
     assign (set_rownumber (Some 0)) ;;
     let* d := describe res in
     assign (set_description (Some d))
   else ret tt) ;;
  if status res =? _SPI_OK_UTILITY then assign (set_rowcount (-1))
  else assign (set_rowcount (nrows res)).

(** [parameters or []] *)
Definition or_empty (parameters : option (list PyVal)) : list PyVal :=
  match parameters with
  | Some (p :: ps) => p :: ps
  | _ => []
  end.

(** Lines 185-243. *)
Definition execute (operation : string)
    (parameters : option (list PyVal)) : method unit :=
  let* is_closed := _is_closed in
  if is_closed then raise (Error None)
  else
    let* c := self in
    match connection c with
    | None => raise AttributeError
    | Some conn =>
        in_world (Connection._ensure_transaction conn) ;;
        let parameters := or_empty parameters in
        let b := bind_parameters parameters in
        let* query := (λ s, (py_format operation (placeholders b), s)) in
        let* res :=
          except_SPIError
            (in_world (let* plan := plpy.prepare query (types b) in
                       plpy.execute plan (values b)))
            (λ e, raise (Error (Some e))) in
        store_result res
    end.

(** Lines 267-275; [totalcount] is threaded through the loop. *)
Fixpoint executemany_loop (operation : string)
    (seq_of_parameters : list (option (list PyVal))) (totalcount : Z)
  : method Z :=
  match seq_of_parameters with
  | [] => ret totalcount
  | parameters :: rest =>
      execute operation parameters ;;
      let* c := self in
      let totalcount :=
        if negb (totalcount =? -1) then totalcount + rowcount c
        else totalcount in
      executemany_loop operation rest totalcount
  end.

Definition executemany (operation : string)
    (seq_of_parameters : list (option (list PyVal))) : method unit :=
  let totalcount := 0 in
  let* totalcount := executemany_loop operation seq_of_parameters totalcount in
  assign (set_rowcount totalcount).
End Execute.

(** Lines 277-284. *)
Definition fetchone : method (option (list PyVal)) :=
  let* c := self in
  match _execute_result c with
  | None => raise (Error None)
  | Some result =>
      match rownumber c with
      | None => raise TypeError          (* a list index that is [None] *)
      | Some n =>
          if n =? len result then ret None
          else
            let* row := py_index result n in
            assign (set_rownumber (Some (n + 1))) ;;
            ret (Some row)
      end
  end.

(** Lines 286-293. *)
Definition fetchmany (size : option Z) : method (list (list PyVal)) :=
  let* c := self in
  match _execute_result c with
  | None => raise (Error None)
  | Some result =>
      let size := match size with None => arraysize c | Some n => n end in
      match rownumber c with
      | None => raise TypeError          (* [None + size] *)
      | Some n =>
          let rows := py_slice result n (n + size) in
          assign (set_rownumber (Some (n + size))) ;;
          ret rows
      end
  end.

(** Lines 295-300. *)
Definition fetchall : method (list (list PyVal)) :=
  let* c := self in
  match _execute_result c with
  | None => raise (Error None)
  | Some result =>
      let rows :=
        match rownumber c with
        | None => result                 (* [result[None:]] *)
        | Some n => py_slice_from result n
        end in
      assign (set_rownumber (Some (len result))) ;;
      ret rows
  end.

(** Lines 302-306. *)
Definition next : method (list PyVal) :=
  let* result := fetchone in
  match result with
  | None => raise StopIteration
  | Some row => ret row
  end.

(** Lines 308-317. [len(None)] and [None + value] are [TypeError]s. *)
Definition scroll (value : Z) (mode : string) : method unit :=
  let* c := self in
  let* newpos :=
    if String.eqb mode "relative" then
      match rownumber c with
      | None => raise TypeError
      | Some n => ret (n + value)
      end
    else if String.eqb mode "absolute" then ret value
    else raise ValueError in
  match _execute_result c with
  | None => if newpos <? 0 then raise IndexError else raise TypeError
  | Some result =>
      if (newpos <? 0) || (len result <? newpos) then raise IndexError
      else assign (set_rownumber (Some newpos))
  end.

Definition __exit__ : method unit := close.

End Cursor.

(** ** A concrete interpreter and host, for the examples *)

Definition python2 : Interpreter := {| python3 := false |}.
Definition python_3 : Interpreter := {| python3 := true |}.

(** The answer to [select name from booze]: two rows of one column. *)
Definition booze : SPIResult :=
  {| status := 5; nrows := 2; has_colnames := true;
     colnames := ["name"]; coltypes := [25];
     rows := [ [("name", PyStr "Victoria Bitter")];
               [("name", PyStr "Cooper's")] ] |}.

(** The answer to the query of [get_type_obj]. *)
Definition pg_type : SPIResult :=
  {| status := 5; nrows := 2; has_colnames := true;
     colnames := ["oid"; "typname"; "typcategory"]; coltypes := [26; 19; 18];
     rows := [ [("oid", PyInt 25); ("typname", PyStr "text");
                ("typcategory", PyStr "S")];
               [("oid", PyInt 17); ("typname", PyStr "bytea");
                ("typcategory", PyStr "U")] ] |}.

(** A command that is not a utility command and touched [n] rows. *)
Definition touched (n : Z) : SPIResult :=
  {| status := 7; nrows := n; has_colnames := true;
     colnames := []; coltypes := []; rows := [] |}.

(** A utility command. *)
Definition utility : SPIResult :=
  {| status := 4; nrows := 0; has_colnames := true;
     colnames := []; coltypes := []; rows := [] |}.

(** A host that knows three statements and takes every other one that does
    not start with [bogus] for a utility command. The statement [tally $1]
    is a utility command when its argument is [0] and touches two rows
    otherwise. *)
Definition demo_plpy : Plpy :=
  {| spi_prepare := λ _ query argtypes,
       if String.prefix "bogus" query
       then inl (spi_error "syntax error at or near bogus")
       else inr {| plan_query := query; plan_argtypes := argtypes |};
     spi_execute := λ _ plan values,
       if String.eqb (plan_query plan) "select name from booze"
       then inr booze
       else if String.eqb (plan_query plan)
                 "SELECT oid, typname, typcategory FROM pg_type"
       then inr pg_type
       else if String.eqb (plan_query plan) "tally $1"
       then match values with
            | [PyInt 0] => inr utility
            | _ => inr (touched 2)
            end
       else inr utility |}.

(** The host of [demo_plpy], except that it cancels the query that
    [get_type_obj] makes. *)
Definition cancelling_plpy : Plpy :=
  {| spi_prepare := @spi_prepare demo_plpy;
     spi_execute := λ h plan values,
       if String.eqb (plan_query plan)
            "SELECT oid, typname, typcategory FROM pg_type"
       then inl (spi_error "canceling statement due to statement timeout")
       else @spi_execute demo_plpy h plan values |}.

(** A cursor of a new connection in a new process. *)
Definition fresh : World * Cursor :=
  let '(o, w) := connect initial_world in
  (w, Connection.cursor 0%nat).

(** The state a method leaves, and its outcome. *)
Definition state_after {S A} (m : M S A) (s : S) : S := (m s).2.
Definition outcome_of {S A} (m : M S A) (s : S) : outcome A := (m s).1.

(** ** Notions the properties are stated with *)

(** The parameters that are not [None], in their order. *)
Definition non_null (parameters : list PyVal) : list PyVal :=
  filter (λ v, is_None v = false) parameters.

(** The placeholders of a parameter list when [k] placeholders have been
    numbered already. *)
Fixpoint placeholders_from (k : Z) (parameters : list PyVal) : list string :=
  match parameters with
  | [] => []
  | v :: rest =>
      if is_None v then "NULL" :: placeholders_from k rest
      else dollar (k + 1) :: placeholders_from (k + 1) rest
  end.

(** The value queued for a parameter that is not [None]. *)
Definition queued `{Interpreter} (param : PyVal) : PyVal :=
  if bool_decide (py_param_to_pg_type param = "bytea") && has_tobytes param
  then tobytes param else param.

(** The state after [self.connection._ensure_transaction()]. *)
Definition begun (conn : nat) (s : World * Cursor) : World * Cursor :=
  state_after (Cursor.in_world (Connection._ensure_transaction conn)) s.

(** The bindings that [execute] makes of its parameters. *)
Definition submit `{Interpreter} (operation : string)
    (parameters : option (list PyVal)) : Cursor.Binding :=
  Cursor.bind_parameters (Cursor.or_empty parameters).

(** [statement]: the two host calls that [execute] makes for its statement
    (lines 212-213). [finish]: what [execute] does once the placeholders
    are substituted (lines 211-243), the two calls inside the [try] block
    and then the handling of the result. *)
Definition statement `{Plpy} (query : string) (b : Cursor.Binding)
  : Cursor.method SPIResult :=
  Cursor.in_world
    (let* plan := plpy.prepare query (Cursor.types b) in
     plpy.execute plan (Cursor.values b)).

Definition finish `{Plpy} (query : string) (b : Cursor.Binding)
  : Cursor.method unit :=
  let* res :=
    except_SPIError (statement query b) (λ e, raise (Error (Some e))) in
  Cursor.store_result res.

(** A statement [first %s s1 %s s2 ...] whose pieces hold no percent sign,
    and the same statement with the markers replaced by [args]. *)
Fixpoint template (first : string) (rest : list string) : string :=
  match rest with
  | [] => first
  | s :: rest' => first +:+ "%s" +:+ template s rest'
  end.

Fixpoint splice (first : string) (rest args : list string) : string :=
  match rest, args with
  | s :: rest', a :: args' => first +:+ a +:+ splice s rest' args'
  | _, _ => first
  end.

Fixpoint percent_free (s : string) : bool :=
  match s with
  | EmptyString => true
  | String c s' => negb (Ascii.eqb c "%") && percent_free s'
  end.

(** [n] calls of [fetchone], with what each returned. *)
Fixpoint fetchone_times (n : nat) (s : World * Cursor)
  : list (outcome (option (list PyVal))) * (World * Cursor) :=
  match n with
  | O => ([], s)
  | S n' =>
      let '(o, s') := Cursor.fetchone s in
      let '(os, s'') := fetchone_times n' s' in
      (o :: os, s'')
  end.

(** The row counts that the executions of [executemany] leave one after
    the other, when each of them returns. *)
Fixpoint executions `{Interpreter} `{Plpy} (operation : string)
    (seq_of_parameters : list (option (list PyVal))) (s : World * Cursor)
  : option (list Z * (World * Cursor)) :=
  match seq_of_parameters with
  | [] => Some ([], s)
  | parameters :: rest =>
      match Cursor.execute operation parameters s with
      | (Ret _, s') =>
          match executions operation rest s' with
          | Some (rowcounts, s'') => Some (rowcount s'.2 :: rowcounts, s'')
          | None => None
          end
      | _ => None
      end
  end.

(** The row count [executemany] ends with, from the row counts that the
    executions left one after the other (lines 270-274). *)
Definition accumulate (totalcount : Z) (rowcounts : list Z) : Z :=
  fold_left (λ total rc, if negb (total =? -1) then total + rc else total)
    rowcounts totalcount.

(** The cursor of [fresh] after a query that returned two rows, and the
    same cursor after [close()]. *)
Definition selected : World * Cursor :=
  state_after (@Cursor.execute python2 demo_plpy "select name from booze" None)
    fresh.

Definition selected_closed : World * Cursor :=
  state_after Cursor.close selected.

(** The four attributes that [execute] resets (lines 217-220). *)
Definition reset (c : Cursor) : Cursor :=
  Cursor.set_rowcount (-1)
    (Cursor.set_description None
       (Cursor.set_rownumber None (Cursor.set_execute_result None c))).

(** A cursor that holds a result buffer has a position in it. *)
Definition positioned (s : World * Cursor) : Prop :=
  _execute_result s.2 ≠ None → rownumber s.2 ≠ None.

(** [m] keeps the property [P] of the state, whatever its outcome. *)
Definition preserves {S A} (P : S → Prop) (m : M S A) : Prop :=
  ∀ s, P s → P (m s).2.

(** ** Further notions *)

(** [n] calls of a method one after the other, with what each did. *)
Fixpoint calls {S A} (m : M S A) (n : nat) (s : S) : list (outcome A) * S :=
  match n with
  | O => ([], s)
  | S n' =>
      let '(o, s') := m s in
      let '(os, s'') := calls m n' s' in
      (o :: os, s'')
  end.

(** The first value under a key of a row, when there is one. *)
Fixpoint assoc (row : Row) (col : string) : option PyVal :=
  match row with
  | [] => None
  | (k, v) :: row' => if String.eqb k col then Some v else assoc row' col
  end.

(** The statuses that come with rows (lines 222-223), and the row count
    that [execute] records (lines 240-243). *)
Definition row_returning (res : SPIResult) : bool :=
  bool_decide (status res ∈ [Cursor._SPI_OK_SELECT;
                             Cursor._SPI_OK_INSERT_RETURNING;
                             Cursor._SPI_OK_DELETE_RETURNING;
                             Cursor._SPI_OK_UPDATE_RETURNING]).

Definition recorded_rowcount (res : SPIResult) : Z :=
  if status res =? Cursor._SPI_OK_UTILITY then -1 else nrows res.

(** The cursor after a result with rows was stored. *)
Definition with_rows (tuples : list (list PyVal)) (d : list DescItem)
    (n : Z) (c : Cursor) : Cursor :=
  Cursor.set_rowcount n
    (Cursor.set_description (Some d)
       (Cursor.set_rownumber (Some 0)
          (Cursor.set_execute_result (Some tuples) (reset c)))).

(** A row of [pg_type] as the query of [get_type_obj] selects it, the type
    object that the two dictionaries give a type of that name and
    category, and the type cache after one more row. *)
Definition catalogue_row (t : Z * string * string) : Row :=
  let '(oid, typname, typcategory) := t in
  [("oid", PyInt oid); ("typname", PyStr typname);
   ("typcategory", PyStr typcategory)].

Definition type_object (typname typcategory : string) : option TypeObj :=
  match _typcategory_typeobjs !! typcategory with
  | Some t => Some t
  | None => _typname_typeobjs !! typname
  end.

Definition learn (cache : gmap Z TypeObj) (t : Z * string * string)
  : gmap Z TypeObj :=
  let '(oid, typname, typcategory) := t in
  match type_object typname typcategory with
  | Some o => <[oid := o]> cache
  | None => cache
  end.

Definition with_cache (cache : gmap Z TypeObj) (w : World) : World :=
  {| connections := connections w; allocated := allocated w;
     history := history w; _typoid_typeobjs := cache |}.

Definition catalogue_query : string :=
  "SELECT oid, typname, typcategory FROM pg_type".

(** The host of [demo_plpy] before PostgreSQL 9.2: its results have no
    [colnames] method. *)
Definition old_booze : SPIResult :=
  {| status := 5; nrows := 2; has_colnames := false;
     colnames := []; coltypes := [];
     rows := [ [("name", PyStr "Victoria Bitter")];
               [("name", PyStr "Cooper's")] ] |}.

Definition old_plpy : Plpy :=
  {| spi_prepare := @spi_prepare demo_plpy;
     spi_execute := λ h plan values,
       if String.eqb (plan_query plan) "select name from booze"
       then inr old_booze
       else @spi_execute demo_plpy h plan values |}.

(** The classes that have values in the interpreter: [long], [unicode]
    and [buffer] are classes of Python 2 only, and a [bytes] object that is
    not a [str] is one of Python 3 only. *)
Definition inhabited_class `{Interpreter} (v : PyVal) : bool :=
  match v with
  | PyLong _ | PyUnicode _ | PyBuffer _ => negb python3
  | PyBytes _ => python3
  | _ => true
  end.

(** ** Constructors of literals (lines 338-347) *)

(** ['%0Nd' % n] for an integer [n]: the decimal digits of [n], after the
    sign when [n] is negative, with zeros in between up to [N] characters
    in all. *)
Fixpoint zeros (k : nat) : string :=
  match k with
  | O => ""
  | S k' => String "0" (zeros k')
  end.

Definition zero_padded (width : nat) (n : Z) : string :=
  let sign := if n <? 0 then "-" else "" in
  let digits := NilEmpty.string_of_uint (N.to_uint (Z.abs_N n)) in
  sign +:+
  zeros (width - String.length sign - String.length digits) +:+
  digits.

(** ['%04d-%02d-%02d' % (year, month, day)] *)
Definition Date (year month day : Z) : string :=
  zero_padded 4 year +:+ "-" +:+ zero_padded 2 month +:+ "-" +:+
  zero_padded 2 day.

(** ['%02d:%02d:%02d' % (hour, minute, second)] *)
Definition Time (hour minute second : Z) : string :=
  zero_padded 2 hour +:+ ":" +:+ zero_padded 2 minute +:+ ":" +:+
  zero_padded 2 second.

(** ['%04d-%02d-%02d %02d:%02d:%02d' % (year, ..., second)] *)
Definition Timestamp (year month day hour minute second : Z) : string :=
  zero_padded 4 year +:+ "-" +:+ zero_padded 2 month +:+ "-" +:+
  zero_padded 2 day +:+ " " +:+ zero_padded 2 hour +:+ ":" +:+
  zero_padded 2 minute +:+ ":" +:+ zero_padded 2 second.

(** The number that a text of decimal digits writes, and the three numbers
    of a text of the shape [YYYY-MM-DD]. *)
Definition read_number (s : string) : option Z :=
  (λ d, Z.of_N (N.of_uint d)) <$> NilEmpty.uint_of_string s.

Definition read_date (s : string) : option (Z * Z * Z) :=
  match s with
  | String y1 (String y2 (String y3 (String y4 (String "-"
      (String m1 (String m2 (String "-" (String d1 (String d2 ""))))))))) =>
      y ← read_number (String y1 (String y2 (String y3 (String y4 ""))));
      m ← read_number (String m1 (String m2 ""));
      d ← read_number (String d1 (String d2 ""));
      Some (y, m, d)
  | _ => None
  end.

(** Whether [zero_padded] writes [n] in exactly four, or two, characters
    that read back as [n]. *)
Definition four_digits (n : Z) : bool :=
  match zero_padded 4 n with
  | String a (String b (String c (String d ""))) =>
      bool_decide
        (read_number (String a (String b (String c (String d "")))) = Some n)
  | _ => false
  end.

Definition two_digits (n : Z) : bool :=
  match zero_padded 2 n with
  | String a (String b "") =>
      bool_decide (read_number (String a (String b "")) = Some n)
  | _ => false
  end.

(** ** Sequences of calls *)

(** A call of a method of the cursor or of a connection, or of [connect],
    by a caller that goes on after an exception. *)
Inductive call :=
| Call_execute (operation : string) (parameters : option (list PyVal))
| Call_executemany (operation : string)
    (seq_of_parameters : list (option (list PyVal)))
| Call_fetchone
| Call_fetchmany (size : option Z)
| Call_fetchall
| Call_next
| Call_scroll (value : Z) (mode : string)
| Call_close
| Call_commit (conn : nat)
| Call_rollback (conn : nat)
| Call_close_connection (conn : nat)
| Call_connect.

(** The call without what it returns. *)
Definition forget {S A} (m : M S A) : M S unit := m ;; ret tt.

Definition perform `{Interpreter} `{Plpy} (c : call) : Cursor.method unit :=
  match c with
  | Call_execute operation parameters => Cursor.execute operation parameters
  | Call_executemany operation seq_of_parameters =>
      Cursor.executemany operation seq_of_parameters
  | Call_fetchone => forget Cursor.fetchone
  | Call_fetchmany size => forget (Cursor.fetchmany size)
  | Call_fetchall => forget Cursor.fetchall
  | Call_next => forget Cursor.next
  | Call_scroll value mode => Cursor.scroll value mode
  | Call_close => Cursor.close
  | Call_commit conn => Cursor.in_world (Connection.commit conn)
  | Call_rollback conn => Cursor.in_world (Connection.rollback conn)
  | Call_close_connection conn => Cursor.in_world (Connection.close conn)
  | Call_connect => Cursor.in_world (forget connect)
  end.

Fixpoint perform_all `{Interpreter} `{Plpy} (cs : list call)
    (s : World * Cursor) : World * Cursor :=
  match cs with
  | [] => s
  | c :: cs' => perform_all cs' (state_after (perform c) s)
  end.

(** What a sequence of calls keeps. *)

(** The attributes [connection] and [arraysize] as they are and, with
    [final], the cursor closed. *)
Definition bound_to (k : option nat) (a : Z) (final : bool) (c : Cursor)
  : Prop :=
  connection c = k ∧ arraysize c = a ∧ (final = true → closed c = true).

(** The history has grown from [h], the counter of connections from [n],
    and a type cache [T] that holds an entry is as it was. *)
Definition grown_from (h : list HostEvent) (n : nat) (T : gmap Z TypeObj)
    (w : World) : Prop :=
  h `prefix_of` history w ∧ (n ≤ allocated w)%nat ∧
  (T ≠ ∅ → _typoid_typeobjs w = T).

(** The connection [conn] was made by [connect] and is closed. *)
Definition shut (conn : nat) (w : World) : Prop :=
  conn_closed (the_connection w conn) = true ∧ (conn < allocated w)%nat.

(** * Properties *)

(** ** Parameter typing *)

Section Typing.
Context `{Interpreter}.

Lemma isinstance_bool_int (b : bool) : isinstance (PyBool b) Tint = true.
Proof. reflexivity. Qed.

(** C4. The type of a parameter is the one of the first check that
    holds, in the order bool, Decimal, float, integer (long or int),
    byte types, list, with text when none holds; a boolean satisfies the
    integer check and is nevertheless typed bool. *)
Theorem py_param_to_pg_type_first_match :
  (∀ param : PyVal,
     py_param_to_pg_type param = first_match type_checks "text" param) ∧
  map snd type_checks
    = ["bool"; "numeric"; "float8"; "int"; "bytea"; "text[]"] ∧
  (∀ b : bool,
     isinstance (PyBool b) Tint = true ∧
     py_param_to_pg_type (PyBool b) = "bool").
Proof.
  split; [|split; [reflexivity|]].
  - intros param. unfold py_param_to_pg_type, first_match, type_checks.
    cbn [find fst snd].
    destruct (isinstance param Tbool); [reflexivity|].
    destruct (isinstance param TDecimal); [reflexivity|].
    destruct (isinstance param Tfloat); [reflexivity|].
    destruct (isinstance param long); [reflexivity|].
    cbn [orb].
    destruct (isinstance param Tint); [reflexivity|].
    destruct (isinstance_any param byte_types); [reflexivity|].
    destruct (isinstance param Tlist); reflexivity.
  - intros b. split; reflexivity.
Qed.
End Typing.

(** ** Placeholders and bindings *)

Lemma len_cons {A} (x : A) (l : list A) : len (x :: l) = 1 + len l.
Proof. unfold len. cbn [length]. lia. Qed.

Lemma len_nonneg {A} (l : list A) : 0 ≤ len l.
Proof. unfold len. lia. Qed.

Lemma non_null_cons (v : PyVal) (rest : list PyVal) :
  non_null (v :: rest)
  = if is_None v then non_null rest else v :: non_null rest.
Proof.
  unfold non_null. rewrite filter_cons.
  destruct (is_None v); case_decide; congruence.
Qed.

Lemma placeholders_from_length (parameters : list PyVal) :
  ∀ k, length (placeholders_from k parameters) = length parameters.
Proof.
  induction parameters as [|v rest IH]; intros k; [reflexivity|].
  cbn [placeholders_from]. destruct (is_None v); cbn [length]; by rewrite IH.
Qed.

Lemma placeholders_from_lookup (parameters : list PyVal) :
  ∀ k (j : nat) v,
    parameters !! j = Some v →
    placeholders_from k parameters !! j
    = Some (if is_None v then "NULL"
            else dollar (k + len (non_null (take (S j) parameters)))).
Proof.
  induction parameters as [|p rest IH]; intros k j v Hj; [done|].
  destruct j as [|j].
  - injection Hj as ->. cbn [placeholders_from take].
    rewrite take_0, non_null_cons.
    destruct (is_None v); [reflexivity|]. reflexivity.
  - cbn in Hj. cbn [placeholders_from].
    change (take (S (S j)) (p :: rest)) with (p :: take (S j) rest).
    rewrite non_null_cons.
    destruct (is_None p); cbn [lookup list_lookup]; rewrite (IH _ _ _ Hj).
    + reflexivity.
    + destruct (is_None v); [reflexivity|].
      rewrite len_cons. do 2 f_equal. lia.
Qed.

Lemma placeholders_from_all_bound (parameters : list PyVal) :
  ∀ k, non_null parameters = parameters →
       placeholders_from k parameters
       = map (λ n : nat, dollar (k + Z.of_nat n)) (seq 1 (length parameters)).
Proof.
  induction parameters as [|v rest IH]; intros k Hnn; [reflexivity|].
  rewrite non_null_cons in Hnn. destruct (is_None v) eqn:Hv.
  - exfalso. assert (Hlen : (length (non_null rest) ≤ length rest)%nat)
      by apply length_filter.
    rewrite Hnn in Hlen. cbn [length] in Hlen. lia.
  - injection Hnn as Hnn. cbn [placeholders_from length seq map].
    rewrite Hv, (IH _ Hnn). f_equal.
    rewrite <- (seq_shift _ 1), map_map. apply map_ext. intros n. f_equal. lia.
Qed.

Section Binding.
Context `{Interpreter}.

Lemma bind_param_fold (parameters : list PyVal) :
  ∀ b0,
    fold_left Cursor.bind_param parameters b0 =
    {| Cursor.placeholders :=
         Cursor.placeholders b0 ++ placeholders_from (Cursor.i b0) parameters;
       Cursor.types :=
         Cursor.types b0 ++ map py_param_to_pg_type (non_null parameters);
       Cursor.values := Cursor.values b0 ++ map queued (non_null parameters);
       Cursor.i := Cursor.i b0 + len (non_null parameters) |}.
Proof.
  induction parameters as [|v rest IH]; intros b0.
  - cbn. rewrite !app_nil_r, Z.add_0_r. by destruct b0.
  - cbn [fold_left]. rewrite IH, non_null_cons. unfold Cursor.bind_param.
    cbn [placeholders_from]. destruct (is_None v) eqn:Hv.
    + cbn [Cursor.placeholders Cursor.types Cursor.values Cursor.i].
      by rewrite <- app_assoc.
    + cbn [Cursor.placeholders Cursor.types Cursor.values Cursor.i map].
      rewrite last_snoc, len_cons.
      assert (Hq : (if bool_decide (Some (py_param_to_pg_type v) = Some "bytea")
                       && has_tobytes v
                    then Cursor.values b0 ++ [tobytes v]
                    else Cursor.values b0 ++ [v])
                   = Cursor.values b0 ++ [queued v]).
      { unfold queued.
        destruct (has_tobytes v); [|by rewrite !andb_false_r].
        rewrite !andb_true_r.
        destruct (decide (py_param_to_pg_type v = "bytea")) as [Heq|Hne].
        - rewrite !bool_decide_eq_true_2; congruence.
        - rewrite !bool_decide_eq_false_2; congruence. }
      rewrite Hq, <- !app_assoc. cbn [app]. f_equal. lia.
Qed.

Lemma bind_parameters_eq (parameters : list PyVal) :
  Cursor.bind_parameters parameters =
  {| Cursor.placeholders := placeholders_from 0 parameters;
     Cursor.types := map py_param_to_pg_type (non_null parameters);
     Cursor.values := map queued (non_null parameters);
     Cursor.i := len (non_null parameters) |}.
Proof. unfold Cursor.bind_parameters. by rewrite bind_param_fold. Qed.
End Binding.

(** ** The [%] operator on statements with [%s] markers *)

Lemma py_format_char (c : ascii) (rest : string) (args : list string) :
  Ascii.eqb c "%" = false →
  py_format (String c rest) args
  = match py_format rest args with
    | Ret s => Ret (String c s)
    | o => o
    end.
Proof.
  intros Hc.
  destruct c as [[] [] [] [] [] [] [] []]; try discriminate Hc;
    destruct rest; reflexivity.
Qed.

Lemma py_format_percent_free (s rest : string) (args : list string) :
  percent_free s = true →
  py_format (s +:+ rest) args
  = match py_format rest args with
    | Ret r => Ret (s +:+ r)
    | o => o
    end.
Proof.
  induction s as [|c s IH]; intros Hs.
  - change ("" +:+ rest) with rest. destruct (py_format rest args); reflexivity.
  - cbn [percent_free] in Hs. apply andb_true_iff in Hs as [Hc Hs].
    apply negb_true_iff in Hc.
    change (String c s +:+ rest) with (String c (s +:+ rest)).
    rewrite (py_format_char _ _ _ Hc), (IH Hs).
    by destruct (py_format rest args).
Qed.

Lemma py_format_plain (s : string) :
  percent_free s = true → py_format s [] = Ret s.
Proof.
  induction s as [|c s IH]; intros Hs; [reflexivity|].
  cbn [percent_free] in Hs. apply andb_true_iff in Hs as [Hc Hs].
  apply negb_true_iff in Hc.
  by rewrite (py_format_char _ _ _ Hc), (IH Hs).
Qed.

Lemma py_format_template (rest : list string) :
  ∀ (first : string) (args : list string),
    percent_free first = true →
    Forall (λ s, percent_free s = true) rest →
    length rest = length args →
    py_format (template first rest) args = Ret (splice first rest args).
Proof.
  induction rest as [|s rest IH]; intros first args Hfirst Hrest Hlen.
  - destruct args; [|discriminate Hlen]. cbn [template splice].
    by apply py_format_plain.
  - destruct args as [|a args]; [discriminate Hlen|].
    apply Forall_cons in Hrest as [Hs Hrest]. injection Hlen as Hlen.
    cbn [template splice]. rewrite (py_format_percent_free _ _ _ Hfirst).
    change ("%s" +:+ template s rest)
      with (String "%" (String "s" (template s rest))).
    cbn [py_format]. by rewrite (IH _ _ Hs Hrest Hlen).
Qed.

(** ** The steps of [execute] *)

Lemma bind_ret {S A B} (m : M S A) (k : A → M S B) (s s' : S) (a : A) :
  m s = (Ret a, s') → bind m k s = k a s'.
Proof. unfold bind. by intros ->. Qed.

Lemma bind_raise {S A B} (m : M S A) (k : A → M S B) (s s' : S) (e : exn) :
  m s = (Raise e, s') → bind m k s = (Raise e, s').
Proof. unfold bind. by intros ->. Qed.

Lemma bind_unmodelled {S A B} (m : M S A) (k : A → M S B) (s s' : S) :
  m s = (Unmodelled, s') → bind m k s = (Unmodelled, s').
Proof. unfold bind. by intros ->. Qed.

Lemma is_closed_open (w : World) (c : Cursor) (conn : nat) :
  closed c = false →
  connection c = Some conn →
  Cursor._is_closed (w, c)
  = (Ret (conn_closed (the_connection w conn)), (w, c)).
Proof.
  intros Hc Hconn. unfold Cursor._is_closed.
  erewrite bind_ret by reflexivity. cbn [snd]. by rewrite Hc, Hconn.
Qed.

Lemma is_closed_closed (w : World) (c : Cursor) :
  closed c = true → Cursor._is_closed (w, c) = (Ret true, (w, c)).
Proof.
  intros Hc. unfold Cursor._is_closed.
  erewrite bind_ret by reflexivity. cbn [snd]. by rewrite Hc.
Qed.

Lemma ensure_transaction_returns (conn : nat) (s : World * Cursor) :
  Cursor.in_world (Connection._ensure_transaction conn) s
  = (Ret tt, begun conn s).
Proof.
  unfold begun, state_after, Cursor.in_world, zoom,
    Connection._ensure_transaction.
  destruct s as [w c]. cbn [fst snd]. unfold bind, get.
  by destruct (_subxact (the_connection w conn)).
Qed.

Lemma ensure_transaction_cursor (conn : nat) (w : World) (c : Cursor) :
  (begun conn (w, c)).2 = c.
Proof.
  unfold begun, state_after, Cursor.in_world, zoom. cbn [fst snd].
  by destruct Connection._ensure_transaction.
Qed.

Lemma ensure_transaction_state (conn : nat) (w : World) (c : Cursor) :
  begun conn (w, c) = ((begun conn (w, c)).1, c).
Proof.
  rewrite <- (ensure_transaction_cursor conn w c) at 3.
  apply surjective_pairing.
Qed.

Section Pipeline.
Context `{Interpreter} `{Plpy}.

(** An open cursor of an open connection whose statement the [%]
    operator accepts: [execute] opens the transaction if there is none,
    sends the rewritten statement with the typed values to the host,
    wraps a host error, and stores the result. *)
Lemma execute_open (operation : string) (parameters : option (list PyVal))
    (w : World) (c : Cursor) (conn : nat) (query : string) :
  closed c = false →
  connection c = Some conn →
  conn_closed (the_connection w conn) = false →
  py_format operation (Cursor.placeholders (submit operation parameters))
    = Ret query →
  Cursor.execute operation parameters (w, c)
  = finish query (submit operation parameters) (begun conn (w, c)).
Proof.
  intros Hc Hconn Hopen Hq. unfold Cursor.execute.
  erewrite bind_ret by (by apply is_closed_open).
  rewrite Hopen. erewrite bind_ret by reflexivity. cbn [snd].
  rewrite Hconn. erewrite bind_ret by apply ensure_transaction_returns.
  fold (submit operation parameters).
  erewrite bind_ret by (by rewrite Hq). reflexivity.
Qed.
End Pipeline.

Section BindingClaim.
Context `{Interpreter} `{Plpy}.

(** C5. In the parameter loop of [execute] a [None] parameter puts the
    text NULL at its position and queues nothing; a parameter that is not
    [None] puts the placeholder [$k], where [k] counts the parameters
    that are not [None] up to and including it, and queues one type and
    one value. The rewritten statement carries these texts at the places
    of the [%s] markers, and it is this statement, with the queued types
    and values, that [execute] prepares and runs. When no parameter is
    [None] the placeholders are [$1 ... $n] for [n] parameters, with [n]
    types and [n] values. *)
Theorem execute_binds_parameters (parameters : list PyVal) :
  let b := Cursor.bind_parameters parameters in
  length (Cursor.placeholders b) = length parameters ∧
  (∀ (j : nat) (v : PyVal),
     parameters !! j = Some v →
     Cursor.placeholders b !! j
     = Some (if is_None v then "NULL"
             else dollar (len (non_null (take (S j) parameters))))) ∧
  Cursor.types b = map py_param_to_pg_type (non_null parameters) ∧
  Cursor.values b = map queued (non_null parameters) ∧
  (∀ (first : string) (rest : list string),
     percent_free first = true →
     Forall (λ s, percent_free s = true) rest →
     length rest = length parameters →
     py_format (template first rest) (Cursor.placeholders b)
     = Ret (splice first rest (Cursor.placeholders b))) ∧
  (∀ (w : World) (c : Cursor) (conn : nat) (operation query : string),
     closed c = false →
     connection c = Some conn →
     conn_closed (the_connection w conn) = false →
     py_format operation (Cursor.placeholders b) = Ret query →
     Cursor.execute operation (Some parameters) (w, c)
     = finish query b (begun conn (w, c))) ∧
  (non_null parameters = parameters →
     Cursor.placeholders b
     = map (λ n : nat, dollar (Z.of_nat n)) (seq 1 (length parameters)) ∧
     length (Cursor.types b) = length parameters ∧
     length (Cursor.values b) = length parameters).
Proof.
  intros b. subst b. rewrite bind_parameters_eq.
  cbn [Cursor.placeholders Cursor.types Cursor.values].
  split; [apply placeholders_from_length|].
  split.
  { intros j v Hj. by rewrite (placeholders_from_lookup _ 0 _ _ Hj). }
  split; [reflexivity|]. split; [reflexivity|].
  split.
  { intros first rest Hfirst Hrest Hlen.
    apply py_format_template; [done..|].
    by rewrite placeholders_from_length. }
  split.
  { intros w c conn operation query Hc Hconn Hopen Hq.
    assert (Hsub : submit operation (Some parameters)
                   = Cursor.bind_parameters parameters).
    { unfold submit. by destruct parameters. }
    pose proof (execute_open operation (Some parameters) w c conn query
                  Hc Hconn Hopen) as Hex.
    rewrite Hsub, bind_parameters_eq in Hex.
    by apply Hex. }
  intros Hnn. rewrite Hnn, !length_map.
  split; [|done].
  rewrite (placeholders_from_all_bound _ 0 Hnn).
  apply map_ext. intros n. f_equal.
Qed.
End BindingClaim.

Lemma execute_binds_parameters_witness :
  py_format "insert into booze values (%s, %s, %s)"
    (Cursor.placeholders
       (@Cursor.bind_parameters python2 [PyInt 1; PyNone; PyStr "Cooper's"]))
  = Ret "insert into booze values ($1, NULL, $2)".
Proof.
  destruct (@execute_binds_parameters python2 demo_plpy
              [PyInt 1; PyNone; PyStr "Cooper's"])
    as (_ & _ & _ & _ & Hformat & _).
  apply (Hformat "insert into booze values (" [", "; ", "; ")"]);
    [reflexivity | repeat constructor | reflexivity].
Defined.

(** ** Fetching *)

Lemma py_index_lookup {S A} (l : list A) (n : nat) (x : A) (s : S) :
  l !! n = Some x → py_index l (Z.of_nat n) s = (Ret x, s).
Proof.
  intros Hn. unfold py_index, len. cbv zeta.
  pose proof (lookup_lt_Some _ _ _ Hn) as Hlt.
  rewrite !(proj2 (Z.ltb_ge (Z.of_nat n) 0)) by lia.
  rewrite (proj2 (Z.leb_gt _ _)) by lia.
  cbn [orb]. by rewrite Nat2Z.id, Hn.
Qed.

Lemma py_index_beyond {S A} (l : list A) (i : Z) (s : S) :
  len l ≤ i → py_index l i s = (Raise IndexError, s).
Proof.
  intros Hi. unfold py_index. cbv zeta. pose proof (len_nonneg l).
  rewrite !(proj2 (Z.ltb_ge i 0)) by lia.
  rewrite (proj2 (Z.leb_le _ _)) by lia.
  reflexivity.
Qed.

Lemma fetchone_step (w : World) (c : Cursor) (result : list (list PyVal))
    (n : nat) (row : list PyVal) :
  _execute_result c = Some result →
  rownumber c = Some (Z.of_nat n) →
  result !! n = Some row →
  Cursor.fetchone (w, c)
  = (Ret (Some row), (w, Cursor.set_rownumber (Some (Z.of_nat n + 1)) c)).
Proof.
  intros Hres Hpos Hrow. unfold Cursor.fetchone.
  erewrite bind_ret by reflexivity. cbn [snd]. rewrite Hres, Hpos.
  pose proof (lookup_lt_Some _ _ _ Hrow) as Hlt.
  destruct (Z.eqb_spec (Z.of_nat n) (len result)) as [Heq|_];
    [unfold len in Heq; lia|].
  erewrite bind_ret by (by apply py_index_lookup).
  reflexivity.
Qed.

Lemma fetchone_at_end (w : World) (c : Cursor) (result : list (list PyVal)) :
  _execute_result c = Some result →
  rownumber c = Some (len result) →
  Cursor.fetchone (w, c) = (Ret None, (w, c)).
Proof.
  intros Hres Hpos. unfold Cursor.fetchone.
  erewrite bind_ret by reflexivity. cbn [snd]. rewrite Hres, Hpos.
  by rewrite Z.eqb_refl.
Qed.

Lemma fetchone_times_at_end (m : nat) (w : World) (c : Cursor)
    (result : list (list PyVal)) :
  _execute_result c = Some result →
  rownumber c = Some (len result) →
  fetchone_times m (w, c) = (replicate m (Ret None), (w, c)).
Proof.
  intros Hres Hpos. induction m as [|m IH]; [reflexivity|].
  cbn [fetchone_times replicate].
  by rewrite (fetchone_at_end _ _ _ Hres Hpos), IH.
Qed.

Lemma fetchone_times_rest (m : nat) (w : World) (rest : list (list PyVal)) :
  ∀ (seen : list (list PyVal)) (c : Cursor),
    _execute_result c = Some (seen ++ rest) →
    rownumber c = Some (len seen) →
    fetchone_times (length rest + m) (w, c)
    = (map (λ row, Ret (Some row)) rest ++ replicate m (Ret None),
       (w, Cursor.set_rownumber (Some (len (seen ++ rest))) c)).
Proof.
  induction rest as [|row rest IH]; intros seen c Hres Hpos.
  - rewrite app_nil_r in *. cbn [length Nat.add map app].
    rewrite (fetchone_times_at_end _ _ _ _ Hres Hpos).
    destruct c; cbn in *; by subst.
  - cbn [length Nat.add fetchone_times map app].
    rewrite (fetchone_step w c _ (length seen) row Hres Hpos)
      by (by rewrite lookup_app_r, Nat.sub_diag).
    rewrite (IH (seen ++ [row])).
    + by rewrite <- app_assoc.
    + cbn. by rewrite Hres, <- app_assoc.
    + cbn. unfold len. rewrite length_app. cbn [length]. f_equal. lia.
Qed.

(** C6. [fetchone] raises [Error] when there is no result buffer. On a
    cursor that holds a result of N rows with the position at the start,
    N calls return the rows in their order, each moving the position one
    further, and every call after them returns [None] and leaves the cursor
    as it is. *)
Theorem fetchone_sequence (w : World) (c : Cursor) :
  (_execute_result c = None →
   Cursor.fetchone (w, c) = (Raise (Error None), (w, c))) ∧
  (∀ result : list (list PyVal),
     _execute_result c = Some result →
     (∀ (n : nat) (row : list PyVal),
        rownumber c = Some (Z.of_nat n) →
        result !! n = Some row →
        Cursor.fetchone (w, c)
        = (Ret (Some row),
           (w, Cursor.set_rownumber (Some (Z.of_nat n + 1)) c))) ∧
     (rownumber c = Some (len result) →
      Cursor.fetchone (w, c) = (Ret None, (w, c))) ∧
     (rownumber c = Some 0 →
      ∀ m : nat,
        fetchone_times (length result + m) (w, c)
        = (map (λ row, Ret (Some row)) result ++ replicate m (Ret None),
           (w, Cursor.set_rownumber (Some (len result)) c)))).
Proof.
  split.
  - intros Hres. unfold Cursor.fetchone.
    erewrite bind_ret by reflexivity. cbn [snd]. by rewrite Hres.
  - intros result Hres. split; [|split].
    + intros n row Hpos Hrow. by apply fetchone_step with result.
    + by apply fetchone_at_end.
    + intros Hpos m. by apply (fetchone_times_rest m w result []).
Qed.

Lemma fetchone_sequence_witness :
  (fetchone_times 4 selected).1
  = [Ret (Some [PyStr "Victoria Bitter"]); Ret (Some [PyStr "Cooper's"]);
     Ret None; Ret None].
Proof.
  destruct (fetchone_sequence selected.1 selected.2) as [_ Hrows].
  destruct (Hrows [[PyStr "Victoria Bitter"]; [PyStr "Cooper's"]] eq_refl)
    as (_ & _ & Hall).
  exact (f_equal fst (Hall eq_refl 2%nat)).
Defined.

(** C10. [fetchmany] adds its size to the position without clipping it, so
    the position can pass the end of the buffer; [fetchone] tests the
    position for equality with the length of the buffer, and with the
    position past the end it indexes the buffer and raises [IndexError]
    instead of returning [None]. *)
Theorem fetchone_past_end (w : World) (c : Cursor)
    (result : list (list PyVal)) (n : Z) :
  _execute_result c = Some result →
  rownumber c = Some n →
  (∀ size : Z,
     Cursor.fetchmany (Some size) (w, c)
     = (Ret (py_slice result n (n + size)),
        (w, Cursor.set_rownumber (Some (n + size)) c))) ∧
  (len result < n →
   Cursor.fetchone (w, c) = (Raise IndexError, (w, c))) ∧
  (∀ size : Z,
     len result < n + size →
     (Cursor.fetchmany (Some size) ;; Cursor.fetchone) (w, c)
     = (Raise IndexError, (w, Cursor.set_rownumber (Some (n + size)) c))).
Proof.
  intros Hres Hpos.
  assert (Hmany : ∀ size : Z,
            Cursor.fetchmany (Some size) (w, c)
            = (Ret (py_slice result n (n + size)),
               (w, Cursor.set_rownumber (Some (n + size)) c))).
  { intros size. unfold Cursor.fetchmany.
    erewrite bind_ret by reflexivity. cbn [snd]. by rewrite Hres, Hpos. }
  assert (Hone : ∀ (c' : Cursor) (k : Z),
            _execute_result c' = Some result →
            rownumber c' = Some k →
            len result < k →
            Cursor.fetchone (w, c') = (Raise IndexError, (w, c'))).
  { intros c' k Hres' Hpos' Hk. unfold Cursor.fetchone.
    erewrite bind_ret by reflexivity. cbn [snd]. rewrite Hres', Hpos'.
    destruct (Z.eqb_spec k (len result)) as [?|_]; [lia|].
    erewrite bind_raise; [reflexivity|]. apply py_index_beyond. lia. }
  split; [exact Hmany|]. split; [by apply Hone|].
  intros size Hsize. erewrite bind_ret by apply Hmany.
  by apply (Hone _ (n + size)).
Qed.

Lemma fetchone_past_end_witness :
  (Cursor.fetchmany (Some 5) ;; Cursor.fetchone) selected
  = (Raise IndexError,
     (selected.1, Cursor.set_rownumber (Some 5) selected.2)).
Proof.
  destruct (fetchone_past_end selected.1 selected.2
              [[PyStr "Victoria Bitter"]; [PyStr "Cooper's"]] 0
              eq_refl eq_refl) as (_ & _ & Hboth).
  apply (Hboth 5). reflexivity.
Defined.

(** ** Scrolling *)

Lemma scroll_mode_error (w : World) (c : Cursor) (value : Z) (mode : string) :
  mode ≠ "relative" → mode ≠ "absolute" →
  Cursor.scroll value mode (w, c) = (Raise ValueError, (w, c)).
Proof.
  intros Hrel Habs. unfold Cursor.scroll.
  erewrite bind_ret by reflexivity.
  apply String.eqb_neq in Hrel. apply String.eqb_neq in Habs.
  rewrite Hrel, Habs. by erewrite bind_raise.
Qed.

Lemma scroll_range_error (w : World) (c : Cursor)
    (result : list (list PyVal)) (n value : Z) (mode : string) :
  _execute_result c = Some result →
  rownumber c = Some n →
  let target := if String.eqb mode "relative" then n + value else value in
  mode = "relative" ∨ mode = "absolute" →
  target < 0 ∨ len result < target →
  Cursor.scroll value mode (w, c) = (Raise IndexError, (w, c)).
Proof.
  intros Hres Hpos target Hmode Ht. unfold Cursor.scroll.
  erewrite bind_ret by reflexivity. cbn [snd]. rewrite Hres, Hpos.
  assert (Hout : (target <? 0) || (len result <? target) = true).
  { apply orb_true_iff. destruct Ht; [left | right]; apply Z.ltb_lt; lia. }
  subst target.
  destruct Hmode as [-> | ->]; cbn [String.eqb Ascii.eqb Bool.eqb] in *;
    erewrite bind_ret by reflexivity; by rewrite Hout.
Qed.

(** C8. On a cursor with a result buffer and a position, [scroll] in mode
    relative moves the position by [value] and in mode absolute sets it to
    [value]; another mode raises [ValueError]; a target below zero or above
    the length of the buffer raises [IndexError]; when it raises, the
    cursor is left as it was. *)
Theorem scroll_spec (w : World) (c : Cursor) (result : list (list PyVal))
    (n value : Z) (mode : string) :
  _execute_result c = Some result →
  rownumber c = Some n →
  (mode = "relative" → 0 ≤ n + value ≤ len result →
   Cursor.scroll value mode (w, c)
   = (Ret tt, (w, Cursor.set_rownumber (Some (n + value)) c))) ∧
  (mode = "absolute" → 0 ≤ value ≤ len result →
   Cursor.scroll value mode (w, c)
   = (Ret tt, (w, Cursor.set_rownumber (Some value) c))) ∧
  (mode ≠ "relative" → mode ≠ "absolute" →
   Cursor.scroll value mode (w, c) = (Raise ValueError, (w, c))) ∧
  (mode = "relative" → n + value < 0 ∨ len result < n + value →
   Cursor.scroll value mode (w, c) = (Raise IndexError, (w, c))) ∧
  (mode = "absolute" → value < 0 ∨ len result < value →
   Cursor.scroll value mode (w, c) = (Raise IndexError, (w, c))).
Proof.
  intros Hres Hpos.
  assert (Hin : ∀ t : Z, 0 ≤ t ≤ len result →
            (t <? 0) || (len result <? t) = false).
  { intros t Ht. apply orb_false_iff.
    split; [apply Z.ltb_ge | apply Z.ltb_ge]; lia. }
  repeat split.
  - intros -> Ht. unfold Cursor.scroll.
    erewrite bind_ret by reflexivity. cbn [snd]. rewrite Hres, Hpos.
    cbn [String.eqb Ascii.eqb Bool.eqb].
    erewrite bind_ret by reflexivity. by rewrite (Hin _ Ht).
  - intros -> Ht. unfold Cursor.scroll.
    erewrite bind_ret by reflexivity. cbn [snd]. rewrite Hres.
    cbn [String.eqb Ascii.eqb Bool.eqb].
    erewrite bind_ret by reflexivity. by rewrite (Hin _ Ht).
  - by apply scroll_mode_error.
  - intros -> Ht. apply (scroll_range_error w c result n value "relative");
      [done | done | by left | exact Ht].
  - intros -> Ht. apply (scroll_range_error w c result n value "absolute");
      [done | done | by right | exact Ht].
Qed.

Lemma scroll_spec_witness :
  Cursor.scroll 7 "sideways" selected = (Raise ValueError, selected) ∧
  Cursor.scroll 3 "absolute" selected = (Raise IndexError, selected) ∧
  Cursor.scroll 2 "relative" selected
  = (Ret tt, (selected.1, Cursor.set_rownumber (Some 2) selected.2)).
Proof.
  pose proof (λ value mode,
      scroll_spec selected.1 selected.2
        [[PyStr "Victoria Bitter"]; [PyStr "Cooper's"]] 0 value mode
        eq_refl eq_refl) as Hscroll.
  split; [|split].
  - destruct (Hscroll 7 "sideways") as (_ & _ & Hmode & _).
    apply Hmode; discriminate.
  - destruct (Hscroll 3 "absolute") as (_ & _ & _ & _ & Hrange).
    apply Hrange; [reflexivity | right; reflexivity].
  - destruct (Hscroll 2 "relative") as (Hrel & _).
    apply Hrel; [reflexivity | split; discriminate].
Defined.

(** ** Closing *)

Lemma the_connection_insert (w : World) (self : nat) (c : Connection)
    (a : nat) (h : list HostEvent) (t : gmap Z TypeObj) :
  the_connection
    {| connections := <[self := c]> (connections w); allocated := a;
       history := h; _typoid_typeobjs := t |} self = c.
Proof. unfold the_connection. cbn. by rewrite lookup_insert_eq. Qed.

Lemma rollback_open (self : nat) (w : World) :
  conn_closed (the_connection w self) = false →
  ∃ w' : World,
    Connection.rollback self w = (Ret tt, w') ∧
    the_connection w' self = {| conn_closed := false; _subxact := None |} ∧
    history w'
    = history w ++
      match _subxact (the_connection w self) with
      | Some x => [EvExit x (Some "fake exception")]
      | None => []
      end.
Proof.
  intros Hopen. unfold Connection.rollback.
  erewrite bind_ret by reflexivity. rewrite Hopen.
  destruct (_subxact (the_connection w self)) as [x|] eqn:Hx.
  - eexists. split; [reflexivity|]. cbn. split; [|reflexivity].
    rewrite the_connection_insert. f_equal.
    change (conn_closed (the_connection w self) = false). exact Hopen.
  - eexists. split; [reflexivity|]. cbn. split; [|by rewrite app_nil_r].
    rewrite the_connection_insert. f_equal. exact Hopen.
Qed.

(** C9. [Connection.close] is [rollback] followed by the assignment
    [closed = True]: on a closed connection both raise [Error] and change
    nothing, on an open one the pending subtransaction is left with the
    failure signal and the connection ends closed. [Cursor.close] only
    sets [closed], and on a closed cursor it returns without a change. *)
Theorem close_spec :
  (∀ (self : nat) (w : World),
     Connection.close self w
     = (Connection.rollback self ;; Connection.set_closed self true) w) ∧
  (∀ (self : nat) (w : World),
     conn_closed (the_connection w self) = true →
     Connection.close self w = (Raise (Error None), w)) ∧
  (∀ (self : nat) (w : World),
     conn_closed (the_connection w self) = false →
     ∃ w' : World,
       Connection.close self w = (Ret tt, w') ∧
       the_connection w' self = {| conn_closed := true; _subxact := None |} ∧
       history w'
       = history w ++
         match _subxact (the_connection w self) with
         | Some x => [EvExit x (Some "fake exception")]
         | None => []
         end ∧
       Connection.close self w' = (Raise (Error None), w')) ∧
  (∀ (w : World) (c : Cursor),
     Cursor.close (w, c) = (Ret tt, (w, Cursor.set_closed true c))) ∧
  (∀ (w : World) (c : Cursor),
     closed c = true → Cursor.close (w, c) = (Ret tt, (w, c))).
Proof.
  assert (Hclosed : ∀ (self : nat) (w : World),
            conn_closed (the_connection w self) = true →
            Connection.close self w = (Raise (Error None), w)).
  { intros self w Hc. unfold Connection.close.
    erewrite bind_ret by reflexivity. by rewrite Hc. }
  split; [|split; [exact Hclosed|split; [|split]]].
  - intros self w. unfold Connection.close.
    erewrite bind_ret by reflexivity.
    destruct (conn_closed (the_connection w self)) eqn:Hc; [|reflexivity].
    symmetry. apply bind_raise. unfold Connection.rollback.
    erewrite bind_ret by reflexivity. by rewrite Hc.
  - intros self w Hopen.
    destruct (rollback_open self w Hopen) as (w1 & Hrb & Hconn & Hhist).
    eexists. split; [|split; [|split]].
    + unfold Connection.close. erewrite bind_ret by reflexivity.
      rewrite Hopen. erewrite bind_ret by exact Hrb. reflexivity.
    + cbn. rewrite the_connection_insert. by rewrite Hconn.
    + cbn. exact Hhist.
    + apply Hclosed. cbn. by rewrite the_connection_insert.
  - reflexivity.
  - intros w c Hc. unfold Cursor.close, Cursor.assign, modify. cbn.
    destruct c; cbn in *; by subst.
Qed.

Lemma close_spec_witness :
  (∃ w' : World,
     Connection.close 0%nat selected.1 = (Ret tt, w') ∧
     the_connection w' 0%nat = {| conn_closed := true; _subxact := None |} ∧
     history w'
     = history selected.1 ++ [EvExit 0%nat (Some "fake exception")] ∧
     Connection.close 0%nat w' = (Raise (Error None), w')) ∧
  Cursor.close selected_closed = (Ret tt, selected_closed).
Proof.
  destruct close_spec as (_ & _ & Hopen & _ & Hcursor).
  split.
  - apply (Hopen 0%nat selected.1). reflexivity.
  - apply (Hcursor selected_closed.1 selected_closed.2). reflexivity.
Defined.

(** ** Misuse *)

Lemma closed_connection_rejects (self : nat) (w : World) :
  conn_closed (the_connection w self) = true →
  Connection.commit self w = (Raise (Error None), w) ∧
  Connection.rollback self w = (Raise (Error None), w) ∧
  Connection.close self w = (Raise (Error None), w).
Proof.
  intros Hc. unfold Connection.commit, Connection.rollback, Connection.close.
  repeat split; erewrite bind_ret by reflexivity; by rewrite Hc.
Qed.

Lemma fetch_without_result (w : World) (c : Cursor) :
  _execute_result c = None →
  Cursor.fetchone (w, c) = (Raise (Error None), (w, c)) ∧
  (∀ size, Cursor.fetchmany size (w, c) = (Raise (Error None), (w, c))) ∧
  Cursor.fetchall (w, c) = (Raise (Error None), (w, c)).
Proof.
  intros Hres. unfold Cursor.fetchone, Cursor.fetchmany, Cursor.fetchall.
  repeat split; intros; erewrite bind_ret by reflexivity; cbn [snd];
    by rewrite Hres.
Qed.

Section Misuse.
Context `{Interpreter} `{Plpy}.

Lemma execute_closed_cursor (operation : string)
    (parameters : option (list PyVal)) (w : World) (c : Cursor) :
  closed c = true →
  Cursor.execute operation parameters (w, c) = (Raise (Error None), (w, c)).
Proof.
  intros Hc. unfold Cursor.execute.
  erewrite bind_ret by (by apply is_closed_closed). reflexivity.
Qed.

Lemma execute_closed_connection (operation : string)
    (parameters : option (list PyVal)) (w : World) (c : Cursor) (conn : nat) :
  connection c = Some conn →
  conn_closed (the_connection w conn) = true →
  Cursor.execute operation parameters (w, c) = (Raise (Error None), (w, c)).
Proof.
  intros Hconn Hclosed. destruct (closed c) eqn:Hc.
  - by apply execute_closed_cursor.
  - unfold Cursor.execute.
    erewrite bind_ret by (by apply is_closed_open). by rewrite Hclosed.
Qed.

(** C7, as the code has it. [execute] raises [Error] on a closed cursor and
    on a cursor of a closed connection; [commit], [rollback] and [close]
    raise [Error] on a closed connection; the three fetch methods raise
    [Error] when there is no result buffer; [scroll] raises [ValueError]
    for a mode that is neither relative nor absolute and, on a cursor with
    a buffer and a position, [IndexError] for a target outside the buffer.
    Each of these leaves the state as it was. The fetch methods do not
    look at the [closed] attribute. *)
Theorem misuse_raises :
  (∀ (self : nat) (w : World),
     conn_closed (the_connection w self) = true →
     Connection.commit self w = (Raise (Error None), w) ∧
     Connection.rollback self w = (Raise (Error None), w) ∧
     Connection.close self w = (Raise (Error None), w)) ∧
  (∀ operation parameters (w : World) (c : Cursor),
     closed c = true →
     Cursor.execute operation parameters (w, c)
     = (Raise (Error None), (w, c))) ∧
  (∀ operation parameters (w : World) (c : Cursor) (conn : nat),
     connection c = Some conn →
     conn_closed (the_connection w conn) = true →
     Cursor.execute operation parameters (w, c)
     = (Raise (Error None), (w, c))) ∧
  (∀ (w : World) (c : Cursor),
     _execute_result c = None →
     Cursor.fetchone (w, c) = (Raise (Error None), (w, c)) ∧
     (∀ size, Cursor.fetchmany size (w, c) = (Raise (Error None), (w, c))) ∧
     Cursor.fetchall (w, c) = (Raise (Error None), (w, c))) ∧
  (∀ (w : World) (c : Cursor) (value : Z) (mode : string),
     mode ≠ "relative" → mode ≠ "absolute" →
     Cursor.scroll value mode (w, c) = (Raise ValueError, (w, c))) ∧
  (∀ (w : World) (c : Cursor) (result : list (list PyVal))
     (n value : Z) (mode : string),
     _execute_result c = Some result →
     rownumber c = Some n →
     let target := if String.eqb mode "relative" then n + value else value in
     mode = "relative" ∨ mode = "absolute" →
     target < 0 ∨ len result < target →
     Cursor.scroll value mode (w, c) = (Raise IndexError, (w, c))) ∧
  (∀ (w : World) (c : Cursor) (b : bool) (size : option Z),
     outcome_of Cursor.fetchone (w, Cursor.set_closed b c)
     = outcome_of Cursor.fetchone (w, c) ∧
     outcome_of (Cursor.fetchmany size) (w, Cursor.set_closed b c)
     = outcome_of (Cursor.fetchmany size) (w, c) ∧
     outcome_of Cursor.fetchall (w, Cursor.set_closed b c)
     = outcome_of Cursor.fetchall (w, c)).
Proof.
  split; [exact closed_connection_rejects|].
  split; [exact execute_closed_cursor|].
  split; [exact execute_closed_connection|].
  split; [exact fetch_without_result|].
  split; [exact scroll_mode_error|].
  split; [exact scroll_range_error|].
  intros w c b size.
  unfold outcome_of, Cursor.fetchone, Cursor.fetchmany, Cursor.fetchall.
  repeat split; erewrite !bind_ret by reflexivity; cbn [snd];
    change (_execute_result (Cursor.set_closed b c)) with (_execute_result c);
    change (rownumber (Cursor.set_closed b c)) with (rownumber c);
    change (arraysize (Cursor.set_closed b c)) with (arraysize c).
  - destruct (_execute_result c) as [result|]; [|reflexivity].
    destruct (rownumber c) as [n|]; [|reflexivity].
    destruct (n =? len result); [reflexivity|].
    unfold bind, py_index. cbv zeta.
    destruct ((_ <? 0) || _); [reflexivity|].
    by destruct (result !! _).
  - destruct (_execute_result c) as [result|]; [|reflexivity].
    by destruct (rownumber c).
  - by destruct (_execute_result c).
Qed.
End Misuse.

(** C7 as it is stated fails: a closed cursor that holds a result, and a
    cursor whose connection was closed, still hand out rows, and a closed
    connection still makes cursors. *)
Lemma closed_cursor_still_fetches :
  closed selected_closed.2 = true ∧
  outcome_of Cursor.fetchone selected_closed
  = Ret (Some [PyStr "Victoria Bitter"]) ∧
  outcome_of (Cursor.fetchmany None) selected_closed
  = Ret [[PyStr "Victoria Bitter"]] ∧
  outcome_of Cursor.fetchall selected_closed
  = Ret [[PyStr "Victoria Bitter"]; [PyStr "Cooper's"]] ∧
  outcome_of (Cursor.scroll 1 "relative") selected_closed = Ret tt ∧
  (let after_close :=
     state_after (Cursor.in_world (Connection.close 0%nat)) selected in
   conn_closed (the_connection after_close.1 0%nat) = true ∧
   outcome_of Cursor.fetchone after_close
   = Ret (Some [PyStr "Victoria Bitter"]) ∧
   connection (Connection.cursor 0%nat) = Some 0%nat).
Proof. vm_compute. repeat split. Qed.

Lemma misuse_raises_witness :
  @Cursor.execute python2 demo_plpy "select name from booze" None
    selected_closed
  = (Raise (Error None), selected_closed).
Proof.
  destruct (@misuse_raises python2 demo_plpy) as (_ & Hclosed & _).
  apply (Hclosed _ _ selected_closed.1 selected_closed.2). reflexivity.
Defined.

(** ** Host errors and the reset of the result *)

Section HostErrors.
Context `{Interpreter} `{Plpy}.

(** The two host calls of [execute], on the history they are made on. *)
Lemma host_step (query : string) (b : Cursor.Binding) (w : World) (c : Cursor) :
  statement query b (w, c)
  = match spi_prepare (history w) query (Cursor.types b) with
    | inl e =>
        (Raise (HostError e),
         (log_event (EvPrepare query (Cursor.types b)) w, c))
    | inr plan =>
        let w2 := log_event (EvPrepare query (Cursor.types b)) w in
        let w3 := log_event (EvExecute plan (Cursor.values b)) w2 in
        match spi_execute (history w2) plan (Cursor.values b) with
        | inl e => (Raise (HostError e), (w3, c))
        | inr res => (Ret res, (w3, c))
        end
    end.
Proof.
  unfold statement, Cursor.in_world, zoom, plpy.prepare, plpy.execute, bind,
    get, record_event, modify.
  cbn [fst snd].
  destruct (spi_prepare (history w) query _) as [e|plan]; [reflexivity|].
  cbn. by destruct (spi_execute _ plan _).
Qed.

Lemma store_result_reset (res : SPIResult) (w : World) (c : Cursor) :
  Cursor.store_result res (w, c) = Cursor.store_result res (w, reset c).
Proof. reflexivity. Qed.

(** The [try] block. When [plpy.prepare] or [plpy.execute] raises an
    [SPIError] for the statement of an [execute] call, the call raises
    [Error] with that [SPIError] as its [spierror], the cursor is left as
    it was, and what leaves [execute] is not an exception of the host. *)
Lemma execute_wraps_statement_error (operation : string)
    (parameters : option (list PyVal)) (w : World) (c : Cursor) (conn : nat)
    (query : string) (e : SPIError) :
  closed c = false →
  connection c = Some conn →
  conn_closed (the_connection w conn) = false →
  py_format operation (Cursor.placeholders (submit operation parameters))
    = Ret query →
  let b := submit operation parameters in
  let w1 := (begun conn (w, c)).1 in
  let w2 := log_event (EvPrepare query (Cursor.types b)) w1 in
  spi_prepare (history w1) query (Cursor.types b) = inl e ∨
  (∃ plan : Plan,
     spi_prepare (history w1) query (Cursor.types b) = inr plan ∧
     spi_execute (history w2) plan (Cursor.values b) = inl e) →
  (∃ w' : World,
     Cursor.execute operation parameters (w, c)
     = (Raise (Error (Some e)), (w', c))) ∧
  (∀ e' : exn,
     outcome_of (Cursor.execute operation parameters) (w, c) = Raise e' →
     host_native e' = false).
Proof.
  intros Hc Hconn Hopen Hq b w1 w2 Hhost.
  assert (Hex : ∃ w' : World,
            Cursor.execute operation parameters (w, c)
            = (Raise (Error (Some e)), (w', c))).
  { rewrite (execute_open _ _ _ _ _ _ Hc Hconn Hopen Hq).
    rewrite (ensure_transaction_state conn w c). fold w1 b.
    unfold finish, bind at 1, except_SPIError. rewrite host_step.
    destruct Hhost as [Hprep | (plan & Hprep & Hrun)].
    - rewrite Hprep. by eexists.
    - rewrite Hprep. cbv zeta. fold w2. rewrite Hrun. by eexists. }
  split; [exact Hex|].
  destruct Hex as [w' Hex]. unfold outcome_of. rewrite Hex. cbn [fst].
  intros e' [= <-]. reflexivity.
Qed.

(** C1, as the code has it. [execute] resets the result buffer, the
    position, the description and the row count after the host has run the
    statement and before it looks at the result: the state that a call
    leaves when the host succeeded does not depend on these four
    attributes of the cursor. A call that raises [Error], on a closed
    cursor or on a host error, leaves the cursor as it was. *)
Theorem execute_resets_after_host (operation : string)
    (parameters : option (list PyVal)) (w : World) (c : Cursor) :
  (closed c = true →
   Cursor.execute operation parameters (w, c)
   = (Raise (Error None), (w, c))) ∧
  (∀ (conn : nat) (query : string),
     closed c = false →
     connection c = Some conn →
     conn_closed (the_connection w conn) = false →
     py_format operation (Cursor.placeholders (submit operation parameters))
       = Ret query →
     let b := submit operation parameters in
     let s1 := begun conn (w, c) in
     (∀ (e : SPIError) (s2 : World * Cursor),
        statement query b s1 = (Raise (HostError e), s2) →
        Cursor.execute operation parameters (w, c)
        = (Raise (Error (Some e)), s2) ∧ s2.2 = c) ∧
     (∀ (res : SPIResult) (s2 : World * Cursor),
        statement query b s1 = (Ret res, s2) →
        s2.2 = c ∧
        Cursor.execute operation parameters (w, c)
        = Cursor.store_result res (s2.1, reset c) ∧
        (∀ c' : Cursor,
           reset c' = reset c →
           Cursor.store_result res (s2.1, c')
           = Cursor.store_result res (s2.1, reset c)))).
Proof.
  split; [by apply execute_closed_cursor|].
  intros conn query Hc Hconn Hopen Hq b s1.
  assert (Hs2 : ∀ (o : outcome SPIResult) (s2 : World * Cursor),
            statement query b s1 = (o, s2) → s2.2 = c).
  { intros o s2. subst s1.
    rewrite (ensure_transaction_state conn w c), host_step.
    destruct (spi_prepare _ _ _); [by intros [= _ <-]|]. cbv zeta.
    destruct (spi_execute _ _ _); by intros [= _ <-]. }
  split.
  - intros e s2 Hhost. split; [|by apply (Hs2 _ _ Hhost)].
    rewrite (execute_open _ _ _ _ _ _ Hc Hconn Hopen Hq).
    fold b s1. unfold finish, bind at 1, except_SPIError. by rewrite Hhost.
  - intros res s2 Hhost. pose proof (Hs2 _ _ Hhost) as Hcur.
    split; [exact Hcur|]. split.
    + rewrite (execute_open _ _ _ _ _ _ Hc Hconn Hopen Hq).
      fold b s1. unfold finish, bind at 1, except_SPIError. rewrite Hhost.
      destruct s2 as [w2 c2]. cbn [fst snd] in *. subst c2.
      apply store_result_reset.
    + intros c' Hreset. by rewrite store_result_reset, Hreset.
Qed.
End HostErrors.

Lemma execute_wraps_statement_error_example :
  ∃ w' : World,
    @Cursor.execute python2 demo_plpy "bogus %s" (Some [PyInt 1]) fresh
    = (Raise (Error (Some (spi_error "syntax error at or near bogus"))),
       (w', fresh.2)).
Proof.
  apply (@execute_wraps_statement_error python2 demo_plpy "bogus %s"
           (Some [PyInt 1]) fresh.1 fresh.2 0%nat "bogus $1"
           (spi_error "syntax error at or near bogus"));
    [reflexivity | reflexivity | reflexivity | reflexivity |].
  left. reflexivity.
Defined.

(** C1 as it is stated fails: an [execute] that the host rejects leaves
    the rows, the position, the description and the row count of the
    execution before it, and [fetchone] goes on handing out those rows. *)
Lemma failed_execute_keeps_rows :
  let failed := @Cursor.execute python2 demo_plpy "bogus" None in
  outcome_of failed selected
  = Raise (Error (Some (spi_error "syntax error at or near bogus"))) ∧
  _execute_result (state_after failed selected).2
  = Some [[PyStr "Victoria Bitter"]; [PyStr "Cooper's"]] ∧
  rownumber (state_after failed selected).2 = Some 0 ∧
  description (state_after failed selected).2
  = Some [(Some "name", Some STRING)] ∧
  rowcount (state_after failed selected).2 = 2 ∧
  outcome_of Cursor.fetchone (state_after failed selected)
  = Ret (Some [PyStr "Victoria Bitter"]).
Proof. vm_compute. repeat split. Qed.

Lemma execute_resets_after_host_witness :
  ∃ w2 : World,
    @Cursor.execute python2 demo_plpy "select name from booze" None selected
    = @Cursor.store_result demo_plpy booze (w2, reset selected.2).
Proof.
  destruct (@execute_resets_after_host python2 demo_plpy
              "select name from booze" None selected.1 selected.2)
    as [_ Hopen].
  destruct (Hopen 0%nat "select name from booze"
              eq_refl eq_refl eq_refl eq_refl) as [_ Hok].
  eexists. eapply Hok. reflexivity.
Defined.

(** ** Row counts of [executemany] *)

Section RowCounts.
Context `{Interpreter} `{Plpy}.

Lemma executemany_loop_accumulates (operation : string)
    (seq_of_parameters : list (option (list PyVal))) :
  ∀ (totalcount : Z) (s s' : World * Cursor) (rowcounts : list Z),
    executions operation seq_of_parameters s = Some (rowcounts, s') →
    Cursor.executemany_loop operation seq_of_parameters totalcount s
    = (Ret (accumulate totalcount rowcounts), s').
Proof.
  induction seq_of_parameters as [|parameters rest IH];
    intros totalcount s s' rowcounts Hrun.
  - injection Hrun as <- <-. reflexivity.
  - cbn [executions] in Hrun. cbn [Cursor.executemany_loop].
    destruct (Cursor.execute operation parameters s) as [[[]| |] s1] eqn:Hex;
      try discriminate Hrun.
    destruct (executions operation rest s1) as [[rcs s2]|] eqn:Hrest;
      [|discriminate Hrun].
    injection Hrun as <- <-.
    erewrite bind_ret by exact Hex. erewrite bind_ret by reflexivity.
    cbn [snd]. by rewrite (IH _ _ _ _ Hrest).
Qed.

Lemma executemany_accumulates (operation : string)
    (seq_of_parameters : list (option (list PyVal)))
    (s s' : World * Cursor) (rowcounts : list Z) :
  executions operation seq_of_parameters s = Some (rowcounts, s') →
  Cursor.executemany operation seq_of_parameters s
  = (Ret tt, (s'.1, Cursor.set_rowcount (accumulate 0 rowcounts) s'.2)).
Proof.
  intros Hrun. unfold Cursor.executemany.
  erewrite bind_ret by (by apply executemany_loop_accumulates).
  reflexivity.
Qed.
End RowCounts.

Lemma accumulate_known (rowcounts : list Z) :
  ∀ totalcount : Z,
    0 ≤ totalcount →
    Forall (λ rc, 0 ≤ rc) rowcounts →
    accumulate totalcount rowcounts = totalcount + foldr Z.add 0 rowcounts.
Proof.
  induction rowcounts as [|rc rest IH]; intros totalcount Ht Hall.
  - cbn. lia.
  - apply Forall_cons in Hall as [Hrc Hrest].
    unfold accumulate in *. cbn [fold_left foldr].
    destruct (Z.eqb_spec totalcount (-1)) as [?|_]; [lia|]. cbn [negb].
    rewrite IH by (done || lia). lia.
Qed.

(** C2 on the code: the parameter sets are executed in their order and
    the row counts are added up, but an execution that reports -1 after a
    running total other than 0 is added like a count: two rows and then
    an unknown count end as 1, not as -1. *)
Theorem executemany_adds_unknown :
  let many :=
    @Cursor.executemany python2 demo_plpy "tally %s"
      [Some [PyInt 3]; Some [PyInt 0]] in
  fst <$> executions (H := python2) (H0 := demo_plpy) "tally %s"
            [Some [PyInt 3]; Some [PyInt 0]] fresh = Some [2; -1] ∧
  outcome_of many fresh = Ret tt ∧
  rowcount (state_after many fresh).2 = 1 ∧
  accumulate 0 [2; -1] = 1 ∧
  accumulate 0 [-1; 2] = -1.
Proof. vm_compute. repeat split. Qed.

(** ** A buffer never comes without a position *)

(** A new cursor is [positioned] and every method keeps it so, whatever
    its outcome: the cursors with a result buffer that the fetch and scroll
    properties speak of have a position as soon as they were made by
    [Connection.cursor] and used through the methods. *)

Section Preservation.
Context {S : Type} (P : S → Prop).

Lemma preserves_ret {A} (a : A) : preserves P (ret a).
Proof. by intros s Hs. Qed.

Lemma preserves_raise {A} (e : exn) : preserves P (raise (A := A) e).
Proof. by intros s Hs. Qed.

Lemma preserves_unmodelled {A} : preserves P (unmodelled (A := A)).
Proof. by intros s Hs. Qed.

Lemma preserves_pure {A} (o : outcome A) : preserves P (λ s, (o, s)).
Proof. by intros s Hs. Qed.

Lemma preserves_bind {A B} (m : M S A) (k : A → M S B) :
  preserves P m → (∀ a, preserves P (k a)) → preserves P (bind m k).
Proof.
  intros Hm Hk s Hs. unfold bind. specialize (Hm s Hs).
  destruct (m s) as [[a|e|] s']; cbn [snd] in *; [by apply Hk|done..].
Qed.

Lemma preserves_except {A} (m : M S A) (handler : SPIError → M S A) :
  preserves P m → (∀ e, preserves P (handler e)) →
  preserves P (except_SPIError m handler).
Proof.
  intros Hm Hh s Hs. unfold except_SPIError. specialize (Hm s Hs).
  destruct (m s) as [[a|[]|] s']; cbn [snd] in *; try done. by apply Hh.
Qed.

Lemma preserves_comprehension {A B} (xs : list A) (f : A → M S B) :
  (∀ x, preserves P (f x)) → preserves P (comprehension xs f).
Proof.
  intros Hf. induction xs as [|x xs IH]; [apply preserves_ret|].
  cbn [comprehension]. apply preserves_bind; [apply Hf|]. intros y.
  apply preserves_bind; [apply IH|]. intros ys. apply preserves_ret.
Qed.

Lemma preserves_py_getitem (row : Row) (col : string) :
  preserves P (py_getitem row col).
Proof.
  induction row as [|[k v] row IH]; [apply preserves_raise|].
  cbn [py_getitem]. destruct (String.eqb k col); [apply preserves_ret|done].
Qed.

Lemma preserves_py_index {A} (l : list A) (i : Z) : preserves P (py_index l i).
Proof.
  unfold py_index. cbv zeta. destruct (_ || _); [apply preserves_raise|].
  destruct (l !! _); [apply preserves_ret | apply preserves_raise].
Qed.
End Preservation.

Lemma preserves_in_world {A} (m : M World A) :
  preserves positioned (Cursor.in_world m).
Proof.
  intros [w c] Hs. unfold Cursor.in_world, zoom. cbn [fst snd].
  by destruct (m w).
Qed.

Lemma preserves_assign (f : Cursor → Cursor) :
  (∀ w c, positioned (w, c) → positioned (w, f c)) →
  preserves positioned (Cursor.assign f).
Proof. intros Hf [w c] Hs. by apply Hf. Qed.

Create HintDb preserves.
#[local] Hint Resolve preserves_ret preserves_raise preserves_unmodelled
  preserves_pure preserves_py_getitem preserves_py_index preserves_in_world
  : preserves.

Ltac preserve :=
  repeat first
    [ progress eauto with preserves
    | by intros ? ?
    | apply preserves_bind; [|intros ?]
    | apply preserves_comprehension; intros ?
    | apply preserves_assign; by unfold positioned
    | match goal with
      | |- preserves _ (if ?b then _ else _) => destruct b
      | |- preserves _ (match ?x with _ => _ end) => destruct x
      end ].

Section Positioned.
Context `{Interpreter} `{Plpy}.

Lemma materialize_preserves (res : SPIResult) :
  preserves positioned (Cursor.materialize res).
Proof. unfold Cursor.materialize. preserve. Qed.

Lemma describe_preserves (res : SPIResult) :
  preserves positioned (Cursor.describe res).
Proof. unfold Cursor.describe. preserve. Qed.

(** Whatever the cursor held, it is positioned after [store_result]. *)
Lemma store_result_positioned (res : SPIResult) (s : World * Cursor) :
  positioned (state_after (Cursor.store_result res) s).
Proof.
  destruct s as [w c].
  pose (rest :=
    ((if bool_decide (status res ∈ [Cursor._SPI_OK_SELECT;
                                   Cursor._SPI_OK_INSERT_RETURNING;
                                   Cursor._SPI_OK_DELETE_RETURNING;
                                   Cursor._SPI_OK_UPDATE_RETURNING]) then
        let* tuples := Cursor.materialize res in
        (λ s, (let* d := Cursor.describe res in
               Cursor.assign (Cursor.set_description (Some d)))
                (s.1, Cursor.set_rownumber (Some 0)
                        (Cursor.set_execute_result (Some tuples) s.2)))
      else ret tt) ;;
     if status res =? Cursor._SPI_OK_UTILITY
     then Cursor.assign (Cursor.set_rowcount (-1))
     else Cursor.assign (Cursor.set_rowcount (nrows res)))
    : Cursor.method unit).
  assert (Hrest : preserves positioned rest).
  { subst rest. apply preserves_bind.
    - destruct (bool_decide _); [|preserve].
      apply preserves_bind; [apply materialize_preserves|]. intros tuples.
      intros [w' c'] _.
      apply (preserves_bind positioned); [apply describe_preserves| |done].
      intros d. preserve.
    - intros _. preserve. }
  change (positioned (rest (w, reset c)).2).
  apply Hrest. by intros ?.
Qed.

Lemma execute_preserves (operation : string)
    (parameters : option (list PyVal)) :
  preserves positioned (Cursor.execute operation parameters).
Proof.
  assert (Hstore : ∀ res, preserves positioned (Cursor.store_result res))
    by (intros res s _; apply store_result_positioned).
  unfold Cursor.execute, Cursor._is_closed, Cursor.self, Cursor.world.
  preserve; apply preserves_except; preserve.
Qed.

Lemma executemany_preserves (operation : string)
    (seq_of_parameters : list (option (list PyVal))) :
  preserves positioned (Cursor.executemany operation seq_of_parameters).
Proof.
  unfold Cursor.executemany. apply preserves_bind; [|intros; preserve].
  generalize 0. induction seq_of_parameters as [|parameters rest IH];
    intros totalcount; cbn [Cursor.executemany_loop]; [preserve|].
  apply preserves_bind; [apply execute_preserves|]. intros _.
  unfold Cursor.self. preserve.
Qed.
End Positioned.

Lemma fetch_preserves (size : option Z) (value : Z) (mode : string) :
  preserves positioned Cursor.fetchone ∧
  preserves positioned (Cursor.fetchmany size) ∧
  preserves positioned Cursor.fetchall ∧
  preserves positioned Cursor.next ∧
  preserves positioned (Cursor.scroll value mode) ∧
  preserves positioned Cursor.close.
Proof.
  unfold Cursor.next, Cursor.fetchone, Cursor.fetchmany, Cursor.fetchall,
    Cursor.scroll, Cursor.close, Cursor.self.
  repeat split; preserve.
Qed.

Lemma new_cursor_positioned (w : World) (self : nat) :
  positioned (w, Connection.cursor self).
Proof. by intros ?. Qed.

(** ** The limit of the wrapping of host errors *)

(** C3 on the code. The [try] block of [execute] holds the two host calls
    for the statement, and an [SPIError] of these is wrapped in [Error].
    The query that [get_type_obj] sends to the host while the description
    is built comes after that block: when the host raises an [SPIError]
    for it, this exception of the host leaves [execute] as it is, with the
    rows already stored and no description. *)
Theorem catalogue_error_is_not_wrapped :
  let select :=
    @Cursor.execute python2 cancelling_plpy "select name from booze" None in
  outcome_of select fresh
  = Raise (HostError
             (spi_error "canceling statement due to statement timeout")) ∧
  host_native
    (HostError (spi_error "canceling statement due to statement timeout"))
  = true ∧
  history (state_after select fresh).1
  = [ EvEnter 0;
      EvPrepare "select name from booze" [];
      EvExecute {| plan_query := "select name from booze";
                   plan_argtypes := [] |} [];
      EvPrepare "SELECT oid, typname, typcategory FROM pg_type" [];
      EvExecute {| plan_query :=
                     "SELECT oid, typname, typcategory FROM pg_type";
                   plan_argtypes := [] |} [] ] ∧
  _execute_result (state_after select fresh).2
  = Some [[PyStr "Victoria Bitter"]; [PyStr "Cooper's"]] ∧
  description (state_after select fresh).2 = None.
Proof. vm_compute. repeat split. Qed.

(** * Further properties of the code *)

(** ** Paging through a result *)

Lemma clip_bound_inside {A} (l : list A) (i : Z) :
  0 ≤ i ≤ len l → clip_bound l i = i.
Proof.
  intros Hi. unfold clip_bound. cbv zeta.
  rewrite !(proj2 (Z.ltb_ge i 0)) by lia.
  by rewrite (proj2 (Z.ltb_ge (len l) i)) by lia.
Qed.

Lemma clip_bound_above {A} (l : list A) (i : Z) :
  len l ≤ i → clip_bound l i = len l.
Proof.
  intros Hi. pose proof (len_nonneg l). unfold clip_bound. cbv zeta.
  rewrite !(proj2 (Z.ltb_ge i 0)) by lia.
  destruct (Z.ltb_spec (len l) i); lia.
Qed.

Lemma clip_bound_range {A} (l : list A) (i : Z) :
  0 ≤ clip_bound l i ≤ len l.
Proof.
  pose proof (len_nonneg l). unfold clip_bound. cbv zeta.
  destruct (Z.ltb_spec i 0); repeat case_match;
    repeat match goal with
           | H : (_ <? _) = true |- _ => apply Z.ltb_lt in H
           | H : (_ <? _) = false |- _ => apply Z.ltb_ge in H
           end; lia.
Qed.

Lemma py_slice_from_end {A} (l : list A) (i : Z) :
  len l ≤ i → py_slice_from l i = [].
Proof.
  intros Hi. unfold py_slice_from. rewrite (clip_bound_above _ _ Hi).
  unfold len. rewrite Nat2Z.id. by apply drop_all.
Qed.

Lemma py_slice_page {A} (l : list A) (n size : Z) :
  0 ≤ n ≤ len l → 0 ≤ size →
  py_slice l n (n + size) = take (Z.to_nat size) (drop (Z.to_nat n) l).
Proof.
  intros Hn Hsize. unfold py_slice. cbv zeta.
  rewrite (clip_bound_inside l n Hn).
  destruct (Z.le_gt_cases (n + size) (len l)) as [Hin|Hout].
  - rewrite clip_bound_inside by lia. do 2 f_equal. lia.
  - rewrite clip_bound_above by lia.
    rewrite !take_ge; [done|..]; rewrite length_drop; unfold len in *; lia.
Qed.

Lemma fetchall_eq (w : World) (c : Cursor) (result : list (list PyVal))
    (n : Z) :
  _execute_result c = Some result →
  rownumber c = Some n →
  Cursor.fetchall (w, c)
  = (Ret (py_slice_from result n),
     (w, Cursor.set_rownumber (Some (len result)) c)).
Proof.
  intros Hres Hpos. unfold Cursor.fetchall.
  erewrite bind_ret by reflexivity. cbn [snd]. by rewrite Hres, Hpos.
Qed.

Lemma fetchmany_eq (w : World) (c : Cursor) (result : list (list PyVal))
    (n : Z) (size : option Z) :
  _execute_result c = Some result →
  rownumber c = Some n →
  let k := default (arraysize c) size in
  Cursor.fetchmany size (w, c)
  = (Ret (py_slice result n (n + k)),
     (w, Cursor.set_rownumber (Some (n + k)) c)).
Proof.
  intros Hres Hpos k. unfold Cursor.fetchmany.
  erewrite bind_ret by reflexivity. cbn [snd]. rewrite Hres, Hpos.
  subst k. by destruct size.
Qed.

(** X1. [fetchall] hands out the rows from the position on and always
    leaves the position at the end of the buffer, also when the position
    had left the buffer: after it [fetchone] returns [None] and a second
    [fetchall] returns no row. *)
Theorem fetchall_exhausts (w : World) (c : Cursor)
    (result : list (list PyVal)) (n : Z) :
  _execute_result c = Some result →
  rownumber c = Some n →
  let done := (w, Cursor.set_rownumber (Some (len result)) c) in
  Cursor.fetchall (w, c) = (Ret (py_slice_from result n), done) ∧
  (0 ≤ n ≤ len result → py_slice_from result n = drop (Z.to_nat n) result) ∧
  (len result ≤ n → py_slice_from result n = []) ∧
  Cursor.fetchone done = (Ret None, done) ∧
  Cursor.fetchall done = (Ret [], done).
Proof.
  intros Hres Hpos done.
  split; [by apply fetchall_eq|].
  split; [intros Hn; unfold py_slice_from; by rewrite clip_bound_inside|].
  split; [apply py_slice_from_end|].
  split.
  - by apply (fetchone_at_end _ _ result).
  - subst done.
    rewrite (fetchall_eq w _ result (len result)) by done.
    by rewrite py_slice_from_end.
Qed.

Lemma fetchall_exhausts_witness :
  (Cursor.fetchmany (Some 1) ;; Cursor.fetchall) selected
  = (Ret [[PyStr "Cooper's"]],
     (selected.1, Cursor.set_rownumber (Some 2) selected.2)).
Proof.
  destruct (fetchall_exhausts selected.1
              (Cursor.set_rownumber (Some 1) selected.2)
              [[PyStr "Victoria Bitter"]; [PyStr "Cooper's"]] 1
              eq_refl eq_refl) as [Hall _].
  exact Hall.
Defined.

(** X2. With the position inside the buffer and a size that is not
    negative, [fetchmany] returns the next [size] rows in their order, or
    the rows that are left when there are fewer, and adds [size] to the
    position; without a size it takes [arraysize]. *)
Theorem fetchmany_page (w : World) (c : Cursor)
    (result : list (list PyVal)) (n : Z) (size : option Z) :
  _execute_result c = Some result →
  rownumber c = Some n →
  0 ≤ n ≤ len result →
  let k := default (arraysize c) size in
  0 ≤ k →
  let page := take (Z.to_nat k) (drop (Z.to_nat n) result) in
  Cursor.fetchmany size (w, c)
  = (Ret page, (w, Cursor.set_rownumber (Some (n + k)) c)) ∧
  len page = Z.min k (len result - n) ∧
  (∀ (j : nat), (j < length page)%nat →
     page !! j = result !! (Z.to_nat n + j)%nat).
Proof.
  intros Hres Hpos Hn k Hk page. split; [|split].
  - rewrite (fetchmany_eq w c result n size Hres Hpos). fold k.
    by rewrite py_slice_page.
  - subst page. unfold len in *. rewrite length_take, length_drop. lia.
  - intros j Hj. subst page. rewrite lookup_take_lt, lookup_drop; [done|].
    rewrite length_take in Hj. lia.
Qed.

Lemma fetchmany_page_witness :
  Cursor.fetchmany None selected
  = (Ret [[PyStr "Victoria Bitter"]],
     (selected.1, Cursor.set_rownumber (Some 1) selected.2)).
Proof.
  destruct (fetchmany_page selected.1 selected.2
              [[PyStr "Victoria Bitter"]; [PyStr "Cooper's"]] 0 None
              eq_refl eq_refl) as [Hpage _].
  - split; discriminate.
  - discriminate.
  - exact Hpage.
Defined.



(** X4. On a cursor with a result buffer, [scroll(0, 'absolute')] returns
    wherever the position was, also past the end or without a position,
    and the [fetchall] after it hands out the whole buffer. *)
Theorem scroll_rewinds (w : World) (c : Cursor) (result : list (list PyVal)) :
  _execute_result c = Some result →
  Cursor.scroll 0 "absolute" (w, c)
  = (Ret tt, (w, Cursor.set_rownumber (Some 0) c)) ∧
  (Cursor.scroll 0 "absolute" ;; Cursor.fetchall) (w, c)
  = (Ret result, (w, Cursor.set_rownumber (Some (len result)) c)).
Proof.
  intros Hres.
  assert (Hscroll : Cursor.scroll 0 "absolute" (w, c)
                    = (Ret tt, (w, Cursor.set_rownumber (Some 0) c))).
  { unfold Cursor.scroll. erewrite bind_ret by reflexivity. cbn [snd].
    cbn [String.eqb Ascii.eqb Bool.eqb].
    erewrite bind_ret by reflexivity. rewrite Hres.
    pose proof (len_nonneg result).
    by rewrite (proj2 (Z.ltb_ge 0 0)), (proj2 (Z.ltb_ge (len result) 0)) by lia. }
  split; [exact Hscroll|].
  erewrite bind_ret by exact Hscroll.
  rewrite (fetchall_eq w (Cursor.set_rownumber (Some 0) c) result 0
             Hres eq_refl).
  unfold py_slice_from.
  by rewrite clip_bound_inside by (pose proof (len_nonneg result); lia).
Qed.

Lemma scroll_rewinds_witness :
  (Cursor.scroll 0 "absolute" ;; Cursor.fetchall)
    (state_after (Cursor.fetchmany (Some 7)) selected)
  = (Ret [[PyStr "Victoria Bitter"]; [PyStr "Cooper's"]],
     (selected.1, Cursor.set_rownumber (Some 2) selected.2)).
Proof.
  destruct (scroll_rewinds selected.1
              (Cursor.set_rownumber (Some 7) selected.2)
              [[PyStr "Victoria Bitter"]; [PyStr "Cooper's"]] eq_refl)
    as [_ Hall].
  exact Hall.
Defined.

Lemma next_of_fetchone (s s' : World * Cursor) :
  (∀ row, Cursor.fetchone s = (Ret (Some row), s') →
          Cursor.next s = (Ret row, s')) ∧
  (Cursor.fetchone s = (Ret None, s') →
   Cursor.next s = (Raise StopIteration, s')).
Proof.
  unfold Cursor.next. split; [intros row Hf | intros Hf];
    by erewrite bind_ret by exact Hf.
Qed.

Lemma calls_next_at_end (m : nat) (w : World) (c : Cursor)
    (result : list (list PyVal)) :
  _execute_result c = Some result →
  rownumber c = Some (len result) →
  calls Cursor.next m (w, c) = (replicate m (Raise StopIteration), (w, c)).
Proof.
  intros Hres Hpos. induction m as [|m IH]; [reflexivity|].
  cbn [calls replicate].
  rewrite (proj2 (next_of_fetchone _ _) (fetchone_at_end _ _ _ Hres Hpos)).
  by rewrite IH.
Qed.

Lemma calls_next_rest (m : nat) (w : World) (rest : list (list PyVal)) :
  ∀ (seen : list (list PyVal)) (c : Cursor),
    _execute_result c = Some (seen ++ rest) →
    rownumber c = Some (len seen) →
    calls Cursor.next (length rest + m) (w, c)
    = (map Ret rest ++ replicate m (Raise StopIteration),
       (w, Cursor.set_rownumber (Some (len (seen ++ rest))) c)).
Proof.
  induction rest as [|row rest IH]; intros seen c Hres Hpos.
  - rewrite app_nil_r in *. cbn [length Nat.add map app].
    rewrite (calls_next_at_end _ _ _ _ Hres Hpos).
    destruct c; cbn in *; by subst.
  - cbn [length Nat.add calls map app].
    rewrite (proj1 (next_of_fetchone _ _) row
               (fetchone_step w c _ (length seen) row Hres Hpos
                  ltac:(by rewrite lookup_app_r, Nat.sub_diag))).
    rewrite (IH (seen ++ [row])).
    + by rewrite <- app_assoc.
    + cbn. by rewrite Hres, <- app_assoc.
    + cbn. unfold len. rewrite length_app. cbn [length]. f_equal. lia.
Qed.

(** X5. The iteration protocol: on a cursor that holds N rows with the
    position at the start, N calls of [next] return the rows in their
    order, and every call after them raises [StopIteration] and leaves the
    cursor at the end; without a result buffer [next] raises [Error]. *)
Theorem next_iterates (w : World) (c : Cursor) :
  (_execute_result c = None →
   Cursor.next (w, c) = (Raise (Error None), (w, c))) ∧
  (∀ (result : list (list PyVal)) (m : nat),
     _execute_result c = Some result →
     rownumber c = Some 0 →
     calls Cursor.next (length result + m) (w, c)
     = (map Ret result ++ replicate m (Raise StopIteration),
        (w, Cursor.set_rownumber (Some (len result)) c))).
Proof.
  split.
  - intros Hres. unfold Cursor.next. apply bind_raise.
    by apply fetch_without_result.
  - intros result m Hres Hpos. by apply (calls_next_rest m w result []).
Qed.

Lemma next_iterates_witness :
  (calls Cursor.next 3 selected).1
  = [Ret [PyStr "Victoria Bitter"]; Ret [PyStr "Cooper's"];
     Raise StopIteration].
Proof.
  destruct (next_iterates selected.1 selected.2) as [_ Hiter].
  exact (f_equal fst
           (Hiter [[PyStr "Victoria Bitter"]; [PyStr "Cooper's"]] 1%nat
              eq_refl eq_refl)).
Defined.

(** X6. The fetch methods, [next] and [scroll] work on the buffer alone:
    whatever their outcome they make no call to the host, change no
    connection and no type cache, and of the cursor they change at most
    the position. *)
Theorem fetching_is_local (size : option Z) (value : Z) (mode : string)
    (w : World) (c : Cursor) :
  let only_position (s' : World * Cursor) :=
    s' = (w, Cursor.set_rownumber (rownumber s'.2) c) in
  only_position (state_after Cursor.fetchone (w, c)) ∧
  only_position (state_after (Cursor.fetchmany size) (w, c)) ∧
  only_position (state_after Cursor.fetchall (w, c)) ∧
  only_position (state_after Cursor.next (w, c)) ∧
  only_position (state_after (Cursor.scroll value mode) (w, c)).
Proof.
  intros only_position. subst only_position. cbv beta.
  assert (Hone : state_after Cursor.fetchone (w, c)
                 = (w, Cursor.set_rownumber
                         (rownumber (state_after Cursor.fetchone (w, c)).2) c)).
  { unfold state_after, Cursor.fetchone, bind, Cursor.self, Cursor.assign,
      modify, py_index, raise, ret. cbn [fst snd]. cbv zeta.
    destruct c as [d rc a [n|] cl cn [result|]]; cbn; try reflexivity.
    destruct (n =? len result); [reflexivity|].
    destruct (_ || _); [reflexivity|].
    by destruct (result !! _). }
  split; [exact Hone|].
  split; [|split; [|split]].
  - unfold state_after, Cursor.fetchmany, bind, Cursor.self, Cursor.assign,
      modify, raise, ret. cbn [fst snd].
    destruct c as [d rc a [n|] cl cn [result|]]; cbn; reflexivity.
  - unfold state_after, Cursor.fetchall, bind, Cursor.self, Cursor.assign,
      modify, raise, ret. cbn [fst snd].
    destruct c as [d rc a [n|] cl cn [result|]]; cbn; reflexivity.
  - unfold state_after, Cursor.next, bind in *.
    destruct (Cursor.fetchone (w, c)) as [[[row|]|e|] s'];
      cbn [fst snd] in *; exact Hone.
  - unfold state_after, Cursor.scroll, bind, Cursor.self, Cursor.assign,
      modify, raise, ret. cbn [fst snd].
    destruct (String.eqb mode "relative"), (String.eqb mode "absolute");
      destruct c as [d rc a [n|] cl cn [result|]]; cbn; try reflexivity;
      try (by destruct (_ || _)); by destruct (_ <? 0).
Qed.

(** ** Positions that [fetchmany] can leave *)

(** X7. [fetchmany] does not refuse a negative size: with the position
    inside the buffer and a size that leads back to a position that is not
    negative it returns no row and moves the position back, so that the
    rows between the two positions are handed out once more by the next
    page. *)
Theorem fetchmany_negative_size (w : World) (c : Cursor)
    (result : list (list PyVal)) (n size : Z) :
  _execute_result c = Some result →
  rownumber c = Some n →
  0 ≤ n ≤ len result →
  size < 0 →
  0 ≤ n + size →
  Cursor.fetchmany (Some size) (w, c)
  = (Ret [], (w, Cursor.set_rownumber (Some (n + size)) c)) ∧
  (Cursor.fetchmany (Some size) ;; Cursor.fetchmany (Some (- size))) (w, c)
  = (Ret (take (Z.to_nat (- size)) (drop (Z.to_nat (n + size)) result)),
     (w, Cursor.set_rownumber (Some n) c)).
Proof.
  intros Hres Hpos Hn Hsize Hback.
  assert (Hfirst : Cursor.fetchmany (Some size) (w, c)
                   = (Ret [], (w, Cursor.set_rownumber (Some (n + size)) c))).
  { rewrite (fetchmany_eq w c result n (Some size) Hres Hpos). cbn [default].
    unfold id. f_equal. f_equal. unfold py_slice. cbv zeta.
    rewrite !clip_bound_inside by lia.
    replace (Z.to_nat (n + size - n)) with 0%nat by lia. apply take_0. }
  split; [exact Hfirst|].
  erewrite bind_ret by exact Hfirst.
  rewrite (fetchmany_eq w (Cursor.set_rownumber (Some (n + size)) c) result
             (n + size) (Some (- size)) Hres eq_refl).
  cbn [default]. unfold id.
  rewrite py_slice_page by lia.
  replace (n + size + - size) with n by lia. reflexivity.
Qed.

Lemma fetchmany_negative_size_witness :
  (Cursor.fetchmany (Some (-1)) ;; Cursor.fetchmany (Some 1))
    (state_after (Cursor.fetchmany (Some 2)) selected)
  = (Ret [[PyStr "Cooper's"]],
     (selected.1, Cursor.set_rownumber (Some 2) selected.2)).
Proof.
  destruct (fetchmany_negative_size selected.1
              (Cursor.set_rownumber (Some 2) selected.2)
              [[PyStr "Victoria Bitter"]; [PyStr "Cooper's"]] 2 (-1)
              eq_refl eq_refl) as [_ Hagain].
  - split; discriminate.
  - reflexivity.
  - discriminate.
  - exact Hagain.
Defined.

(** X8. A negative position is an index from the end of the buffer:
    [fetchone] then returns the row that many places before the end and
    adds one to the position, and it raises [IndexError] when the position
    lies further back than the buffer is long. *)
Theorem fetchone_negative_position (w : World) (c : Cursor)
    (result : list (list PyVal)) (n : Z) :
  _execute_result c = Some result →
  rownumber c = Some n →
  n < 0 →
  (∀ row : list PyVal,
     result !! Z.to_nat (len result + n) = Some row →
     0 ≤ len result + n →
     Cursor.fetchone (w, c)
     = (Ret (Some row), (w, Cursor.set_rownumber (Some (n + 1)) c))) ∧
  (len result + n < 0 →
   Cursor.fetchone (w, c) = (Raise IndexError, (w, c))).
Proof.
  intros Hres Hpos Hn. pose proof (len_nonneg result) as Hlen.
  assert (Hne : (n =? len result) = false) by (apply Z.eqb_neq; lia).
  split.
  - intros row Hrow Hin.
    assert (Hidx : py_index result n (w, c) = (Ret row, (w, c))).
    { unfold py_index. cbv zeta. rewrite (proj2 (Z.ltb_lt n 0)) by lia.
      rewrite (proj2 (Z.ltb_ge (n + len result) 0)) by lia.
      rewrite (proj2 (Z.leb_gt (len result) (n + len result))) by lia.
      cbn [orb]. by rewrite (Z.add_comm n), Hrow. }
    unfold Cursor.fetchone.
    erewrite bind_ret by reflexivity. cbn [snd]. rewrite Hres, Hpos, Hne.
    erewrite bind_ret by exact Hidx. reflexivity.
  - intros Hout.
    assert (Hidx : py_index result n (w, c) = (Raise IndexError, (w, c))).
    { unfold py_index. cbv zeta. rewrite (proj2 (Z.ltb_lt n 0)) by lia.
      by rewrite (proj2 (Z.ltb_lt (n + len result) 0)) by lia. }
    unfold Cursor.fetchone.
    erewrite bind_ret by reflexivity. cbn [snd]. rewrite Hres, Hpos, Hne.
    by erewrite bind_raise by exact Hidx.
Qed.

Lemma fetchone_negative_position_witness :
  Cursor.fetchone (state_after (Cursor.fetchmany (Some (-1))) selected)
  = (Ret (Some [PyStr "Cooper's"]),
     (selected.1, Cursor.set_rownumber (Some 0) selected.2)).
Proof.
  destruct (fetchone_negative_position selected.1
              (Cursor.set_rownumber (Some (-1)) selected.2)
              [[PyStr "Victoria Bitter"]; [PyStr "Cooper's"]] (-1)
              eq_refl eq_refl eq_refl) as [Hrow _].
  apply (Hrow [PyStr "Cooper's"]); [reflexivity | discriminate].
Defined.

(** ** Transactions *)

Lemma the_connection_insert_ne (w : World) (self other : nat) (c : Connection)
    (a : nat) (h : list HostEvent) (t : gmap Z TypeObj) :
  self ≠ other →
  the_connection
    {| connections := <[self := c]> (connections w); allocated := a;
       history := h; _typoid_typeobjs := t |} other
  = the_connection w other.
Proof. intros Hne. unfold the_connection. cbn. by rewrite lookup_insert_ne. Qed.

Lemma preserves_modify {S} (P : S → Prop) (f : S → S) :
  (∀ s, P s → P (f s)) → preserves P (modify f).
Proof. intros Hf s Hs. by apply Hf. Qed.

Lemma preserves_for_each {S A} (P : S → Prop) (xs : list A)
    (body : A → M S unit) :
  (∀ x, preserves P (body x)) → preserves P (for_each xs body).
Proof.
  intros Hbody. induction xs as [|x xs IH]; [apply preserves_ret|].
  cbn [for_each]. apply preserves_bind; [apply Hbody|]. by intros _.
Qed.

Lemma preserves_in_world_of {A} (P : World → Prop) (m : M World A) :
  preserves P m → preserves (λ s : World * Cursor, P s.1) (Cursor.in_world m).
Proof.
  intros Hm [w c] Hs. unfold Cursor.in_world, zoom. cbn [fst snd] in *.
  specialize (Hm w Hs). by destruct (m w).
Qed.

Lemma preserves_set_connection_other (self other : nat) (c : Connection)
    (k : Connection) :
  self ≠ other →
  preserves (λ w, the_connection w other = k) (set_connection self c).
Proof.
  intros Hne. apply preserves_modify. intros w Hw.
  by rewrite the_connection_insert_ne.
Qed.

Lemma commit_open (self : nat) (w : World) :
  conn_closed (the_connection w self) = false →
  ∃ w' : World,
    Connection.commit self w = (Ret tt, w') ∧
    the_connection w' self = {| conn_closed := false; _subxact := None |} ∧
    history w'
    = history w ++
      match _subxact (the_connection w self) with
      | Some x => [EvExit x None]
      | None => []
      end.
Proof.
  intros Hopen. unfold Connection.commit.
  erewrite bind_ret by reflexivity. rewrite Hopen.
  destruct (_subxact (the_connection w self)) as [x|] eqn:Hx.
  - eexists. split; [reflexivity|]. cbn. split; [|reflexivity].
    rewrite the_connection_insert. f_equal. exact Hopen.
  - eexists. split; [reflexivity|]. cbn. split; [|by rewrite app_nil_r].
    rewrite the_connection_insert. f_equal. exact Hopen.
Qed.

Lemma connection_eta (k : Connection) :
  conn_closed k = false → _subxact k = None →
  k = {| conn_closed := false; _subxact := None |}.
Proof. destruct k. cbn. by intros -> ->. Qed.

(** What a method over the world leaves of the connections other than
    [self], of the type cache and of the counter of connections. *)
Lemma connection_methods_frame (self other : nat) (k : Connection) :
  self ≠ other →
  let P := λ w : World, the_connection w other = k in
  preserves P (Connection.commit self) ∧
  preserves P (Connection.rollback self) ∧
  preserves P (Connection.close self) ∧
  preserves P (Connection._ensure_transaction self).
Proof.
  intros Hne P.
  assert (Hset : ∀ c, preserves P (set_connection self c))
    by (intros c; by apply preserves_set_connection_other).
  assert (Hlog : ∀ ev, preserves P (record_event ev))
    by (intros ev w Hw; exact Hw).
  assert (Hsub : ∀ x, preserves P (Connection.set_subxact self x)).
  { intros x. unfold Connection.set_subxact.
    apply preserves_bind; [by intros ? ?|]. intros w. apply Hset. }
  assert (Hclosed : ∀ b, preserves P (Connection.set_closed self b)).
  { intros b. unfold Connection.set_closed.
    apply preserves_bind; [by intros ? ?|]. intros w. apply Hset. }
  assert (Hrollback : preserves P (Connection.rollback self)).
  { unfold Connection.rollback.
    apply preserves_bind; [by intros ? ?|]. intros w.
    destruct (conn_closed _); [apply preserves_raise|].
    apply preserves_bind; [|intros _; apply Hsub].
    destruct (_subxact _); [apply Hlog | apply preserves_ret]. }
  split; [|split; [exact Hrollback|split]].
  - unfold Connection.commit.
    apply preserves_bind; [by intros ? ?|]. intros w.
    destruct (conn_closed _); [apply preserves_raise|].
    apply preserves_bind; [|intros _; apply Hsub].
    destruct (_subxact _); [apply Hlog | apply preserves_ret].
  - unfold Connection.close.
    apply preserves_bind; [by intros ? ?|]. intros w.
    destruct (conn_closed _); [apply preserves_raise|].
    apply preserves_bind; [exact Hrollback|]. intros _. apply Hclosed.
  - unfold Connection._ensure_transaction.
    apply preserves_bind; [by intros ? ?|]. intros w.
    destruct (_subxact _); [apply preserves_ret|].
    apply preserves_bind; [apply Hsub|]. intros _. apply Hlog.
Qed.

(** X9. On an open connection without a subtransaction, [commit] and
    [rollback] return without a call to the host and leave every
    connection as it was. *)
Theorem commit_without_transaction (self : nat) (w : World) :
  conn_closed (the_connection w self) = false →
  _subxact (the_connection w self) = None →
  ∀ m, m = Connection.commit ∨ m = Connection.rollback →
  outcome_of (m self) w = Ret tt ∧
  history (state_after (m self) w) = history w ∧
  _typoid_typeobjs (state_after (m self) w) = _typoid_typeobjs w ∧
  ∀ k : nat,
    the_connection (state_after (m self) w) k = the_connection w k.
Proof.
  intros Hopen Hnone m Hm.
  assert (Hrun : ∃ w', m self w = (Ret tt, w') ∧
            the_connection w' self
            = {| conn_closed := false; _subxact := None |} ∧
            history w' = history w ∧
            _typoid_typeobjs w' = _typoid_typeobjs w).
  { destruct Hm as [-> | ->].
    - unfold Connection.commit. erewrite bind_ret by reflexivity.
      rewrite Hopen, Hnone. eexists. split; [reflexivity|]. cbn.
      rewrite the_connection_insert. repeat split. by rewrite Hopen.
    - unfold Connection.rollback. erewrite bind_ret by reflexivity.
      rewrite Hopen, Hnone. eexists. split; [reflexivity|]. cbn.
      rewrite the_connection_insert. repeat split. by rewrite Hopen. }
  destruct Hrun as (w' & Hrun & Hself & Hhist & Hcache).
  unfold outcome_of, state_after. rewrite Hrun. cbn [fst snd].
  repeat split; [done..|].
  intros k. destruct (decide (self = k)) as [<-|Hne].
  - rewrite Hself. symmetry. by apply connection_eta.
  - destruct (connection_methods_frame self k (the_connection w k) Hne)
      as (Hcommit & Hrollback & _).
    change w' with (Ret tt, w').2. rewrite <- Hrun.
    destruct Hm as [-> | ->]; [by apply Hcommit | by apply Hrollback].
Qed.

Lemma commit_without_transaction_witness :
  outcome_of (Connection.commit 0%nat) fresh.1 = Ret tt ∧
  history (state_after (Connection.commit 0%nat) fresh.1) = [].
Proof.
  destruct (commit_without_transaction 0%nat fresh.1 eq_refl eq_refl
              Connection.commit (or_introl eq_refl)) as (Hret & Hhist & _).
  split; [exact Hret | exact Hhist].
Defined.

Lemma ensure_transaction_opens (self : nat) (w : World) :
  _subxact (the_connection w self) = None →
  ∃ w' : World,
    Connection._ensure_transaction self w = (Ret tt, w') ∧
    the_connection w' self
    = {| conn_closed := conn_closed (the_connection w self);
         _subxact := Some (length (history w)) |} ∧
    history w' = history w ++ [EvEnter (length (history w))].
Proof.
  intros Hnone. unfold Connection._ensure_transaction.
  erewrite bind_ret by reflexivity. rewrite Hnone.
  eexists. split; [reflexivity|]. split; [|reflexivity].
  unfold the_connection. cbn. by rewrite lookup_insert_eq.
Qed.

Lemma ensure_transaction_open (self : nat) (w : World) (x : nat) :
  _subxact (the_connection w self) = Some x →
  Connection._ensure_transaction self w = (Ret tt, w).
Proof.
  intros Hsome. unfold Connection._ensure_transaction.
  erewrite bind_ret by reflexivity. by rewrite Hsome.
Qed.

(** X10. The subtransaction is opened when it is needed and only once:
    [_ensure_transaction] enters a new subtransaction when the connection
    has none, does nothing when it has one, and so calling it twice is
    calling it once. *)
Theorem ensure_transaction_once (self : nat) (w : World) :
  (∀ x : nat,
     _subxact (the_connection w self) = Some x →
     Connection._ensure_transaction self w = (Ret tt, w)) ∧
  (_subxact (the_connection w self) = None →
   ∃ w' : World,
     Connection._ensure_transaction self w = (Ret tt, w') ∧
     _subxact (the_connection w' self) = Some (length (history w)) ∧
     conn_closed (the_connection w' self)
     = conn_closed (the_connection w self) ∧
     history w' = history w ++ [EvEnter (length (history w))]) ∧
  (Connection._ensure_transaction self ;;
   Connection._ensure_transaction self) w
  = Connection._ensure_transaction self w.
Proof.
  split; [apply ensure_transaction_open|]. split.
  - intros Hnone.
    destruct (ensure_transaction_opens self w Hnone) as (w' & Hrun & Hc & Hh).
    exists w'. rewrite Hc. by repeat split.
  - destruct (_subxact (the_connection w self)) as [x|] eqn:Hx.
    + erewrite bind_ret by (by eapply ensure_transaction_open).
      reflexivity.
    + destruct (ensure_transaction_opens self w Hx) as (w' & Hrun & Hc & _).
      erewrite bind_ret by exact Hrun. rewrite Hrun.
      eapply ensure_transaction_open. by rewrite Hc.
Qed.

(** X11. What is entered is what is left: on an open connection without a
    subtransaction, opening the transaction and then [commit] tells the
    host to enter a subtransaction and to leave the same subtransaction
    without a failure, [rollback] to leave it with one; both end with the
    connection open and without a subtransaction, so that the next
    statement opens a new one. *)
Theorem transaction_round_trip (self : nat) (w : World) :
  conn_closed (the_connection w self) = false →
  _subxact (the_connection w self) = None →
  let x := length (history w) in
  (∃ w' : World,
     (Connection._ensure_transaction self ;; Connection.commit self) w
     = (Ret tt, w') ∧
     history w' = history w ++ [EvEnter x; EvExit x None] ∧
     the_connection w' self = {| conn_closed := false; _subxact := None |}) ∧
  (∃ w' : World,
     (Connection._ensure_transaction self ;; Connection.rollback self) w
     = (Ret tt, w') ∧
     history w' = history w ++ [EvEnter x; EvExit x (Some "fake exception")] ∧
     the_connection w' self = {| conn_closed := false; _subxact := None |}).
Proof.
  intros Hopen Hnone x.
  destruct (ensure_transaction_opens self w Hnone) as (w1 & Hrun & Hc & Hh).
  assert (Hopen1 : conn_closed (the_connection w1 self) = false)
    by (by rewrite Hc).
  split.
  - destruct (commit_open self w1 Hopen1) as (w2 & Hrun2 & Hc2 & Hh2).
    exists w2. erewrite bind_ret by exact Hrun.
    split; [exact Hrun2|]. split; [|exact Hc2].
    rewrite Hh2, Hh, Hc, <- app_assoc. reflexivity.
  - destruct (rollback_open self w1 Hopen1) as (w2 & Hrun2 & Hc2 & Hh2).
    exists w2. erewrite bind_ret by exact Hrun.
    split; [exact Hrun2|]. split; [|exact Hc2].
    rewrite Hh2, Hh, Hc, <- app_assoc. reflexivity.
Qed.

Lemma transaction_round_trip_witness :
  ∃ w' : World,
    (Connection._ensure_transaction 0%nat ;; Connection.commit 0%nat) fresh.1
    = (Ret tt, w') ∧
    history w' = [EvEnter 0; EvExit 0 None] ∧
    the_connection w' 0%nat = {| conn_closed := false; _subxact := None |}.
Proof.
  destruct (transaction_round_trip 0%nat fresh.1 eq_refl eq_refl)
    as [Hcommit _].
  exact Hcommit.
Defined.

Lemma ensure_transaction_once_witness :
  Connection._ensure_transaction 0%nat selected.1 = (Ret tt, selected.1).
Proof.
  destruct (ensure_transaction_once 0%nat selected.1) as [Hopen _].
  apply (Hopen 0%nat). reflexivity.
Defined.

(** X12. Connections are independent: [connect] returns an open
    connection without a subtransaction and a reference that no later
    [connect] returns again, and neither [connect] nor [commit],
    [rollback], [close] and [_ensure_transaction] of one connection change
    the state of another. *)
Theorem connections_are_independent (self other : nat) (w : World) :
  self ≠ other →
  the_connection (state_after (Connection.commit self) w) other
  = the_connection w other ∧
  the_connection (state_after (Connection.rollback self) w) other
  = the_connection w other ∧
  the_connection (state_after (Connection.close self) w) other
  = the_connection w other ∧
  the_connection (state_after (Connection._ensure_transaction self) w) other
  = the_connection w other ∧
  (∀ (r : nat) (w' : World),
     connect w = (Ret r, w') →
     r = allocated w ∧
     the_connection w' r = Connection_class ∧
     (∀ k : nat, k ≠ r → the_connection w' k = the_connection w k) ∧
     (∀ (r2 : nat) (w2 : World), connect w' = (Ret r2, w2) → r2 ≠ r)).
Proof.
  intros Hne.
  destruct (connection_methods_frame self other (the_connection w other) Hne)
    as (Hcommit & Hrollback & Hclose & Hensure).
  split; [by apply Hcommit|]. split; [by apply Hrollback|].
  split; [by apply Hclose|]. split; [by apply Hensure|].
  intros r w' [= <- <-]. split; [reflexivity|].
  split; [apply the_connection_insert|]. split.
  - intros k Hk. by apply the_connection_insert_ne.
  - intros r2 w2 [= <- _]. cbn. lia.
Qed.

Lemma connections_are_independent_witness :
  the_connection (state_after (Connection.close 1%nat) selected.1) 0%nat
  = the_connection selected.1 0%nat.
Proof.
  destruct (connections_are_independent 1%nat 0%nat selected.1)
    as (_ & _ & Hclose & _); [discriminate|].
  exact Hclose.
Defined.

Lemma close_closes (self : nat) (w : World) :
  conn_closed (the_connection (state_after (Connection.close self) w) self)
  = true.
Proof.
  unfold state_after.
  destruct (conn_closed (the_connection w self)) eqn:Hc.
  - by rewrite (proj2 (proj2 (closed_connection_rejects self w Hc))).
  - destruct (rollback_open self w Hc) as (w1 & Hrb & Hconn & _).
    unfold Connection.close. erewrite bind_ret by reflexivity.
    rewrite Hc. erewrite bind_ret by exact Hrb. cbn.
    by rewrite the_connection_insert.
Qed.

Section ClosedSession.
Context `{Interpreter} `{Plpy}.

(** X13. Closing a session closes it for all its cursors: after
    [Connection.close], whether it returned or raised, [execute] on any
    cursor of that connection raises [Error] and changes nothing, and so
    do [commit], [rollback] and a further [close]. *)
Theorem closed_session_rejects (self : nat) (w : World) (c : Cursor)
    (operation : string) (parameters : option (list PyVal)) :
  connection c = Some self →
  let w' := state_after (Connection.close self) w in
  Cursor.execute operation parameters (w', c) = (Raise (Error None), (w', c)) ∧
  Connection.commit self w' = (Raise (Error None), w') ∧
  Connection.rollback self w' = (Raise (Error None), w') ∧
  Connection.close self w' = (Raise (Error None), w').
Proof.
  intros Hconn w'. pose proof (close_closes self w) as Hclosed. fold w' in Hclosed.
  split; [by apply (execute_closed_connection _ _ _ _ self)|].
  by apply closed_connection_rejects.
Qed.
End ClosedSession.

Lemma closed_session_rejects_witness :
  let w' := state_after (Connection.close 0%nat) selected.1 in
  @Cursor.execute python2 demo_plpy "select name from booze" None
    (w', Connection.cursor 0%nat)
  = (Raise (Error None), (w', Connection.cursor 0%nat)).
Proof.
  intros w'.
  apply (@closed_session_rejects python2 demo_plpy 0%nat selected.1
           (Connection.cursor 0%nat) "select name from booze" None).
  reflexivity.
Defined.

(** ** What [execute] leaves of the connections *)

Lemma preserves_assign_world (P : World → Prop) (f : Cursor → Cursor) :
  preserves (λ s : World * Cursor, P s.1) (Cursor.assign f).
Proof. by intros [w c] Hs. Qed.

Ltac keep :=
  repeat first
    [ by intros ? ?
    | progress eauto with preserves
    | apply preserves_bind; [|intros ?]
    | apply preserves_for_each; intros ?
    | apply preserves_comprehension; intros ?
    | apply preserves_except; [|intros ?]
    | apply preserves_assign_world
    | match goal with
      | |- preserves (λ s : World * Cursor, connections s.1 = ?K)
             (Cursor.in_world _) =>
          apply (preserves_in_world_of (λ w, connections w = K))
      | |- preserves _ (if ?b then _ else _) => destruct b
      | |- preserves _ (match ?x with _ => _ end) => destruct x
      end ].

Lemma begun_world (conn : nat) (w : World) (c : Cursor) :
  (begun conn (w, c)).1
  = state_after (Connection._ensure_transaction conn) w.
Proof.
  unfold begun, state_after, Cursor.in_world, zoom. cbn [fst snd].
  by destruct Connection._ensure_transaction.
Qed.

Section ExecuteAndConnections.
Context `{Interpreter} `{Plpy}.

Lemma get_type_obj_keeps_connections (typeoid : Z) (K : gmap nat Connection) :
  preserves (λ w, connections w = K) (get_type_obj typeoid).
Proof.
  unfold get_type_obj, plpy.prepare, plpy.execute, register_type, dict_get,
    py_int, set_typoid_typeobj, record_event.
  keep.
Qed.

Lemma finish_keeps_connections (query : string) (b : Cursor.Binding)
    (K : gmap nat Connection) :
  preserves (λ s : World * Cursor, connections s.1 = K) (finish query b).
Proof.
  pose proof (λ oid, get_type_obj_keeps_connections oid K) as Htype.
  unfold finish, statement, Cursor.store_result, Cursor.materialize,
    Cursor.describe, plpy.prepare, plpy.execute, record_event.
  keep.
Qed.

(** An open cursor of an open connection: [execute] opens the transaction
    and goes on with the substitution of the placeholders. *)
Lemma execute_begins (operation : string) (parameters : option (list PyVal))
    (w : World) (c : Cursor) (conn : nat) :
  closed c = false →
  connection c = Some conn →
  conn_closed (the_connection w conn) = false →
  Cursor.execute operation parameters (w, c)
  = (let* query :=
       (λ s, (py_format operation
                (Cursor.placeholders (submit operation parameters)), s)) in
     finish query (submit operation parameters)) (begun conn (w, c)).
Proof.
  intros Hc Hconn Hopen. unfold Cursor.execute.
  erewrite bind_ret by (by apply is_closed_open).
  rewrite Hopen. erewrite bind_ret by reflexivity. cbn [snd].
  rewrite Hconn. erewrite bind_ret by apply ensure_transaction_returns.
  reflexivity.
Qed.

(** X14. Whatever its outcome (a result, a host error wrapped in [Error],
    a [TypeError] of the placeholder substitution), [execute] on an open
    cursor of an open connection leaves that connection open with a
    subtransaction, the one it had or the one that was entered for this
    statement, and leaves every other connection as it was. *)
Theorem execute_leaves_transaction_open (operation : string)
    (parameters : option (list PyVal)) (w : World) (c : Cursor) (conn : nat) :
  closed c = false →
  connection c = Some conn →
  conn_closed (the_connection w conn) = false →
  let w' := (state_after (Cursor.execute operation parameters) (w, c)).1 in
  conn_closed (the_connection w' conn) = false ∧
  _subxact (the_connection w' conn)
  = Some (default (length (history w)) (_subxact (the_connection w conn))) ∧
  (∀ k : nat, k ≠ conn → the_connection w' k = the_connection w k).
Proof.
  intros Hc Hconn Hopen w'.
  assert (Hsame : connections w' = connections (begun conn (w, c)).1).
  { subst w'. unfold state_after.
    rewrite (execute_begins _ _ _ _ _ Hc Hconn Hopen).
    apply (preserves_bind (λ s : World * Cursor,
             connections s.1 = connections (begun conn (w, c)).1));
      [by intros ? ? | intros q; apply finish_keeps_connections | done]. }
  assert (Hthe : ∀ k, the_connection w' k
                      = the_connection (begun conn (w, c)).1 k).
  { intros k. unfold the_connection. by rewrite Hsame. }
  rewrite begun_world in Hthe. rewrite !Hthe.
  split; [|split].
  - destruct (_subxact (the_connection w conn)) as [x|] eqn:Hx.
    + unfold state_after. by rewrite (ensure_transaction_open conn w x Hx).
    + destruct (ensure_transaction_opens conn w Hx) as (w1 & Hrun & Hs & _).
      unfold state_after. rewrite Hrun. cbn [snd]. by rewrite Hs.
  - destruct (_subxact (the_connection w conn)) as [x|] eqn:Hx.
    + unfold state_after. by rewrite (ensure_transaction_open conn w x Hx).
    + destruct (ensure_transaction_opens conn w Hx) as (w1 & Hrun & Hs & _).
      unfold state_after. rewrite Hrun. cbn [snd]. by rewrite Hs.
  - intros k Hk. rewrite Hthe.
    destruct (connection_methods_frame conn k (the_connection w k))
      as (_ & _ & _ & Hensure); [done|].
    by apply Hensure.
Qed.
End ExecuteAndConnections.

Lemma execute_leaves_transaction_open_witness :
  _subxact
    (the_connection
       (state_after (@Cursor.execute python2 demo_plpy "bogus" None) fresh).1
       0%nat)
  = Some 0%nat.
Proof.
  destruct (@execute_leaves_transaction_open python2 demo_plpy "bogus" None
              fresh.1 fresh.2 0%nat eq_refl eq_refl eq_refl)
    as (_ & Hsub & _).
  exact Hsub.
Defined.

(** ** Storing a result *)

Lemma py_getitem_assoc {S} (row : Row) (col : string) (s : S) :
  py_getitem row col s
  = (from_option Ret (Raise KeyError) (assoc row col), s).
Proof.
  induction row as [|[k v] row IH]; [reflexivity|].
  cbn [py_getitem assoc]. by destruct (String.eqb k col).
Qed.

Lemma comprehension_pure {S A B} (f : A → M S B) (g : A → option B)
    (e : exn) (xs : list A) (s : S) :
  (∀ x, f x s = (from_option Ret (Raise e) (g x), s)) →
  comprehension xs f s = (from_option Ret (Raise e) (mapM g xs), s).
Proof.
  intros Hf. induction xs as [|x xs IH]; [reflexivity|].
  cbn [comprehension]. unfold bind at 1. rewrite Hf.
  destruct (g x) as [y|] eqn:Hy; cbn; rewrite ?Hy; cbn; [|reflexivity].
  unfold bind at 1. rewrite IH.
  destruct (mapM g xs); reflexivity.
Qed.

Lemma mapM_ext_Forall {A B} (f g : A → option B) (l : list A) :
  Forall (λ x, f x = g x) l → mapM f l = mapM g l.
Proof.
  induction 1 as [|x l Hx _ IH]; [reflexivity|]. cbn. by rewrite Hx, IH.
Qed.

Lemma mapM_cons_eq {A B} (f : A → option B) (x : A) (l : list A) :
  mapM f (x :: l) = y ← f x; ys ← mapM f l; mret (y :: ys).
Proof. reflexivity. Qed.

Lemma assoc_keys (row : Row) :
  NoDup (keys row) → mapM (assoc row) (keys row) = Some (map snd row).
Proof.
  unfold keys. induction row as [|[k v] row IH]; intros Hnd; [reflexivity|].
  cbn [map fst snd] in *. apply NoDup_cons in Hnd as [Hk Hnd].
  rewrite mapM_cons_eq.
  assert (Hrest : mapM (assoc ((k, v) :: row)) (map fst row)
                  = mapM (assoc row) (map fst row)).
  { apply mapM_ext_Forall, Forall_forall. intros col Hcol. cbn [assoc].
    destruct (String.eqb_spec k col) as [->|]; [|done].
    exfalso. apply Hk. exact Hcol. }
  rewrite Hrest, (IH Hnd). cbn [assoc]. by rewrite String.eqb_refl.
Qed.

Lemma comprehension_pure_in {S A B} (f : A → M S B) (g : A → option B)
    (e : exn) (xs : list A) (s : S) :
  (∀ x, x ∈ xs → f x s = (from_option Ret (Raise e) (g x), s)) →
  comprehension xs f s = (from_option Ret (Raise e) (mapM g xs), s).
Proof.
  induction xs as [|x xs IH]; intros Hf; [reflexivity|].
  cbn [comprehension]. unfold bind at 1. rewrite Hf by (by left).
  rewrite mapM_cons_eq.
  destruct (g x) as [y|]; cbn; [|reflexivity].
  unfold bind at 1. rewrite IH by (intros z Hz; apply Hf; by right).
  destruct (mapM g xs); reflexivity.
Qed.

Lemma mapM_total {A B} (f : A → B) (l : list A) :
  mapM (λ x, Some (f x)) l = Some (map f l).
Proof.
  induction l as [|x l IH]; [reflexivity|].
  rewrite mapM_cons_eq, IH. reflexivity.
Qed.

Lemma row_returning_not_utility (res : SPIResult) :
  row_returning res = true → recorded_rowcount res = nrows res.
Proof.
  unfold row_returning, recorded_rowcount. intros Hrr.
  apply bool_decide_eq_true in Hrr.
  destruct (Z.eqb_spec (status res) Cursor._SPI_OK_UTILITY) as [Heq|]; [|done].
  rewrite Heq in Hrr. by repeat (apply elem_of_cons in Hrr as [?|Hrr]; [done|]);
    apply elem_of_nil in Hrr.
Qed.

Section StoreResult.
Context `{Interpreter} `{Plpy}.

Lemma statement_cursor (query : string) (b : Cursor.Binding) (w : World)
    (c : Cursor) (o : outcome SPIResult) (s2 : World * Cursor) :
  statement query b (w, c) = (o, s2) → s2.2 = c.
Proof.
  rewrite host_step. destruct (spi_prepare _ _ _); [by intros [= _ <-]|].
  cbv zeta. destruct (spi_execute _ _ _); by intros [= _ <-].
Qed.

(** When the host has run the statement, [execute] stores its result. *)
Lemma execute_stores (operation : string) (parameters : option (list PyVal))
    (w : World) (c : Cursor) (conn : nat) (query : string)
    (res : SPIResult) (s2 : World * Cursor) :
  closed c = false →
  connection c = Some conn →
  conn_closed (the_connection w conn) = false →
  py_format operation (Cursor.placeholders (submit operation parameters))
    = Ret query →
  statement query (submit operation parameters) (begun conn (w, c))
    = (Ret res, s2) →
  Cursor.execute operation parameters (w, c)
  = Cursor.store_result res (s2.1, c).
Proof.
  intros Hc Hconn Hopen Hq Hhost.
  rewrite (execute_open _ _ _ _ _ _ Hc Hconn Hopen Hq).
  unfold finish, bind at 1, except_SPIError. rewrite Hhost.
  rewrite (ensure_transaction_state conn w c) in Hhost.
  apply statement_cursor in Hhost. destruct s2 as [w2 c2].
  cbn [fst snd] in *. by subst c2.
Qed.

Lemma store_result_without_rows (res : SPIResult) (w : World) (c : Cursor) :
  row_returning res = false →
  Cursor.store_result res (w, c)
  = (Ret tt, (w, Cursor.set_rowcount (recorded_rowcount res) (reset c))).
Proof.
  intros Hrr. unfold row_returning in Hrr.
  unfold Cursor.store_result, recorded_rowcount, bind, Cursor.assign, modify.
  cbn [fst snd]. rewrite Hrr. unfold ret.
  by destruct (status res =? Cursor._SPI_OK_UTILITY).
Qed.

Lemma materialize_fallback (res : SPIResult) (s : World * Cursor) :
  has_colnames res = false →
  Forall (λ row, NoDup (keys row)) (rows res) →
  Cursor.materialize res s = (Ret (map (map snd) (rows res)), s).
Proof.
  intros Hcol Hrows. unfold Cursor.materialize. rewrite Hcol.
  rewrite (comprehension_pure_in _ (λ row : Row, Some (map snd row)) KeyError).
  - by rewrite mapM_total.
  - intros row Hrow. rewrite Forall_forall in Hrows.
    rewrite (comprehension_pure _ (assoc row) KeyError)
      by (intros col; apply py_getitem_assoc).
    by rewrite (assoc_keys row (Hrows row Hrow)).
Qed.

Lemma materialize_colnames (res : SPIResult) (s : World * Cursor) :
  has_colnames res = true →
  Cursor.materialize res s
  = (from_option Ret (Raise KeyError)
       (mapM (λ row, mapM (assoc row) (colnames res)) (rows res)), s).
Proof.
  intros Hcol. unfold Cursor.materialize. rewrite Hcol.
  apply (comprehension_pure _
           (λ row : Row, mapM (assoc row) (colnames res)) KeyError).
  intros row. apply comprehension_pure. intros col. apply py_getitem_assoc.
Qed.

Lemma get_type_obj_cached (typeoid : Z) (w : World) :
  _typoid_typeobjs w ≠ ∅ →
  get_type_obj typeoid w = (Ret (_typoid_typeobjs w !! typeoid), w).
Proof.
  intros Hne. unfold get_type_obj. erewrite bind_ret by reflexivity.
  by rewrite bool_decide_eq_false_2.
Qed.

Lemma describe_fallback (res : SPIResult) (s : World * Cursor) :
  has_colnames res = false →
  Cursor.describe res s
  = (Ret match rows res with
         | [] => [(None, None)]
         | row :: _ => map (λ name, (Some name, None)) (keys row)
         end, s).
Proof.
  intros Hcol. unfold Cursor.describe. rewrite Hcol.
  destruct (rows res) as [|row rest]; [reflexivity|].
  rewrite len_cons.
  rewrite (proj2 (Z.ltb_lt 0 (1 + len rest)))
    by (pose proof (len_nonneg rest); lia).
  erewrite bind_ret by reflexivity.
  rewrite (comprehension_pure _
             (λ name : string, Some (Some name, @None TypeObj)) KeyError)
    by done.
  by rewrite mapM_total.
Qed.

Lemma describe_cached (res : SPIResult) (w : World) (c : Cursor) :
  has_colnames res = true →
  _typoid_typeobjs w ≠ ∅ →
  Cursor.describe res (w, c)
  = (Ret (map (λ col, (Some col.1, _typoid_typeobjs w !! col.2))
            (zip (colnames res) (coltypes res))), (w, c)).
Proof.
  intros Hcol Hne. unfold Cursor.describe. rewrite Hcol.
  rewrite (comprehension_pure _
             (λ col : string * Z,
                Some (Some col.1, _typoid_typeobjs w !! col.2)) KeyError).
  - by rewrite mapM_total.
  - intros [name typeoid]. unfold bind, Cursor.in_world, zoom. cbn [fst snd].
    by rewrite (get_type_obj_cached typeoid w Hne).
Qed.

Lemma store_result_with_rows (res : SPIResult) (w : World) (c : Cursor)
    (tuples : list (list PyVal)) (d : list DescItem) :
  row_returning res = true →
  (∀ s, Cursor.materialize res s = (Ret tuples, s)) →
  (∀ c', Cursor.describe res (w, c') = (Ret d, (w, c'))) →
  Cursor.store_result res (w, c)
  = (Ret tt, (w, with_rows tuples d (nrows res) c)).
Proof.
  intros Hrr Hmat Hdesc.
  pose proof (row_returning_not_utility res Hrr) as Hcount.
  unfold row_returning in Hrr. unfold recorded_rowcount in Hcount.
  unfold Cursor.store_result.
  do 4 (erewrite bind_ret by reflexivity). rewrite Hrr.
  erewrite bind_ret; [|].
  2:{ erewrite bind_ret by apply Hmat.
      do 2 (erewrite bind_ret by reflexivity).
      erewrite bind_ret by apply Hdesc. reflexivity. }
  destruct (status res =? Cursor._SPI_OK_UTILITY);
    unfold Cursor.assign, modify; cbn [fst snd]; unfold with_rows;
    by rewrite ?Hcount.
Qed.

Lemma store_result_key_error (res : SPIResult) (w : World) (c : Cursor) :
  row_returning res = true →
  (∀ s, Cursor.materialize res s = (Raise KeyError, s)) →
  Cursor.store_result res (w, c) = (Raise KeyError, (w, reset c)).
Proof.
  intros Hrr Hmat. unfold row_returning in Hrr. unfold Cursor.store_result.
  do 4 (erewrite bind_ret by reflexivity). rewrite Hrr.
  erewrite bind_raise; [reflexivity|].
  erewrite bind_raise; [reflexivity|]. apply Hmat.
Qed.
End StoreResult.

Section Results.
Context `{Interpreter} `{Plpy}.

(** X15. A statement whose status is none of select, insert returning,
    delete returning and update returning leaves the cursor without a
    buffer, a position and a description, whatever it held before; the row
    count is -1 for a utility statement and the host's count otherwise, and
    the fetch methods raise [Error] after it. *)
Theorem execute_without_rows (operation : string)
    (parameters : option (list PyVal)) (w : World) (c : Cursor) (conn : nat)
    (query : string) (res : SPIResult) (s2 : World * Cursor) :
  closed c = false →
  connection c = Some conn →
  conn_closed (the_connection w conn) = false →
  py_format operation (Cursor.placeholders (submit operation parameters))
    = Ret query →
  statement query (submit operation parameters) (begun conn (w, c))
    = (Ret res, s2) →
  row_returning res = false →
  let after :=
    (s2.1, Cursor.set_rowcount (recorded_rowcount res) (reset c)) in
  Cursor.execute operation parameters (w, c) = (Ret tt, after) ∧
  Cursor.fetchone after = (Raise (Error None), after) ∧
  (∀ size, Cursor.fetchmany size after = (Raise (Error None), after)) ∧
  Cursor.fetchall after = (Raise (Error None), after).
Proof.
  intros Hc Hconn Hopen Hq Hhost Hrr after. split.
  - rewrite (execute_stores _ _ _ _ _ _ _ _ Hc Hconn Hopen Hq Hhost).
    by apply store_result_without_rows.
  - by apply fetch_without_result.
Qed.

(** X16. A result with rows from a host whose results have no [colnames]
    method: the buffer holds, for every row, the values in the order of the
    keys of that row, the position is 0, the row count is the host's, and
    the description names the keys of the first row, without types, or is
    one entry of [None]s when there is no row. No call is made to the host
    for it. *)
Theorem execute_rows_by_keys (operation : string)
    (parameters : option (list PyVal)) (w : World) (c : Cursor) (conn : nat)
    (query : string) (res : SPIResult) (s2 : World * Cursor) :
  closed c = false →
  connection c = Some conn →
  conn_closed (the_connection w conn) = false →
  py_format operation (Cursor.placeholders (submit operation parameters))
    = Ret query →
  statement query (submit operation parameters) (begun conn (w, c))
    = (Ret res, s2) →
  row_returning res = true →
  has_colnames res = false →
  Forall (λ row, NoDup (keys row)) (rows res) →
  Cursor.execute operation parameters (w, c)
  = (Ret tt,
     (s2.1,
      with_rows (map (map snd) (rows res))
        match rows res with
        | [] => [(None, None)]
        | row :: _ => map (λ name, (Some name, None)) (keys row)
        end
        (nrows res) c)).
Proof.
  intros Hc Hconn Hopen Hq Hhost Hrr Hcol Hrows.
  rewrite (execute_stores _ _ _ _ _ _ _ _ Hc Hconn Hopen Hq Hhost).
  apply store_result_with_rows; [done| |].
  - intros s. by apply materialize_fallback.
  - intros c'. by apply describe_fallback.
Qed.

(** X17. A result with rows from a host whose results have [colnames],
    with the type cache filled: every row is read in the order of
    [colnames()], the description pairs the [colnames()] with the type
    objects that the cache has for the [coltypes()], and no call is made
    to the host for it. When a row lacks one of the columns, [execute]
    raises [KeyError] and the cursor is left reset, without a buffer. *)
Theorem execute_rows_by_colnames (operation : string)
    (parameters : option (list PyVal)) (w : World) (c : Cursor) (conn : nat)
    (query : string) (res : SPIResult) (s2 : World * Cursor) :
  closed c = false →
  connection c = Some conn →
  conn_closed (the_connection w conn) = false →
  py_format operation (Cursor.placeholders (submit operation parameters))
    = Ret query →
  statement query (submit operation parameters) (begun conn (w, c))
    = (Ret res, s2) →
  row_returning res = true →
  has_colnames res = true →
  _typoid_typeobjs s2.1 ≠ ∅ →
  let read := mapM (λ row, mapM (assoc row) (colnames res)) (rows res) in
  (∀ tuples : list (list PyVal),
     read = Some tuples →
     Cursor.execute operation parameters (w, c)
     = (Ret tt,
        (s2.1,
         with_rows tuples
           (map (λ col, (Some col.1, _typoid_typeobjs s2.1 !! col.2))
              (zip (colnames res) (coltypes res)))
           (nrows res) c))) ∧
  (read = None →
   Cursor.execute operation parameters (w, c)
   = (Raise KeyError, (s2.1, reset c))).
Proof.
  intros Hc Hconn Hopen Hq Hhost Hrr Hcol Hcache read.
  rewrite (execute_stores _ _ _ _ _ _ _ _ Hc Hconn Hopen Hq Hhost).
  split.
  - intros tuples Hread. apply store_result_with_rows; [done| |].
    + intros s. rewrite (materialize_colnames res s Hcol). fold read.
      by rewrite Hread.
    + intros c'. by apply describe_cached.
  - intros Hread. apply store_result_key_error; [done|].
    intros s. rewrite (materialize_colnames res s Hcol). fold read.
    by rewrite Hread.
Qed.
End Results.

(** ** The type cache *)

Lemma with_cache_id (w : World) : with_cache (_typoid_typeobjs w) w = w.
Proof. by destruct w. Qed.

Lemma bind_assoc {S A B C} (m : M S A) (f : A → M S B) (g : B → M S C)
    (s : S) :
  bind (bind m f) g s = bind m (λ a, bind (f a) g) s.
Proof. unfold bind. by destruct (m s) as [[a|e|] s']. Qed.

Section TypeCache.
Context `{Plpy}.

Lemma host_calls (query : string) (types : list string) (values : list PyVal)
    (w : World) :
  (let* plan := plpy.prepare query types in plpy.execute plan values) w
  = match spi_prepare (history w) query types with
    | inl e => (Raise (HostError e), log_event (EvPrepare query types) w)
    | inr plan =>
        let w2 := log_event (EvPrepare query types) w in
        let w3 := log_event (EvExecute plan values) w2 in
        match spi_execute (history w2) plan values with
        | inl e => (Raise (HostError e), w3)
        | inr res => (Ret res, w3)
        end
    end.
Proof.
  unfold plpy.prepare, plpy.execute, bind, get, record_event, modify.
  destruct (spi_prepare (history w) query types) as [e|plan]; [reflexivity|].
  cbn. by destruct (spi_execute _ plan values).
Qed.

Lemma register_type_row (t : Z * string * string) (w : World) :
  register_type (catalogue_row t) w
  = (Ret tt, with_cache (learn (_typoid_typeobjs w) t) w).
Proof.
  destruct t as [[oid typname] typcategory].
  unfold register_type, catalogue_row, learn, type_object.
  erewrite bind_ret by reflexivity. erewrite bind_ret by reflexivity.
  destruct (_typcategory_typeobjs !! typcategory) as [t|].
  - do 2 (erewrite bind_ret by reflexivity). reflexivity.
  - do 2 (erewrite bind_ret by reflexivity).
    destruct (_typname_typeobjs !! typname) as [t|].
    + do 2 (erewrite bind_ret by reflexivity). reflexivity.
    + unfold ret. by rewrite with_cache_id.
Qed.

Lemma register_types (ts : list (Z * string * string)) :
  ∀ w : World,
    for_each (map catalogue_row ts) register_type w
    = (Ret tt, with_cache (fold_left learn ts (_typoid_typeobjs w)) w).
Proof.
  induction ts as [|t ts IH]; intros w.
  - cbn. unfold ret. by rewrite with_cache_id.
  - cbn [map for_each fold_left].
    erewrite bind_ret by apply register_type_row. by rewrite IH.
Qed.

(** X18. The type cache is filled by the first call of [get_type_obj] and
    read by the later ones. With a cache that is not empty, [get_type_obj]
    makes no call to the host and returns what the cache has for the type,
    [None] for a type that is not in it. With an empty cache it sends the
    query of [pg_type] to the host and learns the rows of the answer one
    after the other before it looks the type up; an answer from which
    nothing was learnt leaves the cache empty, so that the next call asks
    again. *)
Theorem get_type_obj_fills_cache (typeoid : Z) (w : World) :
  (_typoid_typeobjs w ≠ ∅ →
   get_type_obj typeoid w = (Ret (_typoid_typeobjs w !! typeoid), w)) ∧
  (∀ (plan : Plan) (res : SPIResult) (ts : list (Z * string * string)),
     _typoid_typeobjs w = ∅ →
     let asked := log_event (EvPrepare catalogue_query []) w in
     spi_prepare (history w) catalogue_query [] = inr plan →
     spi_execute (history asked) plan [] = inr res →
     rows res = map catalogue_row ts →
     let cache := fold_left learn ts ∅ in
     get_type_obj typeoid w
     = (Ret (cache !! typeoid),
        with_cache cache (log_event (EvExecute plan []) asked))).
Proof.
  split; [apply get_type_obj_cached|].
  intros plan res ts Hempty asked Hprep Hrun Hrows cache.
  unfold get_type_obj. erewrite bind_ret by reflexivity.
  rewrite bool_decide_eq_true_2 by done.
  assert (Hfill :
    (let* plan := plpy.prepare catalogue_query [] in
     let* res := plpy.execute plan [] in
     for_each (rows res) register_type) w
    = (Ret tt, with_cache cache (log_event (EvExecute plan []) asked))).
  { rewrite <- bind_assoc.
    erewrite bind_ret
      by (rewrite host_calls, Hprep; cbv zeta; fold asked; by rewrite Hrun).
    rewrite Hrows, register_types.
    change (_typoid_typeobjs (log_event (EvExecute plan []) asked))
      with (_typoid_typeobjs w).
    by rewrite Hempty. }
  erewrite bind_ret by exact Hfill.
  erewrite bind_ret by reflexivity. reflexivity.
Qed.
End TypeCache.




Lemma execute_without_rows_witness :
  ∃ w2 : World,
    @Cursor.execute python2 demo_plpy "create table t (a int)" None selected
    = (Ret tt, (w2, Cursor.set_rowcount (-1) (reset selected.2))).
Proof.
  eexists.
  edestruct (@execute_without_rows python2 demo_plpy "create table t (a int)"
               None selected.1 selected.2 0%nat "create table t (a int)"
               utility) as [Hrun _];
    [reflexivity | reflexivity | reflexivity | reflexivity | reflexivity
    | reflexivity |].
  exact Hrun.
Defined.

Lemma execute_rows_by_keys_witness :
  ∃ w2 : World,
    @Cursor.execute python2 old_plpy "select name from booze" None fresh
    = (Ret tt,
       (w2, with_rows [[PyStr "Victoria Bitter"]; [PyStr "Cooper's"]]
              [(Some "name", None)] 2 fresh.2)).
Proof.
  eexists.
  refine (@execute_rows_by_keys python2 old_plpy "select name from booze"
            None fresh.1 fresh.2 0%nat "select name from booze" old_booze
            (_, _) eq_refl eq_refl eq_refl eq_refl eq_refl eq_refl eq_refl _).
  repeat constructor; by apply (bool_decide_unpack _).
Defined.

Lemma execute_rows_by_colnames_witness :
  ∃ w2 : World,
    @Cursor.execute python2 demo_plpy "select name from booze" None selected
    = (Ret tt,
       (w2, with_rows [[PyStr "Victoria Bitter"]; [PyStr "Cooper's"]]
              [(Some "name", Some STRING)] 2 selected.2)).
Proof.
  eexists.
  edestruct (@execute_rows_by_colnames python2 demo_plpy
               "select name from booze" None selected.1 selected.2 0%nat
               "select name from booze" booze) as [Hrows _];
    [reflexivity | reflexivity | reflexivity | reflexivity | reflexivity
    | reflexivity | reflexivity | |].
  - intros Hempty. apply (f_equal (λ m : gmap Z TypeObj, m !! 25)) in Hempty.
    vm_compute in Hempty. discriminate Hempty.
  - apply (Hrows [[PyStr "Victoria Bitter"]; [PyStr "Cooper's"]]).
    reflexivity.
Defined.

Lemma get_type_obj_fills_cache_witness :
  @get_type_obj demo_plpy 25 selected.1 = (Ret (Some STRING), selected.1).
Proof.
  destruct (@get_type_obj_fills_cache demo_plpy 25 selected.1) as [Hcached _].
  apply Hcached.
  intros Hempty. apply (f_equal (λ m : gmap Z TypeObj, m !! 25)) in Hempty.
  vm_compute in Hempty. discriminate Hempty.
Defined.


(** ** [executemany] *)

Lemma accumulate_stuck (rowcounts : list Z) : accumulate (-1) rowcounts = -1.
Proof.
  unfold accumulate. induction rowcounts as [|rc rest IH]; [reflexivity|].
  cbn [fold_left]. exact IH.
Qed.

Section Executemany.
Context `{Interpreter} `{Plpy}.

Lemma executemany_loop_raises (operation : string)
    (done : list (option (list PyVal))) :
  ∀ (totalcount : Z) (s s1 s2 : World * Cursor) (rowcounts : list Z)
    (parameters : option (list PyVal)) (rest : list (option (list PyVal)))
    (e : exn),
    executions operation done s = Some (rowcounts, s1) →
    Cursor.execute operation parameters s1 = (Raise e, s2) →
    Cursor.executemany_loop operation (done ++ parameters :: rest)
      totalcount s
    = (Raise e, s2).
Proof.
  induction done as [|p done IH];
    intros totalcount s s1 s2 rowcounts parameters rest e Hdone Hfail.
  - injection Hdone as <- <-. cbn [app Cursor.executemany_loop].
    by erewrite bind_raise by exact Hfail.
  - cbn [executions] in Hdone. cbn [app Cursor.executemany_loop].
    destruct (Cursor.execute operation p s) as [[[]| |] s'] eqn:Hex;
      try discriminate Hdone.
    destruct (executions operation done s') as [[rcs s'']|] eqn:Hrest;
      [|discriminate Hdone].
    injection Hdone as <- <-.
    erewrite bind_ret by exact Hex. erewrite bind_ret by reflexivity.
    by eapply IH.
Qed.

(** X20. [executemany] stops at the first execution that raises: the
    exception leaves [executemany], the parameter sets after it are not
    executed, and the cursor is left as the failing [execute] left it,
    without the total in [rowcount]. With no parameter set at all it
    executes nothing, does not look at [closed], and sets [rowcount] to
    0. *)
Theorem executemany_stops_at_error (operation : string)
    (s : World * Cursor) :
  Cursor.executemany operation [] s
  = (Ret tt, (s.1, Cursor.set_rowcount 0 s.2)) ∧
  (∀ (done rest : list (option (list PyVal)))
     (parameters : option (list PyVal)) (rowcounts : list Z)
     (s1 s2 : World * Cursor) (e : exn),
     executions operation done s = Some (rowcounts, s1) →
     Cursor.execute operation parameters s1 = (Raise e, s2) →
     Cursor.executemany operation (done ++ parameters :: rest) s
     = (Raise e, s2)).
Proof.
  split; [reflexivity|].
  intros done rest parameters rowcounts s1 s2 e Hdone Hfail.
  unfold Cursor.executemany.
  by erewrite bind_raise by (by eapply executemany_loop_raises).
Qed.

(** X21. When every execution returns, [executemany] leaves the cursor of
    the last execution with a total in [rowcount]: the sum of the row
    counts when none of them is negative, and -1 when the first execution
    left -1, whatever the later ones left. *)
Theorem executemany_total (operation : string)
    (seq_of_parameters : list (option (list PyVal)))
    (s s' : World * Cursor) (rowcounts : list Z) :
  executions operation seq_of_parameters s = Some (rowcounts, s') →
  length rowcounts = length seq_of_parameters ∧
  Cursor.executemany operation seq_of_parameters s
  = (Ret tt, (s'.1, Cursor.set_rowcount (accumulate 0 rowcounts) s'.2)) ∧
  (Forall (λ rc, 0 ≤ rc) rowcounts →
   accumulate 0 rowcounts = foldr Z.add 0 rowcounts) ∧
  (∀ rest, rowcounts = -1 :: rest → accumulate 0 rowcounts = -1).
Proof.
  intros Hrun. split; [|split; [by apply executemany_accumulates|split]].
  - revert s rowcounts Hrun.
    induction seq_of_parameters as [|p ps IH]; intros s rowcounts Hrun.
    + by injection Hrun as <- _.
    + cbn [executions] in Hrun.
      destruct (Cursor.execute operation p s) as [[[]| |] s1];
        try discriminate Hrun.
      destruct (executions operation ps s1) as [[rcs s2]|] eqn:Hrest;
        [|discriminate Hrun].
      injection Hrun as <- <-. cbn [length]. f_equal. by eapply IH.
  - intros Hall. by rewrite accumulate_known.
  - intros rest ->. unfold accumulate. cbn [fold_left].
    apply accumulate_stuck.
Qed.
End Executemany.

Lemma executemany_stops_at_error_witness :
  @Cursor.executemany python2 demo_plpy "tally %s"
    ([Some [PyInt 3]] ++ None :: [Some [PyInt 4]]) fresh
  = (Raise TypeError,
     state_after (@Cursor.execute python2 demo_plpy "tally %s" None)
       (state_after
          (@Cursor.execute python2 demo_plpy "tally %s" (Some [PyInt 3]))
          fresh)).
Proof.
  destruct (@executemany_stops_at_error python2 demo_plpy "tally %s" fresh)
    as [_ Hstop].
  eapply Hstop; reflexivity.
Defined.

Lemma executemany_total_witness :
  rowcount
    (state_after
       (@Cursor.executemany python2 demo_plpy "tally %s"
          [Some [PyInt 3]; Some [PyInt 4]]) fresh).2
  = 4.
Proof.
  edestruct (@executemany_total python2 demo_plpy "tally %s"
               [Some [PyInt 3]; Some [PyInt 4]] fresh) as (_ & Hrun & _);
    [reflexivity|].
  unfold state_after. rewrite Hrun. reflexivity.
Defined.

(** ** Parameters that do not fit the statement *)

Lemma py_format_left_over (s : string) (a : string) (args : list string) :
  percent_free s = true → py_format s (a :: args) = Raise TypeError.
Proof.
  induction s as [|c s IH]; intros Hs; [reflexivity|].
  cbn [percent_free] in Hs. apply andb_true_iff in Hs as [Hc Hs].
  apply negb_true_iff in Hc.
  by rewrite (py_format_char _ _ _ Hc), (IH Hs).
Qed.

Lemma py_format_mismatch (rest : list string) :
  ∀ (first : string) (args : list string),
    percent_free first = true →
    Forall (λ s, percent_free s = true) rest →
    length rest ≠ length args →
    py_format (template first rest) args = Raise TypeError.
Proof.
  induction rest as [|s rest IH]; intros first args Hfirst Hrest Hlen.
  - destruct args as [|a args]; [done|]. by apply py_format_left_over.
  - apply Forall_cons in Hrest as [Hs Hrest]. cbn [template].
    rewrite (py_format_percent_free _ _ _ Hfirst).
    change ("%s" +:+ template s rest)
      with (String "%" (String "s" (template s rest))).
    cbn [py_format]. destruct args as [|a args]; [reflexivity|].
    rewrite (IH s args Hs Hrest); [reflexivity|].
    cbn [length] in Hlen. lia.
Qed.

Section Mismatch.
Context `{Interpreter} `{Plpy}.

(** X22. A statement with [%s] markers and a parameter list of another
    length: [execute] raises [TypeError]. By then the transaction has been
    opened, but nothing is sent to the host for the statement and the
    cursor is as it was, with the result of the execution before. *)
Theorem execute_parameter_mismatch (first : string) (rest : list string)
    (parameters : option (list PyVal)) (w : World) (c : Cursor) (conn : nat) :
  closed c = false →
  connection c = Some conn →
  conn_closed (the_connection w conn) = false →
  percent_free first = true →
  Forall (λ s, percent_free s = true) rest →
  length rest ≠ length (Cursor.or_empty parameters) →
  Cursor.execute (template first rest) parameters (w, c)
  = (Raise TypeError, begun conn (w, c)) ∧
  (begun conn (w, c)).2 = c ∧
  history (begun conn (w, c)).1
  = history w ++
    match _subxact (the_connection w conn) with
    | Some _ => []
    | None => [EvEnter (length (history w))]
    end.
Proof.
  intros Hc Hconn Hopen Hfirst Hrest Hlen. split; [|split].
  - rewrite (execute_begins _ _ _ _ _ Hc Hconn Hopen).
    apply bind_raise. f_equal.
    apply py_format_mismatch; [done..|].
    unfold submit. rewrite bind_parameters_eq. cbn [Cursor.placeholders].
    by rewrite placeholders_from_length.
  - apply ensure_transaction_cursor.
  - rewrite begun_world. unfold state_after.
    destruct (_subxact (the_connection w conn)) as [x|] eqn:Hx.
    + rewrite (ensure_transaction_open conn w x Hx). cbn [snd].
      by rewrite app_nil_r.
    + destruct (ensure_transaction_opens conn w Hx) as (w1 & Hrun & _ & Hh).
      by rewrite Hrun.
Qed.
End Mismatch.

Lemma execute_parameter_mismatch_witness :
  @Cursor.execute python2 demo_plpy "select %s, %s" (Some [PyInt 1]) selected
  = (Raise TypeError, selected).
Proof.
  destruct (@execute_parameter_mismatch python2 demo_plpy "select "
              [", "; ""] (Some [PyInt 1]) selected.1 selected.2 0%nat)
    as [Hraise _];
    [reflexivity | reflexivity | reflexivity | reflexivity
    | repeat constructor | discriminate |].
  exact Hraise.
Defined.

(** ** Types and values by class *)

(** X23. The type and the queued value of a parameter, class by class,
    for the classes that have values in the interpreter: [bool] gives
    bool, [Decimal] numeric, [float] float8, [int] and [long] int, the
    byte classes ([bytes] of Python 3, [memoryview], [buffer],
    [bytearray]) bytea, [list] text[], and everything else text, among it
    [None], [str], [unicode], [tuple] and, in Python 2, the [str] that
    [bytes] is another name of. The value is queued as it is, except a
    [memoryview], which is queued as the [bytes] object of its content. *)
Theorem parameter_table `{Interpreter} (v : PyVal) :
  inhabited_class v = true →
  py_param_to_pg_type v
  = match v with
    | PyBool _ => "bool"
    | PyDecimal _ => "numeric"
    | PyFloat _ => "float8"
    | PyInt _ | PyLong _ => "int"
    | PyBytes _ | PyMemoryview _ | PyBuffer _ | PyBytearray _ => "bytea"
    | PyList _ => "text[]"
    | PyNone | PyStr _ | PyUnicode _ | PyTuple _ | PyObject _ => "text"
    end ∧
  queued v
  = match v with
    | PyMemoryview b =>
        if python3 then PyBytes b else PyStr (string_of_list_byte b)
    | _ => v
    end.
Proof.
  destruct H as [[]]; destruct v; intros Hv; try discriminate Hv;
    split; reflexivity.
Qed.

Lemma parameter_table_witness :
  @py_param_to_pg_type python2 (PyStr "abc") = "text" ∧
  @py_param_to_pg_type python_3 (PyBytes []) = "bytea".
Proof.
  split.
  - apply (@parameter_table python2 (PyStr "abc")). reflexivity.
  - apply (@parameter_table python_3 (PyBytes [])). reflexivity.
Defined.

(** ** Literals of dates and times *)

Lemma string_append_assoc (a b c : string) :
  (a +:+ b) +:+ c = a +:+ b +:+ c.
Proof.
  induction a as [|x a IH]; [reflexivity|].
  cbv [String.append] in *. by rewrite IH.
Qed.

Lemma below_checked (check : Z → bool) (bound : Z) :
  forallb (λ k, check (Z.of_nat k)) (seq 0 (Z.to_nat bound)) = true →
  ∀ n : Z, 0 ≤ n < bound → check n = true.
Proof.
  intros Hall n Hn. rewrite forallb_forall in Hall.
  rewrite <- (Z2Nat.id n) by lia. apply Hall, in_seq. lia.
Qed.

Lemma four_digits_below (n : Z) : 0 ≤ n < 10000 → four_digits n = true.
Proof. apply (below_checked four_digits 10000). by vm_compute. Qed.

Lemma two_digits_below (n : Z) : 0 ≤ n < 100 → two_digits n = true.
Proof. apply (below_checked two_digits 100). by vm_compute. Qed.

Lemma four_digits_shape (n : Z) :
  four_digits n = true →
  ∃ a b c d : ascii,
    zero_padded 4 n = String a (String b (String c (String d ""))) ∧
    read_number (String a (String b (String c (String d "")))) = Some n.
Proof.
  unfold four_digits. intros Hn.
  destruct (zero_padded 4 n) as [|a [|b [|c [|d [|]]]]]; try discriminate Hn.
  apply bool_decide_eq_true in Hn. by exists a, b, c, d.
Qed.

Lemma two_digits_shape (n : Z) :
  two_digits n = true →
  ∃ a b : ascii,
    zero_padded 2 n = String a (String b "") ∧
    read_number (String a (String b "")) = Some n.
Proof.
  unfold two_digits. intros Hn.
  destruct (zero_padded 2 n) as [|a [|b [|]]]; try discriminate Hn.
  apply bool_decide_eq_true in Hn. by exists a, b.
Qed.

(** X24. [Date], [Time] and [Timestamp] only format their arguments: no
    range of a month, a day or an hour is checked. For a year from 0 to
    9999 and a month and a day from 0 to 99, [Date] is a text of ten
    characters from which the three numbers are read back, so that
    different dates have different texts; and [Timestamp] is the [Date],
    a space and the [Time] of its arguments. *)
Theorem date_literals (year month day : Z) :
  0 ≤ year < 10000 → 0 ≤ month < 100 → 0 ≤ day < 100 →
  String.length (Date year month day) = 10%nat ∧
  read_date (Date year month day) = Some (year, month, day) ∧
  (∀ year' month' day' : Z,
     0 ≤ year' < 10000 → 0 ≤ month' < 100 → 0 ≤ day' < 100 →
     Date year' month' day' = Date year month day →
     (year', month', day') = (year, month, day)) ∧
  (∀ hour minute second : Z,
     Timestamp year month day hour minute second
     = Date year month day +:+ " " +:+ Time hour minute second).
Proof.
  intros Hy Hm Hd.
  assert (Hread : ∀ y m d : Z,
            0 ≤ y < 10000 → 0 ≤ m < 100 → 0 ≤ d < 100 →
            String.length (Date y m d) = 10%nat ∧
            read_date (Date y m d) = Some (y, m, d)).
  { intros y m d Hy' Hm' Hd'.
    destruct (four_digits_shape y (four_digits_below y Hy'))
      as (y1 & y2 & y3 & y4 & Hys & Hyr).
    destruct (two_digits_shape m (two_digits_below m Hm'))
      as (m1 & m2 & Hms & Hmr).
    destruct (two_digits_shape d (two_digits_below d Hd'))
      as (d1 & d2 & Hds & Hdr).
    unfold Date. rewrite Hys, Hms, Hds. split; [reflexivity|].
    cbv [String.append read_date]. rewrite Hyr, Hmr, Hdr. reflexivity. }
  destruct (Hread year month day Hy Hm Hd) as [Hlen Hback].
  split; [exact Hlen|]. split; [exact Hback|]. split.
  - intros year' month' day' Hy' Hm' Hd' Heq.
    destruct (Hread year' month' day' Hy' Hm' Hd') as [_ Hback'].
    rewrite Heq, Hback in Hback'. by injection Hback' as -> -> ->.
  - intros hour minute second. unfold Timestamp, Date.
    by rewrite !string_append_assoc.
Qed.

Lemma date_literals_witness :
  Date 2026 11 3 = "2026-11-03" ∧
  read_date (Date 2026 11 3) = Some (2026, 11, 3).
Proof.
  destruct (date_literals 2026 11 3) as (_ & Hback & _);
    [split; [discriminate | reflexivity]..|].
  split; [reflexivity | exact Hback].
Defined.

(** ** Sequences of calls *)

(** What every call keeps is kept by a sequence of calls. *)
Lemma perform_all_preserves `{Interpreter} `{Plpy}
    (P : World * Cursor → Prop) :
  (∀ c : call, preserves P (perform c)) →
  ∀ (cs : list call) (s : World * Cursor), P s → P (perform_all cs s).
Proof.
  intros Hstep cs. induction cs as [|c cs IH]; intros s Hs; [exact Hs|].
  cbn [perform_all]. apply IH. by apply Hstep.
Qed.

Lemma preserves_forget {S A} (P : S → Prop) (m : M S A) :
  preserves P m → preserves P (forget m).
Proof.
  intros Hm. unfold forget. apply preserves_bind; [exact Hm|].
  intros _. apply preserves_ret.
Qed.

Ltac hold :=
  repeat first
    [ by intros ? ?
    | progress eauto with preserves
    | apply preserves_forget
    | apply preserves_bind; [|intros ?]
    | apply preserves_for_each; intros ?
    | apply preserves_comprehension; intros ?
    | apply preserves_except; [|intros ?]
    | apply preserves_assign_world
    | match goal with
      | |- preserves _ (if ?b then _ else _) => destruct b
      | |- preserves _ (match ?x with _ => _ end) => destruct x
      end ].

(** *** What the calls keep of the cursor *)

Section CursorAttributes.
Context `{Interpreter} `{Plpy}.
Context (k : option nat) (a : Z) (final : bool).

Let Q (s : World * Cursor) : Prop := bound_to k a final s.2.

Lemma bound_in_world {A} (m : M World A) : preserves Q (Cursor.in_world m).
Proof.
  intros [w c] Hs. unfold Cursor.in_world, zoom. cbn [fst snd] in *.
  by destruct (m w).
Qed.

Lemma bound_assign (f : Cursor → Cursor) :
  (∀ c, connection (f c) = connection c ∧ arraysize (f c) = arraysize c ∧
        (closed c = true → closed (f c) = true)) →
  preserves Q (Cursor.assign f).
Proof.
  intros Hf [w c] (Hk & Ha & Hc). destruct (Hf c) as (Hk' & Ha' & Hc').
  unfold Q, bound_to. cbn. rewrite Hk', Ha'. auto.
Qed.

Ltac bound :=
  repeat first
    [ apply bound_in_world
    | apply bound_assign; by intros ?
    | progress hold ].

Lemma store_result_bound (res : SPIResult) :
  preserves Q (Cursor.store_result res).
Proof.
  unfold Cursor.store_result, Cursor.materialize, Cursor.describe. bound.
Qed.

Lemma execute_bound (operation : string) (parameters : option (list PyVal)) :
  preserves Q (Cursor.execute operation parameters).
Proof.
  pose proof store_result_bound as Hstore.
  unfold Cursor.execute, Cursor._is_closed, Cursor.self, Cursor.world. bound.
Qed.

Lemma executemany_bound (operation : string)
    (seq_of_parameters : list (option (list PyVal))) :
  preserves Q (Cursor.executemany operation seq_of_parameters).
Proof.
  unfold Cursor.executemany. apply preserves_bind; [|intros; bound].
  generalize 0. induction seq_of_parameters as [|parameters rest IH];
    intros totalcount; cbn [Cursor.executemany_loop]; [bound|].
  apply preserves_bind; [apply execute_bound|]. intros _.
  unfold Cursor.self. bound.
Qed.

Lemma perform_bound (c : call) : preserves Q (perform c).
Proof.
  pose proof execute_bound as Hexecute.
  pose proof executemany_bound as Hmany.
  destruct c; cbn [perform];
    unfold Cursor.next, Cursor.fetchone, Cursor.fetchmany, Cursor.fetchall,
      Cursor.scroll, Cursor.close, Cursor.self;
    bound.
Qed.
End CursorAttributes.

(** *** What the calls keep of the world *)

Section WorldInvariant.
Context `{Interpreter} `{Plpy}.
Context (P : World → Prop).
Hypothesis P_event : ∀ ev : HostEvent, preserves P (record_event ev).
Hypothesis P_connection : ∀ self : nat,
  preserves P (Connection.commit self) ∧
  preserves P (Connection.rollback self) ∧
  preserves P (Connection.close self) ∧
  preserves P (Connection._ensure_transaction self).
Hypothesis P_connect : preserves P connect.
Hypothesis P_types : ∀ typeoid : Z, preserves P (get_type_obj typeoid).

Ltac world :=
  repeat first
    [ apply (preserves_in_world_of P)
    | apply P_event
    | apply P_types
    | apply P_connect
    | apply P_connection
    | progress hold ].

Lemma execute_world (operation : string) (parameters : option (list PyVal)) :
  preserves (λ s : World * Cursor, P s.1)
    (Cursor.execute operation parameters).
Proof.
  unfold Cursor.execute, Cursor._is_closed, Cursor.self, Cursor.world,
    Cursor.store_result, Cursor.materialize, Cursor.describe.
  world; unfold plpy.prepare, plpy.execute; world.
Qed.

Lemma executemany_world (operation : string)
    (seq_of_parameters : list (option (list PyVal))) :
  preserves (λ s : World * Cursor, P s.1)
    (Cursor.executemany operation seq_of_parameters).
Proof.
  unfold Cursor.executemany. apply preserves_bind; [|intros; world].
  generalize 0. induction seq_of_parameters as [|parameters rest IH];
    intros totalcount; cbn [Cursor.executemany_loop]; [world|].
  apply preserves_bind; [apply execute_world|]. intros _.
  unfold Cursor.self. world.
Qed.

Lemma perform_world (c : call) :
  preserves (λ s : World * Cursor, P s.1) (perform c).
Proof.
  pose proof execute_world as Hexecute.
  pose proof executemany_world as Hmany.
  destruct c; cbn [perform];
    unfold Cursor.next, Cursor.fetchone, Cursor.fetchmany, Cursor.fetchall,
      Cursor.scroll, Cursor.close, Cursor.self;
    world.
Qed.
End WorldInvariant.

Section Grown.
Context `{Interpreter} `{Plpy}.
Context (h : list HostEvent) (n : nat) (T : gmap Z TypeObj).

Lemma grown_event (ev : HostEvent) :
  preserves (grown_from h n T) (record_event ev).
Proof.
  apply preserves_modify. intros w (Hh & Hn & HT). repeat split; [|done..].
  cbn. by apply prefix_app_r.
Qed.

Lemma grown_set_connection (self : nat) (c : Connection) :
  preserves (grown_from h n T) (set_connection self c).
Proof. by apply preserves_modify. Qed.

Lemma grown_connection (self : nat) :
  preserves (grown_from h n T) (Connection.commit self) ∧
  preserves (grown_from h n T) (Connection.rollback self) ∧
  preserves (grown_from h n T) (Connection.close self) ∧
  preserves (grown_from h n T) (Connection._ensure_transaction self).
Proof.
  pose proof grown_event as Hevent.
  pose proof grown_set_connection as Hset.
  unfold Connection.close, Connection.commit, Connection.rollback,
    Connection._ensure_transaction, Connection.set_subxact,
    Connection.set_closed.
  split; [|split; [|split]]; hold.
Qed.

Lemma grown_connect : preserves (grown_from h n T) connect.
Proof.
  intros w (Hh & Hn & HT). repeat split; [done| |done]. cbn. lia.
Qed.

Lemma grown_types (typeoid : Z) :
  preserves (grown_from h n T) (get_type_obj typeoid).
Proof.
  destruct (decide (T = ∅)) as [HT|HT].
  - pose proof grown_event as Hevent.
    unfold get_type_obj, plpy.prepare, plpy.execute, register_type,
      dict_get, py_int, set_typoid_typeobj.
    hold; apply preserves_modify; intros w (Hh & Hn & _);
      by split; [|split].
  - intros w Hw. destruct Hw as (Hh & Hn & Hw).
    rewrite get_type_obj_cached; [done|]. by rewrite (Hw HT).
Qed.
End Grown.

Section Shut.
Context `{Interpreter} `{Plpy}.
Context (conn : nat).

Lemma shut_event (ev : HostEvent) : preserves (shut conn) (record_event ev).
Proof. by apply preserves_modify. Qed.

Lemma shut_set_subxact (self : nat) (x : option nat) :
  preserves (shut conn) (Connection.set_subxact self x).
Proof.
  intros w [Hc Ha]. split; [|exact Ha].
  unfold Connection.set_subxact, set_connection. cbn.
  destruct (decide (self = conn)) as [->|Hne].
  - by rewrite the_connection_insert.
  - by rewrite the_connection_insert_ne.
Qed.

Lemma shut_set_closed (self : nat) :
  preserves (shut conn) (Connection.set_closed self true).
Proof.
  intros w [Hc Ha]. split; [|exact Ha].
  unfold Connection.set_closed, set_connection. cbn.
  destruct (decide (self = conn)) as [->|Hne].
  - by rewrite the_connection_insert.
  - by rewrite the_connection_insert_ne.
Qed.

Lemma shut_connection (self : nat) :
  preserves (shut conn) (Connection.commit self) ∧
  preserves (shut conn) (Connection.rollback self) ∧
  preserves (shut conn) (Connection.close self) ∧
  preserves (shut conn) (Connection._ensure_transaction self).
Proof.
  pose proof shut_event as Hevent.
  pose proof shut_set_subxact as Hsub.
  pose proof shut_set_closed as Hclosed.
  unfold Connection.close, Connection.commit, Connection.rollback,
    Connection._ensure_transaction.
  split; [|split; [|split]]; hold.
Qed.

Lemma shut_connect : preserves (shut conn) connect.
Proof.
  intros w [Hc Ha]. split; [|cbn; lia]. cbn.
  rewrite the_connection_insert_ne; [done|lia].
Qed.

Lemma shut_types (typeoid : Z) : preserves (shut conn) (get_type_obj typeoid).
Proof.
  pose proof shut_event as Hevent.
  unfold get_type_obj, plpy.prepare, plpy.execute, register_type,
    dict_get, py_int, set_typoid_typeobj.
  hold; by apply preserves_modify.
Qed.
End Shut.

Section CallSequences.
Context `{Interpreter} `{Plpy}.

Lemma perform_positioned (c : call) : preserves positioned (perform c).
Proof.
  destruct c as [operation parameters|operation seq_of_parameters| |size| |
                 |value mode| | | | |]; cbn [perform];
    try apply preserves_forget; try apply preserves_in_world.
  - apply execute_preserves.
  - apply executemany_preserves.
  - apply (fetch_preserves None 0 "").
  - apply (fetch_preserves size 0 "").
  - apply (fetch_preserves None 0 "").
  - apply (fetch_preserves None 0 "").
  - apply (fetch_preserves None value mode).
  - apply (fetch_preserves None 0 "").
Qed.

(** X25. A cursor that [Connection.cursor] made, after any sequence of
    calls of the methods of the cursor and of the connections, whatever
    each of them returned or raised: it still belongs to its connection,
    [arraysize] is still 1, so that [fetchmany()] asks for one row, and a
    result buffer comes with a position, so that [fetchone] and
    [fetchmany] do not fail with the [TypeError] of a position that is
    [None], and [_is_closed] finds the connection. *)
Theorem reachable_cursor (cs : list call) (w : World) (conn : nat)
    (size : option Z) :
  let s := perform_all cs (w, Connection.cursor conn) in
  connection s.2 = Some conn ∧
  arraysize s.2 = 1 ∧
  positioned s ∧
  outcome_of Cursor.fetchone s ≠ Raise TypeError ∧
  outcome_of (Cursor.fetchmany size) s ≠ Raise TypeError ∧
  Cursor.fetchmany None s = Cursor.fetchmany (Some 1) s ∧
  outcome_of Cursor._is_closed s
  = Ret (closed s.2 || conn_closed (the_connection s.1 conn)).
Proof.
  intros s.
  assert (Hbound : bound_to (Some conn) 1 false s.2).
  { apply (perform_all_preserves
             (λ s, bound_to (Some conn) 1 false s.2)).
    - intros c. apply perform_bound.
    - by repeat split. }
  assert (Hpos : positioned s).
  { apply (perform_all_preserves positioned).
    - apply perform_positioned.
    - apply new_cursor_positioned. }
  destruct Hbound as (Hk & Ha & _).
  destruct s as [w' c]. cbn [fst snd] in *. unfold positioned in Hpos.
  cbn [snd] in Hpos.
  split; [exact Hk|]. split; [exact Ha|]. split; [exact Hpos|].
  unfold outcome_of, Cursor.fetchone, Cursor.fetchmany, Cursor._is_closed,
    Cursor.self, Cursor.world, bind.
  cbn [fst snd]. rewrite Hk, Ha.
  assert (Hclosed :
    ((if closed c then ret true
      else λ s : World * Cursor,
             ret (conn_closed (the_connection s.1 conn)) s) (w', c)).1
    = Ret (closed c || conn_closed (the_connection w' conn)))
    by (by destruct (closed c)).
  destruct (_execute_result c) as [result|] eqn:Hres;
    [|by repeat split].
  destruct (rownumber c) as [n|] eqn:Hn; [|by destruct Hpos].
  split; [|by repeat split].
  destruct (n =? len result); [by cbn|].
  unfold py_index. cbv zeta.
  destruct ((_ <? 0) || (_ <=? _)); [cbn; congruence|].
  destruct (result !! _); cbn; congruence.
Qed.

(** X26. Closing is final. A closed cursor stays closed through any
    sequence of calls, and so does a closed connection that [connect]
    made: no method opens them again, neither [commit] nor [rollback] nor
    a later [connect]. At the end of the sequence [execute] on the closed
    cursor, or on a cursor of the closed connection, raises [Error] and
    changes nothing. *)
Theorem closed_is_final (cs : list call) (s : World * Cursor) (conn : nat)
    (operation : string) (parameters : option (list PyVal)) :
  let s' := perform_all cs s in
  (closed s.2 = true →
   closed s'.2 = true ∧
   Cursor.execute operation parameters s' = (Raise (Error None), s')) ∧
  (connection s.2 = Some conn →
   (conn < allocated s.1)%nat →
   conn_closed (the_connection s.1 conn) = true →
   conn_closed (the_connection s'.1 conn) = true ∧
   Cursor.execute operation parameters s' = (Raise (Error None), s')).
Proof.
  intros s'. split.
  - intros Hc.
    assert (Hbound : bound_to (connection s.2) (arraysize s.2) true s'.2).
    { apply (perform_all_preserves
               (λ s0, bound_to (connection s.2) (arraysize s.2) true s0.2)).
      - intros c. apply perform_bound.
      - by repeat split. }
    destruct Hbound as (_ & _ & Hfinal). specialize (Hfinal eq_refl).
    split; [exact Hfinal|]. destruct s' as [w' c'].
    by apply execute_closed_cursor.
  - intros Hk Ha Hc.
    assert (Hbound : bound_to (Some conn) (arraysize s.2) false s'.2).
    { apply (perform_all_preserves
               (λ s0, bound_to (Some conn) (arraysize s.2) false s0.2)).
      - intros c. apply perform_bound.
      - by repeat split. }
    assert (Hshut : shut conn s'.1).
    { apply (perform_all_preserves (λ s0, shut conn s0.1)).
      - intros c. apply perform_world.
        + apply shut_event.
        + apply shut_connection.
        + apply shut_connect.
        + apply shut_types.
      - by split. }
    destruct Hbound as (Hk' & _ & _). destruct Hshut as [Hc' _].
    split; [exact Hc'|]. destruct s' as [w' c'].
    by apply (execute_closed_connection _ _ _ _ conn).
Qed.

(** X27. Through any sequence of calls the history of the host only
    grows: the calls made to the host so far stay as they are, in their
    order. No connection object is dropped from the count. And a type
    cache that holds an entry is never changed again: [get_type_obj] asks
    the host for the catalogue only while the cache is empty, so a type
    that the host learns of later gets no type object. *)
Theorem calls_only_add (cs : list call) (s : World * Cursor) :
  let s' := perform_all cs s in
  history s.1 `prefix_of` history s'.1 ∧
  (allocated s.1 ≤ allocated s'.1)%nat ∧
  (_typoid_typeobjs s.1 ≠ ∅ →
   _typoid_typeobjs s'.1 = _typoid_typeobjs s.1 ∧
   ∀ typeoid : Z,
     get_type_obj typeoid s'.1
     = (Ret (_typoid_typeobjs s.1 !! typeoid), s'.1)).
Proof.
  intros s'.
  assert (Hgrown :
    grown_from (history s.1) (allocated s.1) (_typoid_typeobjs s.1) s'.1).
  { apply (perform_all_preserves
             (λ s0, grown_from (history s.1) (allocated s.1)
                      (_typoid_typeobjs s.1) s0.1)).
    - intros c. apply perform_world.
      + apply grown_event.
      + apply grown_connection.
      + apply grown_connect.
      + apply grown_types.
    - by repeat split. }
  destruct Hgrown as (Hh & Hn & HT).
  split; [exact Hh|]. split; [exact Hn|]. intros Hne.
  specialize (HT Hne). split; [exact HT|]. intros typeoid.
  rewrite get_type_obj_cached by (by rewrite HT). by rewrite HT.
Qed.
End CallSequences.

Lemma closed_is_final_witness :
  let calls :=
    [Call_execute "select name from booze" None; Call_fetchone;
     Call_connect; Call_commit 0%nat] in
  closed
    (@perform_all python2 demo_plpy calls
       (state_after Cursor.close selected)).2 = true ∧
  conn_closed
    (the_connection
       (@perform_all python2 demo_plpy calls
          (state_after (Cursor.in_world (Connection.close 0%nat))
             selected)).1 0%nat)
  = true.
Proof.
  intros calls.
  destruct (@closed_is_final python2 demo_plpy calls
              (state_after Cursor.close selected) 0%nat "select 1" None)
    as [Hcursor _].
  destruct (@closed_is_final python2 demo_plpy calls
              (state_after (Cursor.in_world (Connection.close 0%nat))
                 selected) 0%nat "select 1" None) as [_ Hconnection].
  split.
  - apply Hcursor. reflexivity.
  - apply Hconnection; [reflexivity | vm_compute; lia | reflexivity].
Defined.

Lemma calls_only_add_witness :
  let calls :=
    [Call_execute "select name from booze" None; Call_fetchall;
     Call_rollback 0%nat; Call_connect] in
  _typoid_typeobjs (@perform_all python2 demo_plpy calls selected).1
  = _typoid_typeobjs selected.1.
Proof.
  intros calls.
  destruct (@calls_only_add python2 demo_plpy calls selected)
    as (_ & _ & Hcache).
  apply Hcache. by vm_compute.
Defined.
